(** * Caption burn-in service: a Rocq model of [services/caption_video_one.py]

    The development embeds the caption translation, styling and
    orchestration code of [services/caption_video_one.py] and checks the
    properties its specification states about it.

    Modelling conventions, fixed once and used throughout:

    - A Python [str] is a Rocq [string]; its characters are read as code
      points below 256.  Character classes (white space, decimal digits)
      are Python's, restricted to that range.
    - A Python [float] is a [pyfloat]: an exact rational, or one of the
      non-finite values [inf], [-inf], [nan].  The arithmetic of [PyFloat]
      on finite values is exact; [Binary64] gives the arithmetic of the
      timecodes (lines 95, 96, 120 and 121) with the rounding and the
      overflow of binary64.
    - A raised exception is a value of [exn]; a computation that may raise
      returns a [result].  Exception messages are not modelled.
    - Calls that leave the process (download, HTTP fetch, file writes, the
      encoder, upload, file removal, logging) append an [event] to a trace;
      what a call returns is read from a [world] record. *)

From Stdlib Require Import ZArith QArith Qround Qabs Lia Lqa.
From Stdlib Require Import Strings.String Strings.Ascii Strings.Byte.
From stdpp Require Import base option list gmap strings.
From Stdlib Require Import Qpower.

Open Scope string_scope.
Open Scope list_scope.

(** ** Exceptions and results *)

Inductive exn : Type :=
| ZeroDivisionError
| ValueError
| OverflowError
| IndexError
| TypeError
| UnicodeDecodeError (object : list byte)
| FfmpegError (stdout stderr : option (list byte))
| ExternalError (cls : string).

(** The name of the Python class of an exception. *)
Definition exn_class (e : exn) : string :=
  match e with
  | ZeroDivisionError => "ZeroDivisionError"
  | ValueError => "ValueError"
  | OverflowError => "OverflowError"
  | IndexError => "IndexError"
  | TypeError => "TypeError"
  | UnicodeDecodeError _ => "UnicodeDecodeError"
  | FfmpegError _ _ => "ffmpeg.Error"
  | ExternalError cls => cls
  end.

Inductive result (A : Type) : Type :=
| Ok (a : A)
| Raise (e : exn).
Arguments Ok {A} a.
Arguments Raise {A} e.

#[global] Instance result_ret : MRet result := fun A a => Ok a.
#[global] Instance result_bind : MBind result := fun A B f m =>
  match m with
  | Ok a => f a
  | Raise e => Raise e
  end.
#[global] Instance result_fmap : FMap result := fun A B f m =>
  match m with
  | Ok a => Ok (f a)
  | Raise e => Raise e
  end.

Definition is_ok {A} (r : result A) : bool :=
  match r with Ok _ => true | Raise _ => false end.

(** ** Python strings *)

Module PyStr.

(** [str.isspace] on code points below 256. *)
Definition is_space (c : ascii) : bool :=
  let n := nat_of_ascii c in
  ((9 <=? n)%nat && (n <=? 13)%nat) || ((28 <=? n)%nat && (n <=? 32)%nat)
  || (n =? 133)%nat || (n =? 160)%nat.

Definition is_digit (c : ascii) : bool :=
  let n := nat_of_ascii c in (48 <=? n)%nat && (n <=? 57)%nat.

(** Removal of the leading, trailing, or leading and trailing characters
    of class [p]. *)
Fixpoint lstrip_by (p : ascii -> bool) (s : string) : string :=
  match s with
  | EmptyString => EmptyString
  | String c s' => if p c then lstrip_by p s' else s
  end.

Fixpoint rstrip_by (p : ascii -> bool) (s : string) : string :=
  match s with
  | EmptyString => EmptyString
  | String c s' =>
      match rstrip_by p s' with
      | EmptyString => if p c then EmptyString else String c EmptyString
      | r => String c r
      end
  end.

Definition strip_by (p : ascii -> bool) (s : string) : string :=
  rstrip_by p (lstrip_by p s).

(** [s.strip()] *)
Definition strip (s : string) : string := strip_by is_space s.

(** [s.split()]: the maximal runs of characters that are not white space. *)
Fixpoint split_ws (s : string) : list string :=
  match s with
  | EmptyString => []
  | String c s' =>
      if is_space c then split_ws s'
      else
        match s' with
        | EmptyString => [String c EmptyString]
        | String c' _ =>
            if is_space c' then String c EmptyString :: split_ws s'
            else
              match split_ws s' with
              | w :: ws => String c w :: ws
              | [] => [String c EmptyString]
              end
        end
  end.

(** [s.split(sep)] for a non-empty [sep]: [skip] counts the characters
    of a matched separator that are still to be passed over, [cur] holds
    the current field, last character first. *)
Fixpoint split_go (sep : string) (skip : nat) (cur : string) (s : string)
  : list string :=
  match s with
  | EmptyString => [String.rev cur]
  | String c s' =>
      match skip with
      | S k => split_go sep k cur s'
      | O =>
          if String.prefix sep s
          then String.rev cur :: split_go sep (String.length sep - 1) EmptyString s'
          else split_go sep 0 (String c cur) s'
      end
  end.

Definition split (sep s : string) : list string := split_go sep 0 EmptyString s.

(** [sep.join(l)] *)
Fixpoint join (sep : string) (l : list string) : string :=
  match l with
  | [] => EmptyString
  | [x] => x
  | x :: l' => x +:+ sep +:+ join sep l'
  end.

(** [s.replace(old, new)] for one-character [old] and [new]. *)
Fixpoint replace1 (old new : ascii) (s : string) : string :=
  match s with
  | EmptyString => EmptyString
  | String c s' =>
      String (if Ascii.eqb c old then new else c) (replace1 old new s')
  end.

(** [s.startswith(p)] *)
Definition startswith (s p : string) : bool := String.prefix p s.

Definition digit_char (d : Z) : ascii := ascii_of_nat (48 + Z.to_nat d).

(** Decimal digits of a natural number, most significant first. *)
Fixpoint digits_go (fuel : nat) (n : Z) (acc : string) : string :=
  match fuel with
  | O => acc
  | S f =>
      let acc' := String (digit_char (n mod 10)) acc in
      if (n <? 10)%Z then acc' else digits_go f (n / 10) acc'
  end.

Definition digits (n : Z) : string :=
  digits_go (S (Z.to_nat (Z.log2 n))) n EmptyString.

(** [str(n)] for an [int]. *)
Definition of_int (n : Z) : string :=
  if (n <? 0)%Z then "-" +:+ digits (- n) else digits n.

Fixpoint zeros (k : nat) : string :=
  match k with O => EmptyString | S k' => String "0" (zeros k') end.

(** Zero padding to [width] between the sign and the digits, as the
    format specifications [0<width>d] and [0<width>.2f] do. *)
Definition zero_pad (width : nat) (sign body : string) : string :=
  sign +:+ zeros (width - String.length sign - String.length body) +:+ body.

(** [format(n, "02d")] *)
Definition fmt_02d (n : Z) : string :=
  if (n <? 0)%Z then zero_pad 2 "-" (digits (- n)) else zero_pad 2 "" (digits n).

(** [s.endswith(p)]: some suffix of [s] is [p]. *)
Fixpoint endswith (s p : string) : bool :=
  String.eqb s p
  || match s with
     | EmptyString => false
     | String _ s' => endswith s' p
     end.

(** [s.rfind(c)] for a one-character [c]: the last index of [c] in [s],
    if there is one. *)
Fixpoint rfind (c : ascii) (s : string) : option nat :=
  match s with
  | EmptyString => None
  | String x s' =>
      match rfind c s' with
      | Some i => Some (S i)
      | None => if Ascii.eqb x c then Some 0%nat else None
      end
  end.

End PyStr.

(** ** Python floats *)

Inductive pyfloat : Type :=
| PFin (q : Q)
| PInf (negative : bool)
| PNaN.

Module PyFloat.

Local Open Scope Q_scope.

Definition is_finite (x : pyfloat) : bool :=
  match x with PFin _ => true | _ => false end.

Definition add (x y : pyfloat) : pyfloat :=
  match x, y with
  | PFin a, PFin b => PFin (a + b)
  | PNaN, _ | _, PNaN => PNaN
  | PInf s, PFin _ | PFin _, PInf s => PInf s
  | PInf s, PInf t => if Bool.eqb s t then PInf s else PNaN
  end.

Definition neg (x : pyfloat) : pyfloat :=
  match x with
  | PFin a => PFin (- a)
  | PInf s => PInf (negb s)
  | PNaN => PNaN
  end.

Definition sub (x y : pyfloat) : pyfloat := add x (neg y).

(** [x * n] and [n * x] for an [int] [n]. *)
Definition mul_int (x : pyfloat) (n : Z) : pyfloat :=
  match x with
  | PFin a => PFin (a * inject_Z n)
  | PInf s => if (n =? 0)%Z then PNaN else PInf (xorb s (n <? 0)%Z)
  | PNaN => PNaN
  end.

(** [x / n] for an [int] [n]. *)
Definition div_int (x : pyfloat) (n : Z) : result pyfloat :=
  if (n =? 0)%Z then Raise ZeroDivisionError
  else Ok match x with
          | PFin a => PFin (a / inject_Z n)
          | PInf s => PInf (xorb s (n <? 0)%Z)
          | PNaN => PNaN
          end.

(** [x % n] for an [int] [n]: the result has the sign of [n]. *)
Definition mod_int (x : pyfloat) (n : Z) : result pyfloat :=
  if (n =? 0)%Z then Raise ZeroDivisionError
  else Ok match x with
          | PFin a => PFin (a - inject_Z n * inject_Z (Qfloor (a / inject_Z n)))
          | _ => PNaN
          end.

(** Truncation of a rational toward zero. *)
Definition Qtrunc (q : Q) : Z := Z.quot (Qnum q) (Z.pos (Qden q)).

(** [int(x)] *)
Definition to_int (x : pyfloat) : result Z :=
  match x with
  | PFin a => Ok (Qtrunc a)
  | PInf _ => Raise OverflowError
  | PNaN => Raise ValueError
  end.

(** Rounding of a non-negative rational to the nearest integer, ties to
    the even one. *)
Definition round_half_even (q : Q) : Z :=
  let f := Qfloor q in
  match ((q - inject_Z f) ?= (1 # 2))%Q with
  | Lt => f
  | Gt => (f + 1)%Z
  | Eq => if Z.even f then f else (f + 1)%Z
  end.

(** [format(x, "05.2f")] *)
Definition fmt_05_2f (x : pyfloat) : string :=
  match x with
  | PFin a =>
      let cs := round_half_even (Qabs a * inject_Z 100) in
      let body := PyStr.digits (cs / 100)%Z +:+ "." +:+ PyStr.fmt_02d (cs mod 100)%Z in
      PyStr.zero_pad 5 (if Qlt_le_dec a 0 then "-" else "") body
  | PInf s => PyStr.zero_pad 5 (if s then "-" else "") "inf"
  | PNaN => PyStr.zero_pad 5 "" "nan"
  end.

(** *** [float(s)] *)

(** The white space [float] skips around a number: the C locale's, and
    the two code points above 126 that Python maps to a blank first.
    The separators 28 to 31, which [str.strip] removes, are not in it. *)
Definition is_float_space (c : ascii) : bool :=
  let n := nat_of_ascii c in
  ((9 <=? n)%nat && (n <=? 13)%nat) || (n =? 32)%nat
  || (n =? 133)%nat || (n =? 160)%nat.

Fixpoint span_digits (s : string) : string * string :=
  match s with
  | EmptyString => (EmptyString, EmptyString)
  | String c s' =>
      if PyStr.is_digit c
      then let '(d, r) := span_digits s' in (String c d, r)
      else (EmptyString, s)
  end.

Definition digit_val (c : ascii) : Z := (Z.of_nat (nat_of_ascii c) - 48)%Z.

Fixpoint digits_value (acc : Z) (s : string) : Z :=
  match s with
  | EmptyString => acc
  | String c s' => digits_value (10 * acc + digit_val c)%Z s'
  end.

(** Underscores may only stand between two digits; they are removed
    before the number is read.  [prev] is the character before [s]. *)
Fixpoint remove_underscores (prev : ascii) (s : string) : option string :=
  match s with
  | EmptyString => if Ascii.eqb prev "_" then None else Some EmptyString
  | String c s' =>
      if Ascii.eqb c "_"
      then if PyStr.is_digit prev then remove_underscores c s' else None
      else if Ascii.eqb prev "_" && negb (PyStr.is_digit c) then None
           else String c <$> remove_underscores c s'
  end.

Definition parse_sign (s : string) : bool * string :=
  match s with
  | String "-" s' => (true, s')
  | String "+" s' => (false, s')
  | _ => (false, s)
  end.

Definition lower (c : ascii) : ascii :=
  let n := nat_of_ascii c in
  if (65 <=? n)%nat && (n <=? 90)%nat then ascii_of_nat (n + 32)%nat else c.

Fixpoint lower_string (s : string) : string :=
  match s with
  | EmptyString => EmptyString
  | String c s' => String (lower c) (lower_string s')
  end.

(** An unsigned decimal literal: digits with an optional point, at
    least one digit, and an optional exponent. *)
Definition parse_decimal (s : string) : option Q :=
  let '(ip, r1) := span_digits s in
  let '(fp, r2) := match r1 with
                   | String "." r => span_digits r
                   | _ => (EmptyString, r1)
                   end in
  if String.eqb ip "" && String.eqb fp "" then None
  else
    let m := inject_Z (digits_value 0%Z (ip +:+ fp))
             / inject_Z (10 ^ Z.of_nat (String.length fp))%Z in
    match r2 with
    | EmptyString => Some m
    | String c r3 =>
        if Ascii.eqb c "e" || Ascii.eqb c "E" then
          let '(eneg, r4) := parse_sign r3 in
          let '(ed, r5) := span_digits r4 in
          if String.eqb ed "" || negb (String.eqb r5 "") then None
          else
            let e := digits_value 0%Z ed in
            Some (m * Qpower (inject_Z 10) (if eneg then (- e)%Z else e))
        else None
    end.

Definition parse_unsigned (s : string) : option pyfloat :=
  let l := lower_string s in
  if String.eqb l "inf" || String.eqb l "infinity" then Some (PInf false)
  else if String.eqb l "nan" then Some PNaN
  else PFin <$> parse_decimal s.

(** [float(s)] for a [str] [s]. *)
Definition of_string (s : string) : result pyfloat :=
  match remove_underscores "000" (PyStr.strip_by is_float_space s) with
  | None => Raise ValueError
  | Some t =>
      let '(sneg, u) := parse_sign t in
      match parse_unsigned u with
      | None => Raise ValueError
      | Some x => Ok (if sneg then neg x else x)
      end
  end.

End PyFloat.

(** ** Python values held by the option dictionary *)

(** The values a caption option may hold.  [VOther text truth hashable]
    stands for an object of any other type (a [float], a list, ...): all
    the code does with an option value is to format it, which gives
    [text], to test its truth, which gives [truth], to compare it with
    [None], and to look it up in the font table, which needs it
    [hashable]. *)
Inductive pyval : Type :=
| VNone
| VBool (b : bool)
| VInt (n : Z)
| VStr (s : string)
| VOther (text : string) (truth hashable : bool).

(** [str(v)], which is also what an f-string field [{v}] inserts. *)
Definition py_str (v : pyval) : string :=
  match v with
  | VNone => "None"
  | VBool true => "True"
  | VBool false => "False"
  | VInt n => PyStr.of_int n
  | VStr s => s
  | VOther text _ _ => text
  end.

(** The truth value of [v] in a condition. *)
Definition py_truthy (v : pyval) : bool :=
  match v with
  | VNone => false
  | VBool b => b
  | VInt n => negb (n =? 0)%Z
  | VStr s => negb (String.eqb s "")
  | VOther _ truth _ => truth
  end.

(** [v is not None] *)
Definition is_not_none (v : pyval) : bool :=
  match v with VNone => false | _ => true end.

(** [d.get(key, default)] *)
Definition dict_get (d : gmap string pyval) (key : string) (default : pyval) : pyval :=
  match d !! key with
  | Some v => v
  | None => default
  end.

(** [l[i]] *)
Definition py_index {A} (l : list A) (i : nat) : result A :=
  match l !! i with
  | Some x => Ok x
  | None => Raise IndexError
  end.

Definition nl : string := String "010" EmptyString.

(** ** [generate_style_line] (lines 55-81) *)

(** The [style_options] dictionary, as the list of its items in
    insertion order. *)
Definition style_options (options : gmap string pyval) : list (string * pyval) :=
  [ ("Name", VStr "Default");
    ("Fontname", dict_get options "font_name" (VStr "Arial"));
    ("Fontsize", dict_get options "font_size" (VInt 24));
    ("PrimaryColour", dict_get options "primary_color" (VStr "&H00FFFFFF"));
    ("OutlineColour", dict_get options "outline_color" (VStr "&H00000000"));
    ("BackColour", dict_get options "back_color" (VStr "&H00000000"));
    ("Bold", dict_get options "bold" (VInt 0));
    ("Italic", dict_get options "italic" (VInt 0));
    ("Underline", dict_get options "underline" (VInt 0));
    ("StrikeOut", dict_get options "strikeout" (VInt 0));
    ("ScaleX", VInt 100);
    ("ScaleY", VInt 100);
    ("Spacing", VInt 0);
    ("Angle", VInt 0);
    ("BorderStyle", VInt 1);
    ("Outline", dict_get options "outline" (VInt 1));
    ("Shadow", dict_get options "shadow" (VInt 0));
    ("Alignment", dict_get options "alignment" (VInt 2));
    ("MarginL", dict_get options "margin_l" (VInt 10));
    ("MarginR", dict_get options "margin_r" (VInt 10));
    ("MarginV", dict_get options "margin_v" (VInt 10));
    ("Encoding", dict_get options "encoding" (VInt 1)) ].

Definition generate_style_line (options : gmap string pyval) : string :=
  "Style: " +:+ PyStr.join "," (map (fun kv => py_str (snd kv)) (style_options options)).

(** ** Timecodes *)

(** The timecode text of lines 95 and 96:
    [f"{int(t/3600)}:{int((t%3600)/60):02d}:{t%60:05.2f}"]. *)
Definition format_timecode (t : pyfloat) : result string :=
  a ← PyFloat.div_int t 3600;
  h ← PyFloat.to_int a;
  b ← PyFloat.mod_int t 3600;
  c ← PyFloat.div_int b 60;
  m ← PyFloat.to_int c;
  s ← PyFloat.mod_int t 60;
  mret (PyStr.of_int h +:+ ":" +:+ PyStr.fmt_02d m +:+ ":" +:+ PyFloat.fmt_05_2f s).

(** [sum(float(x) * y for x, y in pairs)], the sum starting from the
    [int] 0. *)
Fixpoint sum_weighted (acc : pyfloat) (pairs : list (string * Z)) : result pyfloat :=
  match pairs with
  | [] => mret acc
  | (x, y) :: pairs' =>
      v ← PyFloat.of_string x;
      sum_weighted (PyFloat.add acc (PyFloat.mul_int v y)) pairs'
  end.

(** The seconds value of lines 120 and 121:
    [sum(float(x) * y for x, y in
         zip(text.replace(',', '.').split(':')[::-1], [1, 60, 3600]))]. *)
Definition parse_timecode (text : string) : result pyfloat :=
  sum_weighted (PFin 0)
    (zip (rev (PyStr.split ":" (PyStr.replace1 "," "." text))) [1; 60; 3600]%Z).

(** ** Binary64 arithmetic, for the timecodes *)

(** The arithmetic of [PyFloat] is exact.  [Binary64] gives the same
    operations as a binary64 [float] has them: the result of an
    operation is its exact result rounded to the nearest value that 53
    bits hold, ties to the even one, with exponents from -1074 to 971
    for the last bit, and [inf] beyond. *)
Module Binary64.

Local Open Scope Q_scope.

(** [2 ^ e] for an integer [e]. *)
Definition pow2 (e : Z) : Q := 2 ^ e.

(** The integer part of the binary logarithm of [q > 0]. *)
Definition log2_floor (q : Q) : Z :=
  let g := (Z.log2 (Qnum q) - Z.log2 (Z.pos (Qden q)))%Z in
  if Qle_bool (pow2 g) q then g else (g - 1)%Z.

(** The exponent of the last of the 53 bits of [q > 0]. *)
Definition ulp_exponent (q : Q) : Z := Z.max (log2_floor q - 52) (-1074).

(** Rounding of [q > 0]. *)
Definition round_pos (q : Q) : pyfloat :=
  let e := ulp_exponent q in
  let m := PyFloat.round_half_even (q / pow2 e) in
  if (Z.log2 m + e <? 1024)%Z then PFin (inject_Z m * pow2 e) else PInf false.

Definition round (q : Q) : pyfloat :=
  match q ?= 0 with
  | Eq => PFin 0
  | Gt => round_pos q
  | Lt => PyFloat.neg (round_pos (- q))
  end.

(** [q] is a value of a binary64 [float]. *)
Definition representable (q : Q) : Prop :=
  exists m e : Z,
    (Z.abs m < 2 ^ 53)%Z /\ (-1074 <= e <= 971)%Z /\ q == inject_Z m * pow2 e.

Definition add (x y : pyfloat) : pyfloat :=
  match x, y with
  | PFin a, PFin b => round (a + b)
  | _, _ => PyFloat.add x y
  end.

(** [x * n] for an [int] [n] that a [float] holds exactly, as 1, 60 and
    3600 are. *)
Definition mul_int (x : pyfloat) (n : Z) : pyfloat :=
  match x with
  | PFin a => round (a * inject_Z n)
  | _ => PyFloat.mul_int x n
  end.

(** [x / n], for such an [n]. *)
Definition div_int (x : pyfloat) (n : Z) : result pyfloat :=
  if (n =? 0)%Z then Raise ZeroDivisionError
  else match x with
       | PFin a => Ok (round (a / inject_Z n))
       | _ => PyFloat.div_int x n
       end.

(** [x % n], for such an [n]: the remainder of the division truncated
    toward zero is exact; [n] is added to it, and the sum rounded, when
    its sign is not that of [n]. *)
Definition mod_int (x : pyfloat) (n : Z) : result pyfloat :=
  if (n =? 0)%Z then Raise ZeroDivisionError
  else match x with
       | PFin a =>
           let r := a - inject_Z n * inject_Z (PyFloat.Qtrunc (a / inject_Z n)) in
           match r ?= 0 with
           | Eq => Ok (PFin r)
           | Lt => if (n <? 0)%Z then Ok (PFin r) else Ok (round (r + inject_Z n))
           | Gt => if (n <? 0)%Z then Ok (round (r + inject_Z n)) else Ok (PFin r)
           end
       | _ => PyFloat.mod_int x n
       end.

(** [float(s)]: the number read, rounded. *)
Definition of_string (s : string) : result pyfloat :=
  match PyFloat.of_string s with
  | Ok (PFin q) => Ok (round q)
  | r => r
  end.

(** Lines 95 and 96. *)
Definition format_timecode (t : pyfloat) : result string :=
  a ← div_int t 3600;
  h ← PyFloat.to_int a;
  b ← mod_int t 3600;
  c ← div_int b 60;
  m ← PyFloat.to_int c;
  s ← mod_int t 60;
  mret (PyStr.of_int h +:+ ":" +:+ PyStr.fmt_02d m +:+ ":" +:+ PyFloat.fmt_05_2f s).

(** [sum] adds from the left, and every addition is rounded, as CPython
    does before version 3.12. *)
Fixpoint sum_weighted (acc : pyfloat) (pairs : list (string * Z)) : result pyfloat :=
  match pairs with
  | [] => mret acc
  | (x, y) :: pairs' =>
      v ← of_string x;
      sum_weighted (add acc (mul_int v y)) pairs'
  end.

(** Lines 120 and 121. *)
Definition parse_timecode (text : string) : result pyfloat :=
  sum_weighted (PFin 0)
    (zip (rev (PyStr.split ":" (PyStr.replace1 "," "." text))) [1; 60; 3600]%Z).

End Binary64.

(** ** [process_single_word_caption] (lines 83-105) *)

(** Lines 91 and 92: the window of the word of index [i]. *)
Definition word_window (start_time word_duration : pyfloat) (i : nat)
  : pyfloat * pyfloat :=
  let word_start := PyFloat.add start_time (PyFloat.mul_int word_duration (Z.of_nat i)) in
  let word_end := PyFloat.add word_start word_duration in
  (word_start, word_end).

(** Lines 99 to 101: all the words, the one of index [i] between the two
    colour overrides. *)
Definition line_text (words : list string) (highlight_color regular_color : pyval)
    (i : nat) (word : string) : string :=
  let other_words :=
    <[i := "{\c&H" +:+ py_str highlight_color +:+ "&}" +:+ word
           +:+ "{\c&H" +:+ py_str regular_color +:+ "&}"]> words in
  PyStr.join " " other_words.

(** One iteration of the loop of lines 90 to 103. *)
Definition word_line (words : list string) (start_time word_duration : pyfloat)
    (highlight_color regular_color : pyval) (i : nat) (word : string)
  : result string :=
  let '(word_start, word_end) := word_window start_time word_duration i in
  start_str ← format_timecode word_start;
  end_str ← format_timecode word_end;
  mret ("Dialogue: 0," +:+ start_str +:+ "," +:+ end_str +:+ ",Default,,0,0,0,,"
        +:+ line_text words highlight_color regular_color i word).

(** The loop of lines 90 to 103 from index [i] on, [rest] being the
    words still to be visited. *)
Fixpoint word_lines (words : list string) (start_time word_duration : pyfloat)
    (highlight_color regular_color : pyval) (i : nat) (rest : list string)
  : result (list string) :=
  match rest with
  | [] => mret []
  | word :: rest' =>
      l ← word_line words start_time word_duration highlight_color regular_color i word;
      ls ← word_lines words start_time word_duration highlight_color regular_color (S i) rest';
      mret (l :: ls)
  end.

Definition process_single_word_caption (caption_text : string)
    (start_time end_time : pyfloat) (highlight_color regular_color : pyval)
  : result (list string) :=
  let words := PyStr.split_ws (PyStr.strip caption_text) in
  let total_duration := PyFloat.sub end_time start_time in
  word_duration ← PyFloat.div_int total_duration (Z.of_nat (length words));
  word_lines words start_time word_duration highlight_color regular_color 0 words.

(** ** [convert_srt_to_one_word_ass] (lines 107-135) *)

(** What lines 119 to 124 extract from a block. *)
Record cue : Type := Cue {
  cue_start : pyfloat;
  cue_end : pyfloat;
  cue_text : string
}.

(** Lines 119 to 124, on the lines [parts] of a block. *)
Definition block_cue (parts : list string) : result cue :=
  line1 ← py_index parts 1;
  let timecode := PyStr.split " --> " line1 in
  t0 ← py_index timecode 0;
  start_time ← parse_timecode t0;
  t1 ← py_index timecode 1;
  end_time ← parse_timecode t1;
  mret (Cue start_time end_time (PyStr.join " " (drop 2 parts))).

(** The loop of lines 115 to 133 over the blocks; the result is the
    final [ass_lines]. *)
Fixpoint convert_blocks (highlight_color regular_color : pyval)
    (lines : list string) : result (list string) :=
  match lines with
  | [] => mret []
  | line :: lines' =>
      let parts := PyStr.split nl line in
      if (3 <=? length parts)%nat then
        c ← block_cue parts;
        new ← process_single_word_caption (cue_text c) (cue_start c) (cue_end c)
                highlight_color regular_color;
        more ← convert_blocks highlight_color regular_color lines';
        mret (new ++ more)
      else convert_blocks highlight_color regular_color lines'
  end.

Definition convert_srt_to_one_word_ass (srt_content : string)
    (options : gmap string pyval) : result string :=
  let lines := PyStr.split (nl +:+ nl) (PyStr.strip srt_content) in
  let highlight_color := dict_get options "highlight_color" (VStr "FFFFFF") in
  let regular_color := dict_get options "regular_color" (VStr "AAAAAA") in
  ass_lines ← convert_blocks highlight_color regular_color lines;
  mret (PyStr.join nl ass_lines).

(** ** The world outside the module *)

Inductive log_level : Type := INFO | WARNING | ERROR.

(** What the pipeline does to the world, in the order it does it. *)
Inductive event : Type :=
| EvLog (level : log_level) (message : string)
| EvDownload (url directory : string)
| EvHttpGet (url : string)
| EvWriteText (path content : string)
| EvWriteBytes (path : string) (content : list byte)
| EvEncode (video_path output_path vf acodec : string)
| EvUpload (path bucket : string)
| EvRemove (path : string).

(** The reply to [requests.get]. *)
Record response : Type := Response {
  raise_for_status : result unit;
  response_text : string;
  response_content : list byte
}.

(** What the world answers: the collaborators of the module
    ([download_file], [requests.get], [open] and [write], the encoder,
    [upload_to_gcs], [os.remove]), the font table built when the module
    is loaded, the bucket name imported from [services.gcp_toolkit], and
    three built-in renderings the model leaves open (the text of bytes
    that are valid UTF-8, the [repr] of the option array, the [str] of
    an exception). *)
Record world : Type := World {
  download_file : string -> string -> result string;
  requests_get : string -> result response;
  write_text : string -> string -> result unit;
  write_bytes : string -> list byte -> result unit;
  ffmpeg_run : string -> string -> string -> string -> result unit;
  upload_to_gcs : string -> string -> result string;
  os_remove : string -> result unit;
  FONT_PATHS : gmap string string;
  GCP_BUCKET_NAME : string;
  utf8_text : list byte -> option string;
  repr_options : list (string * pyval) -> string;
  str_exn : exn -> string
}.

(** [b.decode('utf8')]: the text of [b], or a [UnicodeDecodeError] that
    holds [b] when [b] is not valid UTF-8. *)
Definition decode_utf8 (w : world) (b : list byte) : result string :=
  match utf8_text w b with
  | Some text => Ok text
  | None => Raise (UnicodeDecodeError b)
  end.

(** A computation that may raise and that extends the trace of events. *)
Definition io (A : Type) : Type := list event -> result A * list event.

#[global] Instance io_ret : MRet io := fun A a t => (Ok a, t).
#[global] Instance io_bind : MBind io := fun A B f m t =>
  match m t with
  | (Ok a, t') => f a t'
  | (Raise e, t') => (Raise e, t')
  end.

Module IO.

Definition emit (ev : event) : io unit := fun t => (Ok tt, t ++ [ev]).

Definition lift {A} (r : result A) : io A := fun t => (r, t).

Definition raise {A} (e : exn) : io A := lift (Raise e).

(** An effect: the event is recorded, then the world's answer is returned. *)
Definition call {A} (ev : event) (answer : result A) : io A :=
  emit ev ≫= fun _ => lift answer.

(** [try: body except <class> as e: handler e], for the exceptions
    that [handles] selects. *)
Definition try_except {A} (body : io A) (handles : exn -> bool)
    (handler : exn -> io A) : io A := fun t =>
  match body t with
  | (Raise e, t') => if handles e then handler e t' else (Raise e, t')
  | r => r
  end.

Definition log (level : log_level) (message : string) : io unit :=
  emit (EvLog level message).

End IO.

(** ** [process_captioning] (lines 137-276) *)

Definition STORAGE_PATH : string := "/tmp/".

(** [os.path.join(a, b)] on a POSIX system. *)
Definition os_path_join (a b : string) : string :=
  if String.prefix "/" b then b
  else if String.eqb a "" || String.eqb (String.substring (String.length a - 1) 1 a) "/"
       then a +:+ b
       else a +:+ "/" +:+ b.

(** Lines 274 to 276: a later item replaces an earlier one with the
    same option name. *)
Definition convert_array_to_collection (w : world) (options : list (string * pyval))
  : io (gmap string pyval) :=
  IO.log INFO ("Converting options array to dictionary: " +:+ repr_options w options);;
  mret (foldl (fun d item => <[fst item := snd item]> d) ∅ options).

(** The header of lines 159 to 168. *)
Definition ass_header (style_string : string) : string :=
  nl +:+ "[Script Info]" +:+ nl
  +:+ "Title: Highlight Current Word" +:+ nl
  +:+ "ScriptType: v4.00+" +:+ nl
  +:+ "[V4+ Styles]" +:+ nl
  +:+ "Format: Name, Fontname, Fontsize, PrimaryColour, OutlineColour, BackColour, Bold, Italic, Underline, StrikeOut, ScaleX, ScaleY, Spacing, Angle, BorderStyle, Outline, Shadow, Alignment, MarginL, MarginR, MarginV, Encoding" +:+ nl
  +:+ style_string +:+ nl
  +:+ "[Events]" +:+ nl
  +:+ "Format: Layer, Start, End, Style, Name, MarginL, MarginR, MarginV, Effect, Text" +:+ nl.

(** The [style_options] dictionary of lines 217 to 240, as the list of
    its items in insertion order. *)
Definition force_style_options (font_name : pyval) (options : gmap string pyval)
  : list (string * pyval) :=
  [ ("FontName", font_name);
    ("FontSize", dict_get options "font_size" (VInt 24));
    ("PrimaryColour", dict_get options "primary_color" (VStr "&H00FFFFFF"));
    ("SecondaryColour", dict_get options "secondary_color" (VStr "&H00000000"));
    ("OutlineColour", dict_get options "outline_color" (VStr "&H00000000"));
    ("BackColour", dict_get options "back_color" (VStr "&H00000000"));
    ("Bold", dict_get options "bold" (VInt 0));
    ("Italic", dict_get options "italic" (VInt 0));
    ("Underline", dict_get options "underline" (VInt 0));
    ("StrikeOut", dict_get options "strikeout" (VInt 0));
    ("Alignment", dict_get options "alignment" (VInt 2));
    ("MarginV", dict_get options "margin_v" (VInt 10));
    ("MarginL", dict_get options "margin_l" (VInt 10));
    ("MarginR", dict_get options "margin_r" (VInt 10));
    ("Outline", dict_get options "outline" (VInt 1));
    ("Shadow", dict_get options "shadow" (VInt 0));
    ("Blur", dict_get options "blur" (VInt 0));
    ("BorderStyle", dict_get options "border_style" (VInt 1));
    ("Encoding", dict_get options "encoding" (VInt 1));
    ("Spacing", dict_get options "spacing" (VInt 0));
    ("Angle", dict_get options "angle" (VInt 0));
    ("UpperCase", dict_get options "uppercase" (VInt 0)) ].

(** Line 242: [','.join(f"{k}={v}" for k, v in style_options.items()
    if v is not None)]. *)
Definition force_style_clause (items : list (string * pyval)) : string :=
  PyStr.join ","
    (map (fun kv => fst kv +:+ "=" +:+ py_str (snd kv))
         (filter (fun kv => is_not_none (snd kv) = true) items)).

(** Lines 212 to 244: the filter argument handed to the encoder. *)
Definition build_subtitle_filter (job_id subtitle_extension srt_path : string)
    (font_name : pyval) (options : gmap string pyval) : io string :=
  if String.eqb subtitle_extension ".ass" then
    let subtitle_filter := "subtitles='" +:+ srt_path +:+ "'" in
    IO.log INFO ("Job " +:+ job_id +:+ ": Using ASS subtitle filter: " +:+ subtitle_filter);;
    mret subtitle_filter
  else
    let subtitle_filter :=
      "subtitles=" +:+ srt_path +:+ ":force_style='"
      +:+ force_style_clause (force_style_options font_name options) +:+ "'" in
    IO.log INFO ("Job " +:+ job_id +:+ ": Using subtitle filter: " +:+ subtitle_filter);;
    mret subtitle_filter.

(** [font_name in FONT_PATHS]: the keys of the table are strings, and a
    value that cannot be hashed cannot be looked up. *)
Definition font_lookup (w : world) (font_name : pyval) : result (option string) :=
  match font_name with
  | VStr name => Ok (FONT_PATHS w !! name)
  | VOther _ _ false => Raise TypeError
  | _ => Ok None
  end.

(** Lines 204 to 210.  The path chosen here is logged and not used
    again. *)
Definition select_font (w : world) (job_id : string) (font_name : pyval)
  : io (option string) :=
  found ← IO.lift (font_lookup w font_name);
  match found with
  | Some selected_font =>
      IO.log INFO ("Job " +:+ job_id +:+ ": Font path set to " +:+ selected_font);;
      mret (Some selected_font)
  | None =>
      let selected_font := FONT_PATHS w !! "Arial" in
      IO.log WARNING ("Job " +:+ job_id +:+ ": Font " +:+ py_str font_name
                      +:+ " not found. Using default font Arial.");;
      mret selected_font
  end.

(** Lines 171 to 199: the subtitle file is written from the fetched or
    from the inline caption. *)
Definition write_subtitle (w : world) (job_id caption_srt caption_type srt_path : string)
    (one_word_mode : pyval) (caption_style : string) (options : gmap string pyval)
  : io unit :=
  if PyStr.startswith caption_srt "https" then
    IO.log INFO ("Job " +:+ job_id +:+ ": Downloading caption file from " +:+ caption_srt);;
    response ← IO.call (EvHttpGet caption_srt) (requests_get w caption_srt);
    IO.lift (raise_for_status response);;
    (if py_truthy one_word_mode then
       body ← IO.lift (convert_srt_to_one_word_ass (response_text response) options);
       let subtitle_content := caption_style +:+ body in
       IO.call (EvWriteText srt_path subtitle_content)
               (write_text w srt_path subtitle_content)
     else if String.eqb caption_type "srt" || String.eqb caption_type "vtt" then
       IO.call (EvWriteBytes srt_path (response_content response))
               (write_bytes w srt_path (response_content response))
     else
       let subtitle_content := caption_style +:+ response_text response in
       IO.call (EvWriteText srt_path subtitle_content)
               (write_text w srt_path subtitle_content));;
    IO.log INFO ("Job " +:+ job_id +:+ ": Caption file processed and saved to " +:+ srt_path)
  else
    subtitle_content ←
      (if py_truthy one_word_mode then
         body ← IO.lift (convert_srt_to_one_word_ass caption_srt options);
         mret (caption_style +:+ body)
       else mret (caption_style +:+ caption_srt));
    IO.call (EvWriteText srt_path subtitle_content)
            (write_text w srt_path subtitle_content);;
    IO.log INFO ("Job " +:+ job_id +:+ ": Caption file created at " +:+ srt_path).

(** [if e.stderr] on the captured bytes of an [ffmpeg.Error]. *)
Definition bytes_truthy (b : option (list byte)) : bool :=
  match b with
  | Some (_ :: _) => true
  | _ => false
  end.

(** Lines 246 to 260: the encoder runs; its own error is logged and
    raised again. *)
Definition run_encoder (w : world) (job_id video_path output_path subtitle_filter : string)
  : io unit :=
  IO.try_except
    (IO.log INFO ("Job " +:+ job_id +:+ ": Running FFmpeg with filter: " +:+ subtitle_filter);;
     IO.call (EvEncode video_path output_path subtitle_filter "copy")
             (ffmpeg_run w video_path output_path subtitle_filter "copy");;
     IO.log INFO ("Job " +:+ job_id +:+ ": FFmpeg processing completed, output file at "
                  +:+ output_path))
    (fun e => match e with FfmpegError _ _ => true | _ => false end)
    (fun e =>
       error_message ←
         match e with
         | FfmpegError _ (Some (b :: bs)) => IO.lift (decode_utf8 w (b :: bs))
         | _ => mret "Unknown FFmpeg error"
         end;
       IO.log ERROR ("Job " +:+ job_id +:+ ": FFmpeg error: " +:+ error_message);;
       IO.raise e).

(** Lines 262 to 269: the output is uploaded, then the three scratch
    files are removed. *)
Definition publish_and_clean_up (w : world)
    (job_id video_path srt_path output_path : string) : io string :=
  output_filename ← IO.call (EvUpload output_path (GCP_BUCKET_NAME w))
                            (upload_to_gcs w output_path (GCP_BUCKET_NAME w));
  IO.log INFO ("Job " +:+ job_id +:+ ": File uploaded to GCS at " +:+ output_filename);;
  IO.call (EvRemove video_path) (os_remove w video_path);;
  IO.call (EvRemove srt_path) (os_remove w srt_path);;
  IO.call (EvRemove output_path) (os_remove w output_path);;
  IO.log INFO ("Job " +:+ job_id +:+ ": Local files cleaned up");;
  mret output_filename.

Definition process_captioning (w : world) (file_url caption_srt caption_type : string)
    (options : list (string * pyval)) (job_id : string) : io string :=
  IO.try_except
    (IO.log INFO ("Job " +:+ job_id +:+ ": Starting download of file from " +:+ file_url);;
     video_path ← IO.call (EvDownload file_url STORAGE_PATH)
                          (download_file w file_url STORAGE_PATH);
     IO.log INFO ("Job " +:+ job_id +:+ ": File downloaded to " +:+ video_path);;
     let subtitle_extension := "." +:+ caption_type in
     let srt_path := os_path_join STORAGE_PATH (job_id +:+ subtitle_extension) in
     options ← convert_array_to_collection w options;
     let caption_style := "" in
     let one_word_mode := dict_get options "one_word_mode" (VBool false) in
     '(caption_type, subtitle_extension, srt_path) ←
       (if py_truthy one_word_mode && negb (String.eqb caption_type "ass") then
          IO.log INFO ("Job " +:+ job_id
                       +:+ ": One-word mode enabled, converting to ASS format");;
          mret ("ass", ".ass", os_path_join STORAGE_PATH (job_id +:+ ".ass"))
        else mret (caption_type, subtitle_extension, srt_path));
     caption_style ←
       (if String.eqb caption_type "ass" then
          let style_string := generate_style_line options in
          IO.log INFO ("Job " +:+ job_id +:+ ": Generated ASS style string: "
                       +:+ style_string);;
          mret (ass_header style_string)
        else mret caption_style);
     write_subtitle w job_id caption_srt caption_type srt_path one_word_mode
                    caption_style options;;
     let output_path := os_path_join STORAGE_PATH (job_id +:+ "_captioned.mp4") in
     IO.log INFO ("Job " +:+ job_id +:+ ": Output path set to " +:+ output_path);;
     let font_name := dict_get options "font_name" (VStr "Arial") in
     selected_font ← select_font w job_id font_name;
     subtitle_filter ← build_subtitle_filter job_id subtitle_extension srt_path
                                             font_name options;
     run_encoder w job_id video_path output_path subtitle_filter;;
     publish_and_clean_up w job_id video_path srt_path output_path)
    (fun _ => true)
    (fun e =>
       IO.log ERROR ("Job " +:+ job_id +:+ ": Error in process_captioning: "
                     +:+ str_exn w e);;
       IO.raise e).

(** ** The font table (lines 16-27) *)

(** Every character of [s] is a dot. *)
Fixpoint only_dots (s : string) : bool :=
  match s with
  | EmptyString => true
  | String c s' => Ascii.eqb c "." && only_dots s'
  end.

(** [os.path.splitext(p)] on a POSIX system: the extension starts at the
    last dot of the last component, unless only dots come before it in
    that component. *)
Definition os_path_splitext (p : string) : string * string :=
  let start := match PyStr.rfind "/" p with Some i => S i | None => 0%nat end in
  match PyStr.rfind "." p with
  | Some dot =>
      if (start <=? dot)%nat && negb (only_dots (String.substring start (dot - start) p))
      then (String.substring 0 dot p, String.substring dot (String.length p - dot) p)
      else (p, EmptyString)
  | None => (p, EmptyString)
  end.

Definition FONTS_DIR : string := "/usr/share/fonts/custom".

(** Lines 20 to 24: the table [FONT_PATHS] that loading the module
    builds, from the names [listing] that [os.listdir(FONTS_DIR)]
    returns, in the order it returns them.  The field [FONT_PATHS] of a
    [world] stands for this table.  [match_fonts] (lines 29 to 53) is
    called by no other code of the module and only prints names taken
    from the font configuration of the host, chosen in the iteration
    order of a [set]; it is not modelled. *)
Definition FONT_PATHS_from (listing : list string) : gmap string string :=
  foldl (fun paths font_file =>
           if PyStr.endswith font_file ".ttf" || PyStr.endswith font_file ".TTF"
           then let font_name := (os_path_splitext font_file).1 in
                <[font_name := os_path_join FONTS_DIR font_file]> paths
           else paths)
        ∅ listing.

(** * Auxiliary definitions

    The vocabulary of the statements below; none of it is part of the
    service. *)

(** Every character of [s] is of class [p]. *)
Fixpoint all_chars (p : ascii -> bool) (s : string) : bool :=
  match s with
  | EmptyString => true
  | String c s' => p c && all_chars p s'
  end.

(** [x] is a character other than [c]. *)
Definition not_char (c x : ascii) : bool := negb (Ascii.eqb x c).

(** The text [format(y, "05.2f")] gives for [cs] hundredths. *)
Definition seconds_text (cs : Z) : string :=
  PyStr.zero_pad 5 "" (PyStr.digits (cs / 100) +:+ "." +:+ PyStr.fmt_02d (cs mod 100)).

Definition parses_to (s : string) (v : Q) : bool :=
  match PyFloat.of_string s with
  | Ok (PFin q) => Qeq_bool q v
  | _ => false
  end.

Definition field_ok (s : string) (v : Q) : bool :=
  all_chars (not_char ":") s && all_chars (not_char ",") s && parses_to s v.

Definition minutes_ok (m : Z) : bool := field_ok (PyStr.fmt_02d m) (inject_Z m).
Definition seconds_ok (cs : Z) : bool := field_ok (seconds_text cs) (cs # 100).




(** No comma in [s]. *)
Definition comma_free (s : string) : bool := all_chars (not_char ",") s.

(** The cues the loop of lines 115 to 124 reads from the blocks, in the
    order of the blocks: the parsing half of [convert_blocks]. *)
Fixpoint parse_blocks (lines : list string) : result (list cue) :=
  match lines with
  | [] => mret []
  | line :: lines' =>
      let parts := PyStr.split nl line in
      if (3 <=? length parts)%nat then
        c ← block_cue parts;
        cs ← parse_blocks lines';
        mret (c :: cs)
      else parse_blocks lines'
  end.

(** The dialogue lines of a list of cues, cue after cue. *)
Fixpoint expand_cues (highlight_color regular_color : pyval) (cues : list cue)
  : result (list string) :=
  match cues with
  | [] => mret []
  | c :: cues' =>
      new ← process_single_word_caption (cue_text c) (cue_start c) (cue_end c)
              highlight_color regular_color;
      more ← expand_cues highlight_color regular_color cues';
      mret (new ++ more)
  end.

(** The block [line] has fewer than three lines. *)
Definition short_block (line : string) : bool :=
  negb (3 <=? length (PyStr.split nl line))%nat.

(** [uniform m]: what [m] does is the same from every trace; it returns
    what it returns from the empty trace and appends the same events. *)
Definition uniform {A} (m : io A) : Prop :=
  forall t, m t = ((m []).1, t ++ (m []).2).

(** The error entry the handler of lines 270 to 272 logs. *)
Definition error_entry (w : world) (job_id : string) (e : exn) : event :=
  EvLog ERROR ("Job " +:+ job_id +:+ ": Error in process_captioning: " +:+ str_exn w e).

(** The kinds of events. *)
Inductive event_kind : Type :=
| KLog | KDownload | KFetch | KWrite | KEncode | KUpload | KRemove.

Definition kind_of (ev : event) : event_kind :=
  match ev with
  | EvLog _ _ => KLog
  | EvDownload _ _ => KDownload
  | EvHttpGet _ => KFetch
  | EvWriteText _ _ | EvWriteBytes _ _ => KWrite
  | EvEncode _ _ _ _ => KEncode
  | EvUpload _ _ => KUpload
  | EvRemove _ => KRemove
  end.

Definition kind_eqb (a b : event_kind) : bool :=
  match a, b with
  | KLog, KLog | KDownload, KDownload | KFetch, KFetch | KWrite, KWrite
  | KEncode, KEncode | KUpload, KUpload | KRemove, KRemove => true
  | _, _ => false
  end.

(** Every event of [l] is of one of the kinds [ks]. *)
Definition kinds_within (ks : list event_kind) (l : list event) : bool :=
  forallb (fun ev => existsb (kind_eqb (kind_of ev)) ks) l.

(** The encoder output an exception holds: the captured error stream of
    an [ffmpeg.Error], or the bytes a [UnicodeDecodeError] could not
    decode. *)
Definition diagnostic_of (e : exn) : option (list byte) :=
  match e with
  | FfmpegError _ stderr => stderr
  | UnicodeDecodeError object => Some object
  | _ => None
  end.

(** A world in which every call succeeds. *)
Definition world_ok : world := {|
  download_file := fun url directory => Ok (directory +:+ "video.mp4");
  requests_get := fun url => Ok (Response (Ok tt) "remote caption" []);
  write_text := fun _ _ => Ok tt;
  write_bytes := fun _ _ => Ok tt;
  ffmpeg_run := fun _ _ _ _ => Ok tt;
  upload_to_gcs := fun path bucket => Ok ("gs://" +:+ bucket +:+ path);
  os_remove := fun _ => Ok tt;
  FONT_PATHS := {[ "Arial" := "/usr/share/fonts/custom/Arial.ttf" ]};
  GCP_BUCKET_NAME := "bucket";
  utf8_text := fun _ => Some "encoder output";
  repr_options := fun _ => "[]";
  str_exn := exn_class
|}.

(** The same world, with an encoder that fails and leaves one byte on
    its error stream. *)
Definition world_encoder_fails : world := {|
  download_file := download_file world_ok;
  requests_get := requests_get world_ok;
  write_text := write_text world_ok;
  write_bytes := write_bytes world_ok;
  ffmpeg_run := fun _ _ _ _ => Raise (FfmpegError None (Some ["x"%byte]));
  upload_to_gcs := upload_to_gcs world_ok;
  os_remove := os_remove world_ok;
  FONT_PATHS := FONT_PATHS world_ok;
  GCP_BUCKET_NAME := GCP_BUCKET_NAME world_ok;
  utf8_text := utf8_text world_ok;
  repr_options := repr_options world_ok;
  str_exn := str_exn world_ok
|}.

(** An inline caption of two blocks whose first cue has a blank text. *)
Definition caption_with_blank_cue : string :=
  "1" +:+ nl +:+ "00:00:00,000 --> 00:00:01,000" +:+ nl +:+ " " +:+ nl +:+ nl
  +:+ "2" +:+ nl +:+ "00:00:01,000 --> 00:00:02,000" +:+ nl +:+ "hello".



(** The value of the last item of [items] whose option name is [key]. *)
Fixpoint last_value (key : string) (items : list (string * pyval)) : option pyval :=
  match items with
  | [] => None
  | (k, v) :: items' =>
      match last_value key items' with
      | Some v' => Some v'
      | None => if String.eqb k key then Some v else None
      end
  end.

(** The option names [generate_style_line] reads. *)
Definition style_option_names : list string :=
  [ "font_name"; "font_size"; "primary_color"; "outline_color"; "back_color";
    "bold"; "italic"; "underline"; "strikeout"; "outline"; "shadow"; "alignment";
    "margin_l"; "margin_r"; "margin_v"; "encoding" ].

(** The number of words of the text of a cue. *)
Definition cue_word_count (c : cue) : nat :=
  length (PyStr.split_ws (PyStr.strip (cue_text c))).

(** The world [world_ok] with other answers to the download, to the
    fetch of the caption and to the removal of files. *)
Definition world_with (download : result string) (reply : result response)
    (remove : string -> result unit) : world := {|
  download_file := fun _ _ => download;
  requests_get := fun _ => reply;
  write_text := write_text world_ok;
  write_bytes := write_bytes world_ok;
  ffmpeg_run := ffmpeg_run world_ok;
  upload_to_gcs := upload_to_gcs world_ok;
  os_remove := remove;
  FONT_PATHS := FONT_PATHS world_ok;
  GCP_BUCKET_NAME := GCP_BUCKET_NAME world_ok;
  utf8_text := utf8_text world_ok;
  repr_options := repr_options world_ok;
  str_exn := str_exn world_ok
|}.

(** [sep in s] *)
Fixpoint contains (sep s : string) : bool :=
  match s with
  | EmptyString => String.prefix sep EmptyString
  | String _ s' => String.prefix sep s || contains sep s'
  end.







(** The number of occurrences of the character [c] in [s]. *)
Fixpoint count_char (c : ascii) (s : string) : nat :=
  match s with
  | EmptyString => 0
  | String x s' => (if Ascii.eqb x c then 1 else 0) + count_char c s'
  end.

(** * Facts about strings and numbers *)

#[local] Arguments String.append !_ _ / : simpl nomatch.

Module StrFacts.

Import PyStr.

Lemma all_chars_app p a b :
  all_chars p (a +:+ b) = all_chars p a && all_chars p b.
Proof.
  induction a as [|c a IH]; simpl; [done|].
  by rewrite IH, andb_assoc.
Qed.

Lemma all_chars_weaken (p q : ascii -> bool) s :
  (forall c, p c = true -> q c = true) ->
  all_chars p s = true -> all_chars q s = true.
Proof.
  intros Hpq. induction s as [|c s IH]; simpl; [done|].
  intros [Hc Hs]%andb_true_iff. rewrite (Hpq _ Hc). simpl. auto.
Qed.

Lemma app_empty_r s : s +:+ "" = s.
Proof. induction s as [|c s IH]; simpl; [done|]. by rewrite IH. Qed.

Lemma app_assoc' a b c : (a +:+ b) +:+ c = a +:+ (b +:+ c).
Proof. induction a as [|x a IH]; simpl; [done|]. by rewrite IH. Qed.

Lemma rev_app_rev_app a b c :
  String.rev_app (String.rev_app a b) c = String.rev_app b (a +:+ c).
Proof.
  revert b c. induction a as [|x a IH]; intros b c; simpl; [done|].
  by rewrite IH.
Qed.

Lemma rev_app_app a b : String.rev_app a b = String.rev a +:+ b.
Proof.
  unfold String.rev. revert b. induction a as [|x a IH]; intros b; simpl; [done|].
  rewrite IH, (IH (String x "")), app_assoc'. done.
Qed.

Lemma rev_rev_app a b : String.rev (String.rev_app a b) = String.rev b +:+ a.
Proof.
  unfold String.rev at 1. rewrite rev_app_rev_app, app_empty_r.
  apply rev_app_app.
Qed.

Lemma prefix_1 c x s : String.prefix (String c "") (String x s) = Ascii.eqb x c.
Proof.
  simpl. destruct (ascii_dec c x) as [->|Hne].
  - rewrite Ascii.eqb_refl. by destruct s.
  - symmetry. apply Ascii.eqb_neq. congruence.
Qed.

Lemma split_go_1_last c cur a :
  all_chars (not_char c) a = true ->
  split_go (String c "") 0 cur a = [String.rev cur +:+ a].
Proof.
  revert cur. induction a as [|x a IH]; intros cur Ha.
  - simpl. by rewrite app_empty_r.
  - simpl in Ha. apply andb_true_iff in Ha as [Hx Ha].
    cbn [split_go]. rewrite prefix_1.
    unfold not_char in Hx. apply negb_true_iff in Hx. rewrite Hx.
    rewrite IH by done. unfold String.rev. simpl.
    rewrite rev_app_app, app_assoc'. done.
Qed.

Lemma split_go_1_app c cur a r :
  all_chars (not_char c) a = true ->
  split_go (String c "") 0 cur (a +:+ String c r)
  = (String.rev cur +:+ a) :: split_go (String c "") 0 "" r.
Proof.
  revert cur. induction a as [|x a IH]; intros cur Ha.
  - cbn [append split_go String.length]. rewrite prefix_1, Ascii.eqb_refl.
    by rewrite app_empty_r.
  - simpl in Ha. apply andb_true_iff in Ha as [Hx Ha].
    simpl append. cbn [split_go]. rewrite prefix_1.
    unfold not_char in Hx. apply negb_true_iff in Hx. rewrite Hx.
    rewrite IH by done. unfold String.rev. simpl.
    rewrite rev_app_app, app_assoc'. done.
Qed.

Lemma split_1_app c a r :
  all_chars (not_char c) a = true ->
  split (String c "") (a +:+ String c r) = a :: split (String c "") r.
Proof. intros Ha. unfold split. by rewrite split_go_1_app. Qed.

Lemma split_1_last c a :
  all_chars (not_char c) a = true -> split (String c "") a = [a].
Proof. intros Ha. unfold split. by rewrite split_go_1_last. Qed.




(** Decimal digits *)

Lemma is_digit_cases c :
  is_digit c = true ->
  is_space c = false /\ PyFloat.is_float_space c = false
  /\ Ascii.eqb c "_" = false /\ Ascii.eqb c "-" = false /\ Ascii.eqb c "+" = false
  /\ Ascii.eqb c ":" = false /\ Ascii.eqb c "," = false
  /\ PyFloat.lower c = c /\ Ascii.eqb c "i" = false /\ Ascii.eqb c "n" = false.
Proof.
  destruct c as [[] [] [] [] [] [] [] []]; vm_compute; intros H;
    first [discriminate H | repeat split].
Qed.

Lemma digit_char_val d :
  (0 <= d < 10)%Z ->
  PyFloat.digit_val (digit_char d) = d /\ is_digit (digit_char d) = true.
Proof.
  intros Hd.
  assert (d = 0 \/ d = 1 \/ d = 2 \/ d = 3 \/ d = 4 \/ d = 5 \/ d = 6
          \/ d = 7 \/ d = 8 \/ d = 9)%Z as Hc by lia.
  repeat (destruct Hc as [-> | Hc]; [by vm_compute|]). subst d. by vm_compute.
Qed.

Lemma digits_value_app a s1 s2 :
  PyFloat.digits_value a (s1 +:+ s2)
  = PyFloat.digits_value (PyFloat.digits_value a s1) s2.
Proof. revert a. induction s1 as [|c s1 IH]; intros a; simpl; [done|]. apply IH. Qed.

Lemma digits_go_acc fuel n acc :
  digits_go fuel n acc = digits_go fuel n "" +:+ acc.
Proof.
  revert n acc. induction fuel as [|f IH]; intros n acc; cbn [digits_go]; [done|].
  destruct (n <? 10)%Z; [done|].
  rewrite IH, (IH _ (String _ "")), app_assoc'. done.
Qed.

Lemma digits_go_value fuel n :
  (0 <= n < 10 ^ Z.of_nat fuel)%Z ->
  PyFloat.digits_value 0%Z (digits_go fuel n "") = n.
Proof.
  revert n. induction fuel as [|f IH]; intros n Hn.
  - change (10 ^ Z.of_nat 0)%Z with 1%Z in Hn. simpl. lia.
  - cbn [digits_go]. destruct (Z.ltb_spec n 10) as [Hlt|Hge].
    + cbn [PyFloat.digits_value]. destruct (digit_char_val (n mod 10)) as [-> _].
      * apply Z.mod_pos_bound. lia.
      * rewrite Z.mod_small; lia.
    + rewrite digits_go_acc, digits_value_app, IH.
      * cbn [PyFloat.digits_value]. destruct (digit_char_val (n mod 10)) as [-> _].
        { apply Z.mod_pos_bound. lia. }
        pose proof (Z.div_mod n 10). lia.
      * split; [apply Z.div_pos; lia|].
        apply Z.div_lt_upper_bound; [lia|].
        rewrite Nat2Z.inj_succ, Z.pow_succ_r in Hn by lia. lia.
Qed.

Lemma digits_go_all_digits fuel n acc :
  (0 <= n)%Z -> all_chars is_digit acc = true ->
  all_chars is_digit (digits_go fuel n acc) = true.
Proof.
  revert n acc. induction fuel as [|f IH]; intros n acc Hn Hacc;
    cbn [digits_go]; [done|].
  assert (all_chars is_digit (String (digit_char (n mod 10)) acc) = true) as H1.
  { cbn [all_chars]. destruct (digit_char_val (n mod 10)) as [_ ->]; [|done].
    apply Z.mod_pos_bound. lia. }
  destruct (n <? 10)%Z; [done|].
  apply IH; [apply Z.div_pos; lia | done].
Qed.

Lemma digits_go_nonempty fuel n acc : digits_go (S fuel) n acc <> "".
Proof.
  revert n acc. induction fuel as [|f IH]; intros n acc.
  - cbn [digits_go]. by destruct (n <? 10)%Z.
  - cbn [digits_go]. destruct (n <? 10)%Z; [done|]. apply IH.
Qed.

Lemma digits_fuel n : (0 <= n)%Z -> (n < 10 ^ Z.of_nat (S (Z.to_nat (Z.log2 n))))%Z.
Proof.
  intros Hn. rewrite Nat2Z.inj_succ, Z2Nat.id by apply Z.log2_nonneg.
  destruct (Z.eq_dec n 0%Z) as [->|Hne]; [by vm_compute|].
  assert (n < 2 ^ Z.succ (Z.log2 n))%Z as H1 by (apply Z.log2_spec; lia).
  assert (2 ^ Z.succ (Z.log2 n) <= 10 ^ Z.succ (Z.log2 n))%Z as H2.
  { apply Z.pow_le_mono_l. lia. }
  lia.
Qed.

Lemma digits_value n : (0 <= n)%Z -> PyFloat.digits_value 0%Z (digits n) = n.
Proof. intros Hn. apply digits_go_value. split; [done|]. by apply digits_fuel. Qed.

Lemma digits_all_digits n : (0 <= n)%Z -> all_chars is_digit (digits n) = true.
Proof. intros Hn. by apply digits_go_all_digits. Qed.

Lemma digits_nonempty n : digits n <> "".
Proof. apply digits_go_nonempty. Qed.



(** Stripping and [float] on strings of digits *)

Lemma lstrip_by_id p s :
  all_chars (fun c => negb (p c)) s = true -> lstrip_by p s = s.
Proof.
  destruct s as [|c s]; [done|]. cbn [all_chars lstrip_by].
  intros [Hc _]%andb_true_iff. apply negb_true_iff in Hc. by rewrite Hc.
Qed.

Lemma rstrip_by_id p s :
  all_chars (fun c => negb (p c)) s = true -> rstrip_by p s = s.
Proof.
  induction s as [|c s IH]; [done|]. cbn [all_chars rstrip_by].
  intros [Hc Hs]%andb_true_iff. apply negb_true_iff in Hc.
  rewrite (IH Hs), Hc. by destruct s.
Qed.

Lemma strip_by_id p s :
  all_chars (fun c => negb (p c)) s = true -> strip_by p s = s.
Proof. intros H. unfold strip_by. by rewrite lstrip_by_id, rstrip_by_id. Qed.

Lemma remove_underscores_id prev s :
  Ascii.eqb prev "_" = false ->
  all_chars (not_char "_") s = true ->
  PyFloat.remove_underscores prev s = Some s.
Proof.
  revert prev. induction s as [|c s IH]; intros prev Hprev Hs.
  - cbn [PyFloat.remove_underscores]. by rewrite Hprev.
  - cbn [all_chars] in Hs. apply andb_true_iff in Hs as [Hc Hs].
    unfold not_char in Hc. apply negb_true_iff in Hc.
    cbn [PyFloat.remove_underscores]. rewrite Hc, Hprev. cbn [andb].
    by rewrite (IH c Hc Hs).
Qed.

Lemma span_digits_all s :
  all_chars is_digit s = true -> PyFloat.span_digits s = (s, "").
Proof.
  induction s as [|c s IH]; [done|]. cbn [all_chars PyFloat.span_digits].
  intros [Hc Hs]%andb_true_iff. by rewrite Hc, (IH Hs).
Qed.

Lemma parse_sign_digit c s :
  is_digit c = true -> PyFloat.parse_sign (String c s) = (false, String c s).
Proof.
  destruct c as [[] [] [] [] [] [] [] []]; intros H; vm_compute in H;
    first [discriminate H | reflexivity].
Qed.

Lemma of_string_digits s :
  s <> "" -> all_chars is_digit s = true ->
  exists q, PyFloat.of_string s = Ok (PFin q)
            /\ q == inject_Z (PyFloat.digits_value 0 s).
Proof.
  intros Hne Hd. destruct s as [|c s]; [done|].
  assert (is_digit c = true) as Hc.
  { cbn [all_chars] in Hd. by apply andb_true_iff in Hd as [? _]. }
  destruct (is_digit_cases c Hc)
    as (_ & _ & _ & _ & _ & _ & _ & Hlow & Hi & Hn).
  unfold PyFloat.of_string.
  rewrite strip_by_id.
  2:{ eapply all_chars_weaken; [|exact Hd]. intros x Hx.
      by destruct (is_digit_cases x Hx) as (_ & -> & _). }
  rewrite remove_underscores_id; [|done|].
  2:{ eapply all_chars_weaken; [|exact Hd]. intros x Hx. unfold not_char.
      by destruct (is_digit_cases x Hx) as (_ & _ & -> & _). }
  rewrite parse_sign_digit by done.
  unfold PyFloat.parse_unsigned. cbn [PyFloat.lower_string String.eqb].
  rewrite Hlow, Hi, Hn. cbn [andb orb].
  unfold PyFloat.parse_decimal. rewrite span_digits_all by done.
  cbn [String.eqb andb fmap option_fmap option_map].
  eexists. split; [reflexivity|].
  rewrite app_empty_r. cbn [String.length].
  change (inject_Z (10 ^ Z.of_nat 0)) with 1%Q. unfold Qdiv.
  change (/ 1)%Q with 1%Q. apply Qmult_1_r.
Qed.

End StrFacts.

Module QFacts.

Local Open Scope Q_scope.

Lemma Qtrunc_nonneg q : 0 <= q -> PyFloat.Qtrunc q = Qfloor q.
Proof.
  destruct q as [n d]. unfold Qle, PyFloat.Qtrunc, Qfloor. simpl.
  intros Hn. apply Z.quot_div_nonneg; lia.
Qed.

Lemma Qfloor_unique q n :
  inject_Z n <= q -> q < inject_Z (n + 1) -> Qfloor q = n.
Proof.
  intros Hlo Hhi.
  pose proof (Qfloor_le q) as H1. pose proof (Qlt_floor q) as H2.
  assert (inject_Z n < inject_Z (Qfloor q + 1)) as H3 by lra.
  assert (inject_Z (Qfloor q) < inject_Z (n + 1)) as H4 by lra.
  rewrite <- Zlt_Qlt in H3, H4. lia.
Qed.

Lemma Qfloor_range q (lo hi : Z) :
  inject_Z lo <= q -> q < inject_Z hi -> (lo <= Qfloor q < hi)%Z.
Proof.
  intros Hlo Hhi.
  pose proof (Qfloor_le q) as H1. pose proof (Qlt_floor q) as H2.
  assert (inject_Z lo < inject_Z (Qfloor q + 1)) as H3 by lra.
  assert (inject_Z (Qfloor q) < inject_Z hi) as H4 by lra.
  rewrite <- Zlt_Qlt in H3, H4. lia.
Qed.

Lemma inject_Z_minus a b : inject_Z (a - b) = inject_Z a - inject_Z b.
Proof. unfold Z.sub, Qminus. by rewrite inject_Z_plus, inject_Z_opp. Qed.

Lemma div_const_spec x (k : Z) :
  (0 < k)%Z -> x / inject_Z k * inject_Z k == x.
Proof.
  intros Hk. field. intros H0.
  assert (inject_Z 0 < inject_Z k) as H by (rewrite <- Zlt_Qlt; lia).
  rewrite H0 in H. change (inject_Z 0) with 0 in H. lra.
Qed.

(** The hour, minute and second fields of a non-negative time. *)
Lemma timecode_fields x :
  0 <= x ->
  let h := Qfloor (x / inject_Z 3600) in
  let m := Qfloor ((x - inject_Z 3600 * inject_Z h) / inject_Z 60) in
  let y := x - inject_Z 60 * inject_Z (Qfloor (x / inject_Z 60)) in
  (0 <= h)%Z /\ (0 <= m < 60)%Z /\ 0 <= y /\ y < 60
  /\ inject_Z h * 3600 + inject_Z m * 60 + y == x
  /\ 0 <= x / inject_Z 3600
  /\ 0 <= (x - inject_Z 3600 * inject_Z h) / inject_Z 60.
Proof.
  intros Hx h m y.
  pose proof (div_const_spec x 3600 eq_refl) as Ha.
  pose proof (div_const_spec x 60 eq_refl) as Hb.
  pose proof (div_const_spec (x - inject_Z 3600 * inject_Z h) 60 eq_refl) as Hc.
  pose proof (Qfloor_le (x / inject_Z 3600)) as Hh1.
  pose proof (Qlt_floor (x / inject_Z 3600)) as Hh2.
  pose proof (Qfloor_le (x / inject_Z 60)) as Hf1.
  pose proof (Qlt_floor (x / inject_Z 60)) as Hf2.
  fold h in Hh1, Hh2, Hc.
  set (F := Qfloor (x / inject_Z 60)) in *.
  rewrite inject_Z_plus in Hh2, Hf2.
  change (inject_Z 1) with 1 in *. change (inject_Z 3600) with 3600 in *.
  change (inject_Z 60) with 60 in *.
  set (a := x / 3600) in *. set (b := x / 60) in *.
  set (c := (x - 3600 * inject_Z h) / 60) in *.
  assert (m = (F - 60 * h)%Z) as Hm.
  { apply Qfloor_unique.
    - rewrite inject_Z_minus, inject_Z_mult. change (inject_Z 60) with 60. lra.
    - rewrite inject_Z_plus, inject_Z_minus, inject_Z_mult.
      change (inject_Z 60) with 60. change (inject_Z 1) with 1. lra. }
  assert (0 <= h)%Z as Hh0.
  { apply (Qfloor_range a 0 (h + 1)); [change (inject_Z 0) with 0; lra|].
    rewrite inject_Z_plus. change (inject_Z 1) with 1. lra. }
  assert (0 <= m < 60)%Z as Hm0.
  { apply Qfloor_range; [change (inject_Z 0) with 0|change (inject_Z 60) with 60];
      fold c; lra. }
  split; [done|]. split; [done|].
  assert (inject_Z m == inject_Z F - 60 * inject_Z h) as HmQ.
  { rewrite Hm, inject_Z_minus, inject_Z_mult. reflexivity. }
  subst y. repeat split; try lra.
Qed.

End QFacts.

Module TimecodeFacts.
Import StrFacts QFacts.
Local Open Scope Q_scope.

Lemma bounded_check (P : Z -> bool) (n : Z) :
  forallb P (map Z.of_nat (seq 0 (Z.to_nat n))) = true ->
  forall z, (0 <= z < n)%Z -> P z = true.
Proof.
  intros Hall z Hz. rewrite forallb_forall in Hall. apply Hall.
  apply in_map_iff. exists (Z.to_nat z). split; [lia|].
  apply in_seq. lia.
Qed.

Lemma minutes_ok_all m : (0 <= m < 60)%Z -> minutes_ok m = true.
Proof. apply (bounded_check minutes_ok 60). by vm_compute. Qed.

Lemma seconds_ok_all cs : (0 <= cs < 6001)%Z -> seconds_ok cs = true.
Proof. apply (bounded_check seconds_ok 6001). by vm_compute. Qed.

Lemma field_ok_spec s v :
  field_ok s v = true ->
  all_chars (not_char ":") s = true /\ all_chars (not_char ",") s = true
  /\ exists q, PyFloat.of_string s = Ok (PFin q) /\ q == v.
Proof.
  unfold field_ok, parses_to.
  intros [[H1 H2]%andb_true_iff H3]%andb_true_iff. repeat split; try done.
  destruct (PyFloat.of_string s) as [[q| |]|]; try done.
  exists q. split; [done|]. by apply Qeq_bool_eq.
Qed.

Lemma hours_ok h :
  (0 <= h)%Z ->
  all_chars (not_char ":") (PyStr.of_int h) = true
  /\ all_chars (not_char ",") (PyStr.of_int h) = true
  /\ exists q, PyFloat.of_string (PyStr.of_int h) = Ok (PFin q) /\ q == inject_Z h.
Proof.
  intros Hh. unfold PyStr.of_int.
  destruct (Z.ltb_spec h 0) as [?|_]; [lia|].
  pose proof (digits_all_digits h Hh) as Hd.
  split; [|split].
  - eapply all_chars_weaken; [|exact Hd]. intros c Hc. unfold not_char.
    by destruct (is_digit_cases c Hc) as (_ & _ & _ & _ & _ & -> & _).
  - eapply all_chars_weaken; [|exact Hd]. intros c Hc. unfold not_char.
    by destruct (is_digit_cases c Hc) as (_ & _ & _ & _ & _ & _ & -> & _).
  - destruct (of_string_digits (PyStr.digits h)) as (q & Hq & Hv);
      [apply digits_nonempty | done |].
    exists q. split; [done|]. by rewrite Hv, digits_value.
Qed.

Lemma replace1_id old new s :
  all_chars (not_char old) s = true -> PyStr.replace1 old new s = s.
Proof.
  induction s as [|c s IH]; [done|]. cbn [all_chars PyStr.replace1].
  intros [Hc Hs]%andb_true_iff. unfold not_char in Hc.
  apply negb_true_iff in Hc. by rewrite Hc, (IH Hs).
Qed.

Lemma round_half_even_spec q :
  let r := PyFloat.round_half_even q in
  (Qfloor q <= r <= Qfloor q + 1)%Z
  /\ - (1 # 2) <= inject_Z r - q /\ inject_Z r - q <= 1 # 2.
Proof.
  unfold PyFloat.round_half_even.
  pose proof (Qfloor_le q) as H1. pose proof (Qlt_floor q) as H2.
  rewrite inject_Z_plus in H2. change (inject_Z 1) with 1 in H2.
  destruct (Qcompare_spec (q - inject_Z (Qfloor q)) (1 # 2)) as [He|Hl|Hg].
  - destruct (Z.even (Qfloor q)).
    + split; [lia|]. lra.
    + split; [lia|]. rewrite inject_Z_plus. change (inject_Z 1) with 1. lra.
  - split; [lia|]. lra.
  - split; [lia|]. rewrite inject_Z_plus. change (inject_Z 1) with 1. lra.
Qed.

Lemma fmt_seconds y :
  0 <= y ->
  PyFloat.fmt_05_2f (PFin y)
  = seconds_text (PyFloat.round_half_even (y * inject_Z 100)).
Proof.
  intros Hy. unfold PyFloat.fmt_05_2f, seconds_text.
  destruct (Qlt_le_dec y 0) as [Hlt|_]; [lra|].
  assert (Qabs y * inject_Z 100 == y * inject_Z 100) as He
    by (by rewrite Qabs_pos).
  unfold PyFloat.round_half_even.
  rewrite (Qfloor_comp _ _ He).
  assert (forall z a b c : Z,
    match Qabs y * inject_Z 100 - inject_Z z ?= 1 # 2 with Lt => a | Eq => b | Gt => c end
    = match y * inject_Z 100 - inject_Z z ?= 1 # 2 with Lt => a | Eq => b | Gt => c end) as Hm.
  { intros z a b c.
    assert ((Qabs y * inject_Z 100 - inject_Z z ?= 1 # 2)
            = (y * inject_Z 100 - inject_Z z ?= 1 # 2)) as ->; [|done].
    apply Qcompare_comp; [by rewrite He | reflexivity]. }
  by rewrite Hm.
Qed.


(** The text of a non-negative time, field by field. *)
Lemma format_timecode_nonneg x :
  0 <= x ->
  format_timecode (PFin x)
  = Ok (PyStr.of_int (Qfloor (x / inject_Z 3600)) +:+ ":"
        +:+ PyStr.fmt_02d
              (Qfloor ((x - inject_Z 3600 * inject_Z (Qfloor (x / inject_Z 3600)))
                       / inject_Z 60)) +:+ ":"
        +:+ seconds_text
              (PyFloat.round_half_even
                 ((x - inject_Z 60 * inject_Z (Qfloor (x / inject_Z 60)))
                  * inject_Z 100))).
Proof.
  intros Hx.
  destruct (timecode_fields x Hx) as (_ & _ & Hy0 & _ & _ & Ha & Hc).
  unfold format_timecode.
  cbn [PyFloat.div_int PyFloat.mod_int PyFloat.to_int Z.eqb mbind result_bind
       mret result_ret].
  rewrite !Qtrunc_nonneg by done. by rewrite fmt_seconds.
Qed.

(** Reading back a text made of three fields. *)
Lemma parse_three_fields sh sm ss qh qm qs :
  all_chars (not_char ":") sh = true -> all_chars (not_char ",") sh = true ->
  all_chars (not_char ":") sm = true -> all_chars (not_char ",") sm = true ->
  all_chars (not_char ":") ss = true -> all_chars (not_char ",") ss = true ->
  PyFloat.of_string sh = Ok (PFin qh) ->
  PyFloat.of_string sm = Ok (PFin qm) ->
  PyFloat.of_string ss = Ok (PFin qs) ->
  parse_timecode (sh +:+ ":" +:+ sm +:+ ":" +:+ ss)
  = Ok (PFin (0 + qs * inject_Z 1 + qm * inject_Z 60 + qh * inject_Z 3600)).
Proof.
  intros Hh1 Hh2 Hm1 Hm2 Hs1 Hs2 Hh Hm Hs. unfold parse_timecode.
  rewrite replace1_id.
  2:{ rewrite !all_chars_app, Hh2, Hm2, Hs2. done. }
  
  change (sh +:+ ":" +:+ sm +:+ ":" +:+ ss)
    with (sh +:+ String ":" (sm +:+ String ":" ss)).
  rewrite (split_1_app ":" sh) by done.
  rewrite (split_1_app ":" sm) by done.
  rewrite split_1_last by done.
  cbn [rev app zip zip_with sum_weighted].
  rewrite Hs. cbn [mbind result_bind]. rewrite Hm. cbn [mbind result_bind].
  rewrite Hh. cbn [mbind result_bind PyFloat.add PyFloat.mul_int]. done.
Qed.

Lemma timecode_roundtrip x :
  0 <= x ->
  exists s y, format_timecode (PFin x) = Ok s
              /\ parse_timecode s = Ok (PFin y)
              /\ Qabs (y - x) <= 1 # 200.
Proof.
  intros Hx.
  destruct (timecode_fields x Hx) as (Hh & Hm & Hy0 & Hy1 & Hsum & _ & _).
  cbv zeta in Hh, Hm, Hy0, Hy1, Hsum.
  set (h := Qfloor (x / inject_Z 3600)) in *.
  set (m := Qfloor ((x - inject_Z 3600 * inject_Z h) / inject_Z 60)) in *.
  set (y := x - inject_Z 60 * inject_Z (Qfloor (x / inject_Z 60))) in *.
  destruct (round_half_even_spec (y * inject_Z 100)) as (Hr1 & Hr2 & Hr3).
  set (cs := PyFloat.round_half_even (y * inject_Z 100)) in *.
  assert (0 <= cs < 6001)%Z as Hcs.
  { assert (0 <= Qfloor (y * inject_Z 100) < 6000)%Z; [|lia].
    apply Qfloor_range; change (inject_Z 100) with 100.
    - change (inject_Z 0) with 0. lra.
    - change (inject_Z 6000) with 6000. lra. }
  destruct (hours_ok h Hh) as (Hh1 & Hh2 & qh & Hqh & Hvh).
  destruct (field_ok_spec _ _ (minutes_ok_all m Hm)) as (Hm1 & Hm2 & qm & Hqm & Hvm).
  destruct (field_ok_spec _ _ (seconds_ok_all cs Hcs)) as (Hs1 & Hs2 & qs & Hqs & Hvs).
  eexists _, _. split; [by apply format_timecode_nonneg|].
  fold h. fold m. fold y. fold cs.
  split; [by apply parse_three_fields|].
  rewrite Hvh, Hvm, Hvs.
  assert (cs # 100 == inject_Z cs / 100) as -> by (by rewrite Qmake_Qdiv).
  change (inject_Z 1) with 1. change (inject_Z 60) with 60.
  change (inject_Z 3600) with 3600. change (inject_Z 100) with 100 in *.
  apply Qabs_Qle_condition. split.
  - assert (inject_Z cs / 100 * 100 == inject_Z cs) as Hd by (field; lra).
    set (t := inject_Z cs / 100) in *. lra.
  - assert (inject_Z cs / 100 * 100 == inject_Z cs) as Hd by (field; lra).
    set (t := inject_Z cs / 100) in *. lra.
Qed.

End TimecodeFacts.

(** * Word-by-word expansion *)

Module ExpandFacts.

Import StrFacts QFacts TimecodeFacts.
Local Open Scope Q_scope.







End ExpandFacts.



(** * Timecode parsing *)

Module ParseFacts.

Lemma of_string_error s e : PyFloat.of_string s = Raise e -> e = ValueError.
Proof.
  unfold PyFloat.of_string.
  destruct (PyFloat.remove_underscores _ _) as [t|]; [|by intros [= <-]].
  destruct (PyFloat.parse_sign t) as [sneg u].
  destruct (PyFloat.parse_unsigned u); [done | by intros [= <-]].
Qed.

Lemma sum_weighted_ok acc pairs :
  is_ok (sum_weighted acc pairs)
  = forallb (fun p => is_ok (PyFloat.of_string (fst p))) pairs.
Proof.
  revert acc. induction pairs as [|[x y] pairs IH]; intros acc; [done|].
  cbn [sum_weighted forallb fst].
  destruct (PyFloat.of_string x) as [v|e]; cbn [mbind result_bind is_ok andb]; [apply IH | done].
Qed.

Lemma sum_weighted_error acc pairs e :
  sum_weighted acc pairs = Raise e -> e = ValueError.
Proof.
  revert acc. induction pairs as [|[x y] pairs IH]; intros acc; [done|].
  cbn [sum_weighted].
  destruct (PyFloat.of_string x) as [v|e'] eqn:Hx; cbn [mbind result_bind].
  - apply IH.
  - intros [= <-]. by apply of_string_error in Hx.
Qed.

Lemma zip_three {A} (l : list A) (a b c : Z) :
  map fst (zip l [a; b; c]) = take 3 l.
Proof. destruct l as [|x [|y [|z [|u l]]]]; reflexivity. Qed.

Lemma forallb_map_fst {A B} (f : A -> bool) (l : list (A * B)) :
  forallb (fun p => f (fst p)) l = forallb f (map fst l).
Proof. induction l as [|[a b] l IH]; [done|]. cbn. by rewrite IH. Qed.

Lemma forallb_false {A} (f : A -> bool) (l : list A) :
  forallb f l = false <-> exists x, x ∈ l /\ f x = false.
Proof.
  induction l as [|a l IH]; cbn [forallb].
  - split; [done|]. intros (x & Hx & _). by apply elem_of_nil in Hx.
  - rewrite andb_false_iff, IH. split.
    + intros [Ha|(x & Hx & Hf)].
      * exists a. split; [apply elem_of_cons; by left | done].
      * exists x. split; [apply elem_of_cons; by right | done].
    + intros (x & [->|Hx]%elem_of_cons & Hf); [by left|].
      right. by exists x.
Qed.

End ParseFacts.

(** C4, as the code has it.  Timecode parsing reads the last three
    colon-separated components of the text (commas first turned into
    points) and nothing else: it fails, with the [ValueError] of [float],
    exactly when one of those three components is not a [float] literal.
    Components before the last three are never looked at, so a text with
    more than three components is not rejected on that account. *)
Theorem C4_parse_fails_iff_bad_component (text : string) :
  let components :=
    take 3 (rev (PyStr.split ":" (PyStr.replace1 "," "." text))) in
  (is_ok (parse_timecode text) = false
   <-> exists c, c ∈ components /\ is_ok (PyFloat.of_string c) = false)
  /\ (forall e, parse_timecode text = Raise e -> e = ValueError).
Proof.
  intros components. split.
  - unfold parse_timecode. rewrite ParseFacts.sum_weighted_ok.
    rewrite (ParseFacts.forallb_map_fst (fun c => is_ok (PyFloat.of_string c))).
    rewrite ParseFacts.zip_three. fold components.
    apply ParseFacts.forallb_false.
  - intros e. apply ParseFacts.sum_weighted_error.
Qed.

(** C4, as the specification states it, fails: a text with four
    components, the first of them not a number, parses. *)
Lemma C4_counterexample :
  length (PyStr.split ":" "abc:02:03:04") = 4%nat
  /\ is_ok (PyFloat.of_string "abc") = false
  /\ exists q, parse_timecode "abc:02:03:04" = Ok (PFin q) /\ (q == 7384)%Q.
Proof.
  split; [reflexivity|]. split; [reflexivity|].
  eexists. split; [vm_compute; reflexivity | reflexivity].
Qed.

(** * Style lines *)

Module StyleFacts.

Import StrFacts.

(** Splitting a joined list gives the list back when no item holds
    the separator. *)
Lemma split_join_1 c x l :
  all_chars (not_char c) x = true ->
  Forall (fun s => all_chars (not_char c) s = true) l ->
  PyStr.split (String c "") (PyStr.join (String c "") (x :: l)) = x :: l.
Proof.
  intros Hx Hl. revert x Hx. induction Hl as [|y l Hy Hl IH]; intros x Hx.
  - cbn [PyStr.join]. by apply split_1_last.
  - change (PyStr.join (String c "") (x :: y :: l))
      with (x +:+ String c (PyStr.join (String c "") (y :: l))).
    rewrite split_1_app by done. by rewrite IH.
Qed.

Lemma join_cons sep x y l :
  PyStr.join sep (x :: y :: l) = x +:+ sep +:+ PyStr.join sep (y :: l).
Proof. reflexivity. Qed.

Lemma join_prefix sep p x l :
  p +:+ PyStr.join sep (x :: l) = PyStr.join sep ((p +:+ x) :: l).
Proof.
  destruct l as [|y l]; [done|]. rewrite !join_cons. by rewrite app_assoc'.
Qed.

End StyleFacts.

Module CountFacts.

Import StrFacts.

Lemma split_go_1_length c s :
  forall cur, length (PyStr.split_go (String c "") 0 cur s) = S (count_char c s).
Proof.
  induction s as [|x s IH]; intros cur; [reflexivity|].
  cbn [PyStr.split_go count_char String.length Nat.sub]. rewrite prefix_1.
  destruct (Ascii.eqb x c); cbn [length]; by rewrite IH.
Qed.

(** Splitting on a character gives one field more than the text has
    occurrences of it. *)
Lemma split_1_length c s :
  length (PyStr.split (String c "") s) = S (count_char c s).
Proof. apply split_go_1_length. Qed.

Lemma count_char_app c a b :
  count_char c (a +:+ b) = (count_char c a + count_char c b)%nat.
Proof.
  induction a as [|x a IH]; [reflexivity|].
  cbn [append count_char]. rewrite IH. lia.
Qed.

Lemma count_char_join c x l :
  count_char c (PyStr.join (String c "") (x :: l))
  = (length l + sum_list (map (count_char c) (x :: l)))%nat.
Proof.
  revert x. induction l as [|y l IH]; intros x.
  - simpl. lia.
  - change (PyStr.join (String c "") (x :: y :: l))
      with (x +:+ String c "" +:+ PyStr.join (String c "") (y :: l)).
    rewrite !count_char_app, IH.
    cbn [count_char]. rewrite Ascii.eqb_refl. simpl. lia.
Qed.

End CountFacts.

(** C5, as the code has it.  Whatever options are supplied, the style
    line is the text [Style: ] followed by 22 values joined by commas, in
    the fixed order name, font name, font size, primary colour, outline
    colour, back colour, bold, italic, underline, strikeout, 100, 100, 0,
    0, 1, outline width, shadow depth, alignment, left margin, right
    margin, vertical margin, encoding.  Splitting the line on commas
    gives 22 fields and one more for every comma inside a value's text;
    when no value's text holds a comma, the fields are exactly these 22
    values, in order. *)
Theorem C5_style_line_fields (options : gmap string pyval) :
  let values :=
    [ "Default";
      py_str (dict_get options "font_name" (VStr "Arial"));
      py_str (dict_get options "font_size" (VInt 24));
      py_str (dict_get options "primary_color" (VStr "&H00FFFFFF"));
      py_str (dict_get options "outline_color" (VStr "&H00000000"));
      py_str (dict_get options "back_color" (VStr "&H00000000"));
      py_str (dict_get options "bold" (VInt 0));
      py_str (dict_get options "italic" (VInt 0));
      py_str (dict_get options "underline" (VInt 0));
      py_str (dict_get options "strikeout" (VInt 0));
      "100"; "100"; "0"; "0"; "1";
      py_str (dict_get options "outline" (VInt 1));
      py_str (dict_get options "shadow" (VInt 0));
      py_str (dict_get options "alignment" (VInt 2));
      py_str (dict_get options "margin_l" (VInt 10));
      py_str (dict_get options "margin_r" (VInt 10));
      py_str (dict_get options "margin_v" (VInt 10));
      py_str (dict_get options "encoding" (VInt 1)) ] in
  generate_style_line options = "Style: " +:+ PyStr.join "," values
  /\ length values = 22%nat
  /\ length (PyStr.split "," (generate_style_line options))
     = (22 + sum_list (map (count_char ",") values))%nat
  /\ (Forall (fun v => comma_free v = true) values ->
      exists fields,
        PyStr.split "," (generate_style_line options) = fields
        /\ length fields = 22%nat
        /\ Forall2 (fun field value => field = value \/ field = "Style: " +:+ value)
                   fields values
        /\ fields !! 0%nat = Some "Style: Default"
        /\ drop 1 fields = drop 1 values).
Proof.
  intros values.
  assert (generate_style_line options = "Style: " +:+ PyStr.join "," values) as Hline
    by reflexivity.
  split; [exact Hline|]. split; [reflexivity|]. split.
  { rewrite Hline, CountFacts.split_1_length, CountFacts.count_char_app.
    unfold values at 1. rewrite CountFacts.count_char_join.
    cbn [length count_char Ascii.eqb Bool.eqb]. fold values. lia. }
  intros Hfree.
  assert (PyStr.split "," (generate_style_line options)
          = "Style: Default" :: drop 1 values) as Hsplit.
  { rewrite Hline. unfold values. rewrite StyleFacts.join_prefix.
    apply StyleFacts.split_join_1; [reflexivity|].
    apply Forall_cons in Hfree as [_ Hrest]. exact Hrest. }
  exists ("Style: Default" :: drop 1 values).
  split; [exact Hsplit|]. split; [reflexivity|].
  split; [|split; reflexivity].
  constructor; [by right|].
  apply Forall2_same_length_lookup_2; [reflexivity|].
  intros i x y Hx Hy. left.
  unfold values in Hx, Hy. cbn [drop] in Hx. congruence.
Qed.

Lemma C5_witness :
  exists fields,
    PyStr.split "," (generate_style_line ∅) = fields /\ length fields = 22%nat.
Proof.
  destruct (C5_style_line_fields ∅) as (_ & _ & _ & Hfields).
  destruct Hfields as (fields & H1 & H2 & _).
  - repeat constructor.
  - exists fields. split; [exact H1 | exact H2].
Defined.

(** C5, as the specification states it, fails: a font name that holds a
    comma makes a line of 23 comma-separated fields. *)
Lemma C5_counterexample :
  length (PyStr.split "," (generate_style_line {[ "font_name" := VStr "Arial,Bold" ]}))
  = 23%nat.
Proof. vm_compute. reflexivity. Qed.

(** * Blocks and cues *)

Module BlockFacts.

Lemma convert_blocks_drop hl rc pre line post :
  short_block line = true ->
  convert_blocks hl rc (pre ++ line :: post) = convert_blocks hl rc (pre ++ post).
Proof.
  unfold short_block. intros Hshort%negb_true_iff.
  induction pre as [|b pre IH]; cbn [app convert_blocks].
  - by rewrite Hshort.
  - by rewrite IH.
Qed.

Lemma parse_blocks_drop pre line post :
  short_block line = true ->
  parse_blocks (pre ++ line :: post) = parse_blocks (pre ++ post).
Proof.
  unfold short_block. intros Hshort%negb_true_iff.
  induction pre as [|b pre IH]; cbn [app parse_blocks].
  - by rewrite Hshort.
  - by rewrite IH.
Qed.

(** Blocks that all have three lines or more and all parse give one cue
    each, in order. *)
Lemma parse_blocks_all lines :
  Forall (fun b => short_block b = false
                   /\ is_ok (block_cue (PyStr.split nl b)) = true) lines ->
  exists cues,
    parse_blocks lines = Ok cues
    /\ Forall2 (fun b c => block_cue (PyStr.split nl b) = Ok c) lines cues.
Proof.
  induction 1 as [|b lines [Hlong Hok] _ (cues & Hcues & Hall)].
  - exists []. split; [done | constructor].
  - unfold short_block in Hlong. apply negb_false_iff in Hlong.
    destruct (block_cue (PyStr.split nl b)) as [c|] eqn:Hc; [|done].
    exists (c :: cues). split.
    + cbn [parse_blocks]. rewrite Hlong, Hc. cbn [mbind result_bind].
      rewrite Hcues. done.
    + by constructor.
Qed.

(** When the conversion succeeds, its lines are the expansions of the
    cues [parse_blocks] reads. *)
Lemma convert_blocks_parse hl rc lines out :
  convert_blocks hl rc lines = Ok out ->
  exists cues, parse_blocks lines = Ok cues /\ expand_cues hl rc cues = Ok out.
Proof.
  revert out. induction lines as [|b lines IH]; intros out.
  - cbn. intros [= <-]. by exists [].
  - cbn [convert_blocks parse_blocks].
    destruct (3 <=? length (PyStr.split nl b))%nat; [|apply IH].
    destruct (block_cue (PyStr.split nl b)) as [c|]; cbn [mbind result_bind]; [|done].
    destruct (process_single_word_caption _ _ _ _ _) as [new|] eqn:Hnew;
      cbn [mbind result_bind]; [|done].
    destruct (convert_blocks hl rc lines) as [more|]; cbn [mbind result_bind]; [|done].
    intros [= <-]. destruct (IH more eq_refl) as (cues & Hcues & Hexp).
    exists (c :: cues). rewrite Hcues. split; [done|].
    cbn [expand_cues]. rewrite Hnew. cbn [mbind result_bind]. by rewrite Hexp.
Qed.

End BlockFacts.

Module LoopFacts.

(** The loop of lines 115 to 133 over blocks of three lines or more: it
    ends without an error exactly when every block gives a cue (lines 119
    to 124) and every cue expands (line 126), and [ass_lines] is then the
    expansions of the cues, in the order of the blocks. *)
Lemma convert_blocks_long highlight_color regular_color lines :
  Forall (fun b => (3 <= length (PyStr.split nl b))%nat) lines ->
  forall ass_lines,
    convert_blocks highlight_color regular_color lines = Ok ass_lines <->
    exists cues groups,
      Forall2 (fun b c => block_cue (PyStr.split nl b) = Ok c) lines cues
      /\ Forall2 (fun c g =>
                    process_single_word_caption (cue_text c) (cue_start c) (cue_end c)
                      highlight_color regular_color = Ok g) cues groups
      /\ ass_lines = concat groups.
Proof.
  induction 1 as [|b lines Hlen Hall IH]; intros ass_lines.
  - cbn [convert_blocks]. split.
    + intros [= <-]. exists [], []. by repeat split; constructor.
    + intros (cues & groups & Hc & Hg & ->).
      apply Forall2_nil_inv_l in Hc as ->. by apply Forall2_nil_inv_l in Hg as ->.
  - cbn [convert_blocks]. apply Nat.leb_le in Hlen. rewrite Hlen. split.
    + destruct (block_cue (PyStr.split nl b)) as [c|e] eqn:Hc; [|done].
      cbn [mbind result_bind].
      destruct (process_single_word_caption (cue_text c) (cue_start c) (cue_end c)
                  highlight_color regular_color) as [new|e] eqn:Hnew; [|done].
      cbn [mbind result_bind].
      destruct (convert_blocks highlight_color regular_color lines) as [more|e]; [|done].
      intros [= <-].
      destruct (proj1 (IH more) eq_refl) as (cues & groups & Hcs & Hgs & ->).
      exists (c :: cues), (new :: groups).
      split; [by constructor|]. split; [by constructor|]. reflexivity.
    + intros (cues & groups & Hcs & Hgs & ->).
      apply Forall2_cons_inv_l in Hcs as (c & cues' & Hc & Hcs & ->).
      apply Forall2_cons_inv_l in Hgs as (new & groups' & Hnew & Hgs & ->).
      rewrite Hc. cbn [mbind result_bind]. rewrite Hnew. cbn [mbind result_bind].
      rewrite (proj2 (IH (concat groups'))) by (by exists cues', groups').
      reflexivity.
Qed.

End LoopFacts.

(** C6.  A block with fewer than three lines is passed over without an
    error: the loop gives what it gives on the other blocks, and so does
    the conversion of the source.  When every other block has three lines
    or more, the loop ends without an error exactly when each of the
    other blocks gives a cue and each cue expands; there is then one cue
    per other block, that is one fewer than the source has blocks, and
    the lines produced are the expansions of these cues in the order of
    the blocks. *)
Theorem C6_short_block_dropped
    (srt_content : string) (options : gmap string pyval)
    (pre post : list string) (short : string) :
  PyStr.split (nl +:+ nl) (PyStr.strip srt_content) = pre ++ short :: post ->
  (length (PyStr.split nl short) < 3)%nat ->
  let blocks := PyStr.split (nl +:+ nl) (PyStr.strip srt_content) in
  let highlight_color := dict_get options "highlight_color" (VStr "FFFFFF") in
  let regular_color := dict_get options "regular_color" (VStr "AAAAAA") in
  convert_blocks highlight_color regular_color blocks
  = convert_blocks highlight_color regular_color (pre ++ post)
  /\ convert_srt_to_one_word_ass srt_content options
     = (ass_lines ← convert_blocks highlight_color regular_color (pre ++ post);
        mret (PyStr.join nl ass_lines))
  /\ (Forall (fun b => (3 <= length (PyStr.split nl b))%nat) (pre ++ post) ->
      forall ass_lines,
        convert_blocks highlight_color regular_color blocks = Ok ass_lines <->
        exists cues groups,
          Forall2 (fun b c => block_cue (PyStr.split nl b) = Ok c) (pre ++ post) cues
          /\ Forall2 (fun c g =>
                        process_single_word_caption (cue_text c) (cue_start c) (cue_end c)
                          highlight_color regular_color = Ok g) cues groups
          /\ length cues = (length blocks - 1)%nat
          /\ ass_lines = concat groups).
Proof.
  intros Hblocks Hshort blocks highlight_color regular_color.
  assert (short_block short = true) as Hs.
  { unfold short_block. apply negb_true_iff, Nat.leb_gt. exact Hshort. }
  assert (convert_blocks highlight_color regular_color blocks
          = convert_blocks highlight_color regular_color (pre ++ post)) as Hdrop.
  { unfold blocks. rewrite Hblocks. by apply BlockFacts.convert_blocks_drop. }
  split; [exact Hdrop|].
  split.
  { unfold convert_srt_to_one_word_ass. fold blocks highlight_color regular_color.
    by rewrite Hdrop. }
  intros Hall ass_lines. rewrite Hdrop.
  rewrite (LoopFacts.convert_blocks_long _ _ _ Hall).
  assert (length blocks - 1 = length (pre ++ post))%nat as Hlen.
  { unfold blocks. rewrite Hblocks, !length_app. cbn [length]. lia. }
  split.
  - intros (cues & groups & Hcs & Hgs & ->). exists cues, groups.
    split; [done|]. split; [done|]. split; [|done].
    apply Forall2_length in Hcs. lia.
  - intros (cues & groups & Hcs & Hgs & _ & ->). by exists cues, groups.
Qed.

Lemma C6_witness :
  exists cues groups,
    Forall2 (fun b c => block_cue (PyStr.split nl b) = Ok c)
      ["2" +:+ nl +:+ "00:00:01,000 --> 00:00:03,000" +:+ nl +:+ "hello world"] cues
    /\ length cues = 1%nat
    /\ convert_blocks (VStr "FFFFFF") (VStr "AAAAAA")
         (PyStr.split (nl +:+ nl)
            (PyStr.strip ("1" +:+ nl +:+ "00:00:00,000 --> 00:00:01,000" +:+ nl +:+ nl
                          +:+ "2" +:+ nl +:+ "00:00:01,000 --> 00:00:03,000" +:+ nl
                          +:+ "hello world" +:+ nl)))
       = Ok (concat groups).
Proof.
  destruct (C6_short_block_dropped
              ("1" +:+ nl +:+ "00:00:00,000 --> 00:00:01,000" +:+ nl +:+ nl
               +:+ "2" +:+ nl +:+ "00:00:01,000 --> 00:00:03,000" +:+ nl
               +:+ "hello world" +:+ nl)
              ∅
              []
              ["2" +:+ nl +:+ "00:00:01,000 --> 00:00:03,000" +:+ nl +:+ "hello world"]
              ("1" +:+ nl +:+ "00:00:00,000 --> 00:00:01,000"))
    as (Hdrop & _ & H).
  - vm_compute. reflexivity.
  - vm_compute. lia.
  - specialize (H ltac:(repeat constructor; vm_compute; lia)).
    destruct (convert_blocks (VStr "FFFFFF") (VStr "AAAAAA")
                ([] ++ ["2" +:+ nl +:+ "00:00:01,000 --> 00:00:03,000" +:+ nl
                        +:+ "hello world"])) as [ass_lines|e] eqn:Hrun;
      [|vm_compute in Hrun; discriminate Hrun].
    destruct (proj1 (H ass_lines) (eq_trans Hdrop Hrun))
      as (cues & groups & Hcs & _ & Hlen & Hout).
    exists cues, groups. split; [exact Hcs|]. split; [exact Hlen|].
    rewrite <- Hout. exact (eq_trans Hdrop Hrun).
Defined.

(** * Runs of the pipeline *)

Module IOFacts.

Lemma uniform_ret {A} (a : A) : uniform (mret a).
Proof. intros t. cbn. by rewrite app_nil_r. Qed.

Lemma uniform_lift {A} (r : result A) : uniform (IO.lift r).
Proof. intros t. cbn. by rewrite app_nil_r. Qed.

Lemma uniform_emit ev : uniform (IO.emit ev).
Proof. by intros t. Qed.

Lemma uniform_call {A} ev (answer : result A) : uniform (IO.call ev answer).
Proof. by intros t. Qed.

Lemma uniform_bind {A B} (m : io A) (f : A -> io B) :
  uniform m -> (forall a, uniform (f a)) -> uniform (m ≫= f).
Proof.
  intros Hm Hf t. unfold mbind, io_bind. rewrite (Hm t).
  destruct (m []) as [[a|e] new]; cbn [fst snd app]; [|done].
  rewrite (Hf a (t ++ new)), (Hf a new).
  destruct (f a []) as [r new2]. cbn [fst snd]. by rewrite app_assoc.
Qed.

Lemma uniform_try {A} (body : io A) handles handler :
  uniform body -> (forall e, uniform (handler e)) ->
  uniform (IO.try_except body handles handler).
Proof.
  intros Hm Hh t. unfold IO.try_except. rewrite (Hm t).
  destruct (body []) as [[a|e] new]; cbn [fst snd app]; [done|].
  destruct (handles e); [|done].
  rewrite (Hh e (t ++ new)), (Hh e new).
  destruct (handler e []) as [r new2]. cbn [fst snd]. by rewrite app_assoc.
Qed.

(** A run of two steps, from the runs of each. *)
Lemma bind_run {A B} (m : io A) (f : A -> io B) :
  (forall a, uniform (f a)) ->
  (m ≫= f) []
  = match m [] with
    | (Ok a, new) => ((f a []).1, new ++ (f a []).2)
    | (Raise e, new) => (Raise e, new)
    end.
Proof.
  intros Hf. unfold mbind, io_bind.
  destruct (m []) as [[a|e] new]; [|done]. by rewrite (Hf a new).
Qed.

End IOFacts.

Ltac uniform_step :=
  lazymatch goal with
  | |- uniform (mbind _ _) => apply IOFacts.uniform_bind; [|intros ?]
  | |- uniform (mret _) => apply IOFacts.uniform_ret
  | |- uniform (IO.log _ _) => apply IOFacts.uniform_emit
  | |- uniform (IO.emit _) => apply IOFacts.uniform_emit
  | |- uniform (IO.call _ _) => apply IOFacts.uniform_call
  | |- uniform (IO.lift _) => apply IOFacts.uniform_lift
  | |- uniform (IO.raise _) => apply IOFacts.uniform_lift
  | |- uniform (IO.try_except _ _ _) => apply IOFacts.uniform_try; [|intros ?]
  | |- uniform (if ?b then _ else _) => destruct b
  | |- uniform (match ?x with _ => _ end) => destruct x
  | |- uniform (let _ := _ in _) => cbv zeta
  end.

Ltac uniform_tac := repeat (uniform_step; cbv beta iota).

Module PipelineFacts.

Lemma uniform_convert_array w options : uniform (convert_array_to_collection w options).
Proof. unfold convert_array_to_collection. uniform_tac. Qed.

Lemma uniform_select_font w job_id font_name : uniform (select_font w job_id font_name).
Proof. unfold select_font. uniform_tac. Qed.

Lemma uniform_write_subtitle w job_id caption_srt caption_type srt_path one_word_mode
    caption_style options :
  uniform (write_subtitle w job_id caption_srt caption_type srt_path one_word_mode
             caption_style options).
Proof. unfold write_subtitle. uniform_tac. Qed.

Lemma uniform_build_subtitle_filter job_id ext srt_path font_name options :
  uniform (build_subtitle_filter job_id ext srt_path font_name options).
Proof. unfold build_subtitle_filter. uniform_tac. Qed.

Lemma uniform_run_encoder w job_id video_path output_path subtitle_filter :
  uniform (run_encoder w job_id video_path output_path subtitle_filter).
Proof. unfold run_encoder. uniform_tac. Qed.

Lemma uniform_publish w job_id video_path srt_path output_path :
  uniform (publish_and_clean_up w job_id video_path srt_path output_path).
Proof. unfold publish_and_clean_up. uniform_tac. Qed.


Lemma kinds_within_app ks l1 l2 :
  kinds_within ks (l1 ++ l2) = kinds_within ks l1 && kinds_within ks l2.
Proof. apply forallb_app. Qed.

Lemma kinds_within_elem ks l ev :
  kinds_within ks l = true -> ev ∈ l -> existsb (kind_eqb (kind_of ev)) ks = true.
Proof.
  unfold kinds_within. rewrite forallb_forall. intros Hall Hin.
  apply Hall. by apply list_elem_of_In.
Qed.

Lemma kinds_within_mono ks ks' l :
  (forall k, existsb (kind_eqb k) ks = true -> existsb (kind_eqb k) ks' = true) ->
  kinds_within ks l = true -> kinds_within ks' l = true.
Proof.
  intros Hsub. unfold kinds_within. rewrite !forallb_forall.
  intros Hall ev Hin. apply Hsub, Hall, Hin.
Qed.

(** The filter step never fails and logs the filter it returns. *)
Lemma build_subtitle_filter_run job_id subtitle_extension srt_path font_name options :
  let subtitle_filter :=
    if String.eqb subtitle_extension ".ass"
    then "subtitles='" +:+ srt_path +:+ "'"
    else "subtitles=" +:+ srt_path +:+ ":force_style='"
         +:+ force_style_clause (force_style_options font_name options) +:+ "'" in
  build_subtitle_filter job_id subtitle_extension srt_path font_name options []
  = (Ok subtitle_filter,
     [EvLog INFO ("Job " +:+ job_id
                  +:+ (if String.eqb subtitle_extension ".ass"
                       then ": Using ASS subtitle filter: "
                       else ": Using subtitle filter: ")
                  +:+ subtitle_filter)]).
Proof.
  unfold build_subtitle_filter. by destruct (String.eqb subtitle_extension ".ass").
Qed.

(** The font step: a failed lookup raises, a found font is logged, a
    missing one gives a warning and the path of Arial, if any. *)
Lemma select_font_run w job_id font_name :
  select_font w job_id font_name []
  = match font_lookup w font_name with
    | Raise e => (Raise e, [])
    | Ok (Some selected_font) =>
        (Ok (Some selected_font),
         [EvLog INFO ("Job " +:+ job_id +:+ ": Font path set to " +:+ selected_font)])
    | Ok None =>
        (Ok (FONT_PATHS w !! "Arial"),
         [EvLog WARNING ("Job " +:+ job_id +:+ ": Font " +:+ py_str font_name
                         +:+ " not found. Using default font Arial.")])
    end.
Proof.
  unfold select_font. cbv [mbind io_bind IO.lift].
  by destruct (font_lookup w font_name) as [[p|]|e].
Qed.

(** The encoder step, by what the encoder answers. *)
Lemma run_encoder_run w job_id video_path output_path subtitle_filter :
  let start :=
    [ EvLog INFO ("Job " +:+ job_id +:+ ": Running FFmpeg with filter: "
                  +:+ subtitle_filter);
      EvEncode video_path output_path subtitle_filter "copy" ] in
  run_encoder w job_id video_path output_path subtitle_filter []
  = match ffmpeg_run w video_path output_path subtitle_filter "copy" with
    | Ok _ =>
        (Ok tt,
         start ++ [EvLog INFO ("Job " +:+ job_id
                               +:+ ": FFmpeg processing completed, output file at "
                               +:+ output_path)])
    | Raise (FfmpegError stdout (Some (b :: bs))) =>
        match utf8_text w (b :: bs) with
        | Some error_message =>
            (Raise (FfmpegError stdout (Some (b :: bs))),
             start ++ [EvLog ERROR ("Job " +:+ job_id +:+ ": FFmpeg error: "
                                    +:+ error_message)])
        | None => (Raise (UnicodeDecodeError (b :: bs)), start)
        end
    | Raise (FfmpegError stdout stderr) =>
        (Raise (FfmpegError stdout stderr),
         start ++ [EvLog ERROR ("Job " +:+ job_id +:+ ": FFmpeg error: "
                                +:+ "Unknown FFmpeg error")])
    | Raise e => (Raise e, start)
    end.
Proof.
  unfold run_encoder.
  cbv [mbind io_bind mret io_ret IO.try_except IO.log IO.emit IO.call IO.lift IO.raise
       decode_utf8].
  destruct (ffmpeg_run w video_path output_path subtitle_filter "copy")
    as [[]|[| | | | | |out [[|b bs]|]|]]; try reflexivity.
  cbn [app]. by destruct (utf8_text w (b :: bs)).
Qed.

Lemma publish_kinds w job_id video_path srt_path output_path :
  kinds_within [KLog; KUpload; KRemove]
    (publish_and_clean_up w job_id video_path srt_path output_path []).2 = true.
Proof.
  unfold publish_and_clean_up.
  cbv [mbind io_bind mret io_ret IO.log IO.emit IO.call IO.lift].
  repeat match goal with
         | |- context [match ?x with _ => _ end] =>
             lazymatch x with
             | context [match _ with _ => _ end] => fail
             | _ => destruct x
             end
         end; reflexivity.
Qed.

Lemma write_subtitle_kinds w job_id caption_srt caption_type srt_path one_word_mode
    caption_style options :
  kinds_within [KLog; KFetch; KWrite]
    (write_subtitle w job_id caption_srt caption_type srt_path one_word_mode
       caption_style options []).2 = true.
Proof.
  unfold write_subtitle.
  cbv [mbind io_bind mret io_ret IO.log IO.emit IO.call IO.lift].
  repeat match goal with
         | |- context [match ?x with _ => _ end] =>
             lazymatch x with
             | context [match _ with _ => _ end] => fail
             | context [if _ then _ else _] => fail
             | _ => destruct x
             end
         | |- context [if ?x then _ else _] =>
             lazymatch x with
             | context [match _ with _ => _ end] => fail
             | context [if _ then _ else _] => fail
             | _ => destruct x
             end
         end; reflexivity.
Qed.

(** A run of the whole pipeline, step by step: each step either fails,
    and the failure is logged and raised again, or hands over to the
    next one. *)
Lemma process_captioning_run w file_url caption_srt caption_type options job_id :
  let opts := foldl (fun d item => <[fst item := snd item]> d) ∅ options in
  let one_word_mode := dict_get opts "one_word_mode" (VBool false) in
  let forced := py_truthy one_word_mode && negb (String.eqb caption_type "ass") in
  let caption_type' := if forced then "ass" else caption_type in
  let subtitle_extension := if forced then ".ass" else "." +:+ caption_type in
  let srt_path := os_path_join STORAGE_PATH (job_id +:+ subtitle_extension) in
  let caption_style :=
    if String.eqb caption_type' "ass" then ass_header (generate_style_line opts) else "" in
  let output_path := os_path_join STORAGE_PATH (job_id +:+ "_captioned.mp4") in
  let font_name := dict_get opts "font_name" (VStr "Arial") in
  let failed e events := (Raise e, events ++ [error_entry w job_id e]) in
  let start :=
    [ EvLog INFO ("Job " +:+ job_id +:+ ": Starting download of file from " +:+ file_url);
      EvDownload file_url STORAGE_PATH ] in
  process_captioning w file_url caption_srt caption_type options job_id []
  = match download_file w file_url STORAGE_PATH with
    | Raise e => failed e start
    | Ok video_path =>
        let prep :=
          start
          ++ [ EvLog INFO ("Job " +:+ job_id +:+ ": File downloaded to " +:+ video_path);
               EvLog INFO ("Converting options array to dictionary: "
                           +:+ repr_options w options) ]
          ++ (if forced
              then [EvLog INFO ("Job " +:+ job_id
                                +:+ ": One-word mode enabled, converting to ASS format")]
              else [])
          ++ (if String.eqb caption_type' "ass"
              then [EvLog INFO ("Job " +:+ job_id +:+ ": Generated ASS style string: "
                                +:+ generate_style_line opts)]
              else []) in
        match write_subtitle w job_id caption_srt caption_type' srt_path one_word_mode
                caption_style opts [] with
        | (Raise e, sub) => failed e (prep ++ sub)
        | (Ok _, sub) =>
            let sub' :=
              sub ++ [EvLog INFO ("Job " +:+ job_id +:+ ": Output path set to "
                                  +:+ output_path)] in
            match select_font w job_id font_name [] with
            | (Raise e, fnt) => failed e (prep ++ sub' ++ fnt)
            | (Ok _, fnt) =>
                match build_subtitle_filter job_id subtitle_extension srt_path
                        font_name opts [] with
                | (Raise e, flt) => failed e (prep ++ sub' ++ fnt ++ flt)
                | (Ok subtitle_filter, flt) =>
                    match run_encoder w job_id video_path output_path
                            subtitle_filter [] with
                    | (Raise e, enc) => failed e (prep ++ sub' ++ fnt ++ flt ++ enc)
                    | (Ok _, enc) =>
                        match publish_and_clean_up w job_id video_path srt_path
                                output_path [] with
                        | (Raise e, fin) =>
                            failed e (prep ++ sub' ++ fnt ++ flt ++ enc ++ fin)
                        | (Ok output_filename, fin) =>
                            (Ok output_filename,
                             prep ++ sub' ++ fnt ++ flt ++ enc ++ fin)
                        end
                    end
                end
            end
        end
    end.
Proof.
  intros opts one_word_mode forced caption_type' subtitle_extension srt_path
    caption_style output_path font_name failed start.
  unfold process_captioning.
  cbv beta iota zeta delta
    [mbind io_bind mret io_ret IO.try_except IO.log IO.emit IO.call IO.lift IO.raise
     convert_array_to_collection].
  fold opts. fold one_word_mode. fold forced. cbn [app].
  destruct (download_file w file_url STORAGE_PATH) as [video_path|e]; [|reflexivity].
  destruct forced eqn:Hforced; subst caption_type' subtitle_extension; cbv beta iota zeta;
    fold srt_path; cbn [app String.eqb Ascii.eqb Bool.eqb andb];
    [|destruct (String.eqb caption_type "ass") eqn:Hass]; cbv beta iota zeta; cbn [app].
  all: rewrite uniform_write_subtitle;
    destruct (write_subtitle _ _ _ _ _ _ _ _ []) as [[?|e] sub]; cbn [fst snd app];
    [|subst failed; cbv beta; by rewrite <- ?app_assoc].
  all: rewrite uniform_select_font;
    destruct (select_font _ _ _ []) as [[?|e] fnt]; cbn [fst snd app];
    [|subst failed; cbv beta; by rewrite <- ?app_assoc].
  all: rewrite uniform_build_subtitle_filter;
    destruct (build_subtitle_filter _ _ _ _ _ []) as [[?|e] flt]; cbn [fst snd app];
    [|subst failed; cbv beta; by rewrite <- ?app_assoc].
  all: rewrite uniform_run_encoder;
    destruct (run_encoder _ _ _ _ _ []) as [[?|e] enc]; cbn [fst snd app];
    [|subst failed; cbv beta; by rewrite <- ?app_assoc].
  all: rewrite uniform_publish;
    destruct (publish_and_clean_up _ _ _ _ _ []) as [[?|e] fin]; cbn [fst snd app];
    [|subst failed; cbv beta; by rewrite <- ?app_assoc].
  all: by rewrite <- ?app_assoc.
Qed.

End PipelineFacts.

(** From an equation between two runs, the equations between their
    results and between their traces. *)
Ltac split_run H :=
  let Hr := fresh "Hr" in
  let Ht := fresh "Ht" in
  pose proof (f_equal fst H) as Hr; pose proof (f_equal snd H) as Ht;
  cbn [fst snd] in Hr, Ht; clear H;
  try (symmetry in Hr; symmetry in Ht); subst.

Module EncodeFacts.

Import PipelineFacts.

Lemma select_font_kinds w job_id font_name :
  kinds_within [KLog] (select_font w job_id font_name []).2 = true.
Proof.
  rewrite select_font_run. by destruct (font_lookup w font_name) as [[p|]|e].
Qed.

Lemma run_encoder_kinds w job_id video_path output_path subtitle_filter :
  kinds_within [KLog; KEncode]
    (run_encoder w job_id video_path output_path subtitle_filter []).2 = true.
Proof.
  rewrite run_encoder_run. cbv zeta.
  destruct (ffmpeg_run w video_path output_path subtitle_filter "copy")
    as [[]|[| | | | | |out [[|b bs]|]|]]; try reflexivity.
  by destruct (utf8_text w (b :: bs)).
Qed.

Lemma not_encode_elem l v o f a :
  kinds_within [KLog; KDownload; KFetch; KWrite] l = true ->
  EvEncode v o f a ∈ l -> False.
Proof. intros Hk Hin. by pose proof (kinds_within_elem _ _ _ Hk Hin). Qed.

(** An encoder call in the trace of a job is the call of the encoder
    step, made on the downloaded video with the filter of the filter
    step; before it come only log entries, the download, fetches and
    writes, and after it the job ends as the encoder step and the last
    step end. *)
Lemma encode_reached w file_url caption_srt caption_type options job_id r trace v o f a :
  let opts := foldl (fun d item => <[fst item := snd item]> d) ∅ options in
  let forced := py_truthy (dict_get opts "one_word_mode" (VBool false))
                && negb (String.eqb caption_type "ass") in
  let subtitle_extension := if forced then ".ass" else "." +:+ caption_type in
  let srt_path := os_path_join STORAGE_PATH (job_id +:+ subtitle_extension) in
  let output_path := os_path_join STORAGE_PATH (job_id +:+ "_captioned.mp4") in
  let font_name := dict_get opts "font_name" (VStr "Arial") in
  let subtitle_filter :=
    if String.eqb subtitle_extension ".ass"
    then "subtitles='" +:+ srt_path +:+ "'"
    else "subtitles=" +:+ srt_path +:+ ":force_style='"
         +:+ force_style_clause (force_style_options font_name opts) +:+ "'" in
  process_captioning w file_url caption_srt caption_type options job_id [] = (r, trace) ->
  EvEncode v o f a ∈ trace ->
  exists video_path before,
    download_file w file_url STORAGE_PATH = Ok video_path
    /\ v = video_path /\ o = output_path /\ f = subtitle_filter /\ a = "copy"
    /\ kinds_within [KLog; KDownload; KFetch; KWrite] before = true
    /\ match run_encoder w job_id video_path output_path subtitle_filter [] with
       | (Raise e, enc) =>
           r = Raise e /\ trace = before ++ enc ++ [error_entry w job_id e]
       | (Ok _, enc) =>
           match publish_and_clean_up w job_id video_path srt_path output_path [] with
           | (Raise e, fin) =>
               r = Raise e /\ trace = before ++ enc ++ fin ++ [error_entry w job_id e]
           | (Ok output_filename, fin) =>
               r = Ok output_filename /\ trace = before ++ enc ++ fin
           end
       end.
Proof.
  intros opts forced subtitle_extension srt_path output_path font_name subtitle_filter.
  rewrite process_captioning_run. cbv beta zeta.
  fold opts. fold forced. fold subtitle_extension. fold srt_path. fold output_path.
  fold font_name.
  destruct (download_file w file_url STORAGE_PATH) as [video_path|e].
  2:{ intros Htrace Hin; split_run Htrace. exfalso. revert Hin. apply not_encode_elem. reflexivity. }
  set (prep := _ ++ _ ++ _ ++ _).
  assert (kinds_within [KLog; KDownload; KFetch; KWrite] prep = true) as Hprep.
  { subst prep. destruct forced; destruct (String.eqb _ "ass"); reflexivity. }
  clearbody prep.
  pose proof (write_subtitle_kinds w job_id caption_srt
                (if forced then "ass" else caption_type) srt_path
                (dict_get opts "one_word_mode" (VBool false))
                (if String.eqb (if forced then "ass" else caption_type) "ass"
                 then ass_header (generate_style_line opts) else "") opts) as Hsub.
  destruct (write_subtitle _ _ _ _ _ _ _ _ []) as [[[]|e] sub]; cbn [snd] in Hsub.
  2:{ intros Htrace Hin; split_run Htrace. exfalso. revert Hin. apply not_encode_elem.
      rewrite !kinds_within_app, Hprep.
      rewrite (kinds_within_mono [KLog; KFetch; KWrite] [KLog; KDownload; KFetch; KWrite] _ ltac:(by intros []) Hsub). reflexivity. }
  pose proof (select_font_kinds w job_id font_name) as Hfnt.
  destruct (select_font w job_id font_name []) as [[found|e] fnt]; cbn [snd] in Hfnt.
  2:{ intros Htrace Hin; split_run Htrace. exfalso. revert Hin. apply not_encode_elem.
      rewrite !kinds_within_app, Hprep.
      rewrite (kinds_within_mono [KLog; KFetch; KWrite] [KLog; KDownload; KFetch; KWrite] _ ltac:(by intros []) Hsub).
      rewrite (kinds_within_mono [KLog] [KLog; KDownload; KFetch; KWrite] _ ltac:(by intros []) Hfnt). reflexivity. }
  rewrite build_subtitle_filter_run. cbv zeta. fold subtitle_filter.
  match goal with
  | |- context [prep ++ ?s ++ fnt ++ ?fl ++ _] =>
      set (flt := fl); set (before := prep ++ s ++ fnt ++ flt)
  end.
  assert (kinds_within [KLog] flt = true) as Hflt by reflexivity.
  clearbody flt.
  assert (kinds_within [KLog; KDownload; KFetch; KWrite] before = true) as Hbefore.
  { subst before. rewrite !kinds_within_app, Hprep.
    rewrite (kinds_within_mono [KLog; KFetch; KWrite] [KLog; KDownload; KFetch; KWrite] _ ltac:(by intros []) Hsub).
    rewrite (kinds_within_mono [KLog] [KLog; KDownload; KFetch; KWrite] _ ltac:(by intros []) Hfnt).
    rewrite (kinds_within_mono [KLog] [KLog; KDownload; KFetch; KWrite] _ ltac:(by intros []) Hflt).
    reflexivity. }
  pose proof (run_encoder_kinds w job_id video_path output_path subtitle_filter) as Henc.
  pose proof (run_encoder_run w job_id video_path output_path subtitle_filter) as Hrun.
  pose proof (publish_kinds w job_id video_path srt_path output_path) as Hfin.
  intros Htrace Hin.
  assert (EvEncode v o f a
          ∈ (run_encoder w job_id video_path output_path subtitle_filter []).2) as Hev.
  { destruct (run_encoder _ _ _ _ _ []) as [[[]|e] enc]; cbn [snd] in *.
    - destruct (publish_and_clean_up _ _ _ _ _ []) as [[name|e] fin]; cbn [snd] in *;
        split_run Htrace;
        repeat (apply elem_of_app in Hin as [Hin|Hin]); try done.
      all: try (exfalso; revert Hin; apply not_encode_elem; first [exact Hprep | reflexivity]).
      all: try (by pose proof (kinds_within_elem _ _ _ Hsub Hin)).
      all: try (by pose proof (kinds_within_elem _ _ _ Hfnt Hin)).
      all: try (by pose proof (kinds_within_elem _ _ _ Hflt Hin)).
      all: try (by pose proof (kinds_within_elem _ _ _ Hfin Hin)).
    - split_run Htrace.
      repeat (apply elem_of_app in Hin as [Hin|Hin]); try done.
      all: try (exfalso; revert Hin; apply not_encode_elem; first [exact Hprep | reflexivity]).
      all: try (by pose proof (kinds_within_elem _ _ _ Hsub Hin)).
      all: try (by pose proof (kinds_within_elem _ _ _ Hfnt Hin)).
      all: try (by pose proof (kinds_within_elem _ _ _ Hflt Hin)). }
  exists video_path, before.
  split; [reflexivity|].
  assert (v = video_path /\ o = output_path /\ f = subtitle_filter /\ a = "copy") as Hargs.
  { rewrite Hrun in Hev. cbv zeta in Hev.
    destruct (ffmpeg_run w video_path output_path subtitle_filter "copy")
      as [[]|[| | | | | |out [[|b bs]|]|]]; cbn [snd app] in Hev.
    all: try destruct (utf8_text w (b :: bs)); cbn [snd app] in Hev.
    all: repeat (apply elem_of_cons in Hev as [Hev|Hev]); try done.
    all: try (by apply elem_of_nil in Hev).
    all: by injection Hev as -> -> -> ->. }
  destruct Hargs as (-> & -> & -> & ->). repeat (split; [reflexivity|]).
  split; [exact Hbefore|].
  destruct (run_encoder _ _ _ _ _ []) as [[[]|e] enc].
  - destruct (publish_and_clean_up _ _ _ _ _ []) as [[name|e] fin];
      split_run Htrace; subst before; split; try reflexivity;
      by rewrite <- ?app_assoc.
  - split_run Htrace. subst before. split; [reflexivity|].
    by rewrite <- ?app_assoc.
Qed.

End EncodeFacts.

(** C9.  When the encoder call of a job fails with the encoder's own
    error, the job fails: the exception raised is the encoder's error,
    or, when the captured error stream is not valid UTF-8, the decoding
    error that holds that stream; either way it carries the encoder's
    captured output.  Nothing is uploaded and no file is removed. *)
Theorem C9_encoder_failure_fails_job
    (w : world) (file_url caption_srt caption_type : string)
    (options : list (string * pyval)) (job_id : string)
    (r : result string) (trace : list event)
    (video_path output_path vf acodec : string) (stdout stderr : option (list byte)) :
  process_captioning w file_url caption_srt caption_type options job_id [] = (r, trace) ->
  EvEncode video_path output_path vf acodec ∈ trace ->
  ffmpeg_run w video_path output_path vf acodec = Raise (FfmpegError stdout stderr) ->
  (exists e, r = Raise e /\ diagnostic_of e = stderr
             /\ (e = FfmpegError stdout stderr
                 \/ exists b, stderr = Some b /\ utf8_text w b = None
                              /\ e = UnicodeDecodeError b))
  /\ (forall path bucket, EvUpload path bucket ∉ trace)
  /\ (forall path, EvRemove path ∉ trace).
Proof.
  intros Hrun Hin Hfail.
  destruct (EncodeFacts.encode_reached _ _ _ _ _ _ _ _ _ _ _ _ Hrun Hin)
    as (vp & before & _ & -> & -> & -> & -> & Hbefore & Hend).
  rewrite PipelineFacts.run_encoder_run in Hend. cbv zeta in Hend.
  rewrite Hfail in Hend.
  assert (forall e' tail,
            kinds_within [KLog; KEncode] tail = true ->
            r = Raise e' /\ trace = before ++ tail ++ [error_entry w job_id e'] ->
            (forall path bucket, EvUpload path bucket ∉ trace)
            /\ (forall path, EvRemove path ∉ trace)) as Hclean.
  { intros e' tail Htail [_ ->].
    assert (kinds_within [KLog; KDownload; KFetch; KWrite; KEncode]
              (before ++ tail ++ [error_entry w job_id e']) = true) as Hk.
    { rewrite !PipelineFacts.kinds_within_app.
      rewrite (PipelineFacts.kinds_within_mono
                 [KLog; KDownload; KFetch; KWrite]
                 [KLog; KDownload; KFetch; KWrite; KEncode] _ ltac:(by intros []) Hbefore).
      rewrite (PipelineFacts.kinds_within_mono
                 [KLog; KEncode]
                 [KLog; KDownload; KFetch; KWrite; KEncode] _ ltac:(by intros []) Htail).
      reflexivity. }
    split; intros; intros Hev;
      by pose proof (PipelineFacts.kinds_within_elem _ _ _ Hk Hev). }
  destruct stderr as [[|b bs]|].
  - split; [|by eapply Hclean; [|exact Hend]].
    destruct Hend as [-> _]. eexists. split; [reflexivity|]. split; [reflexivity|]. by left.
  - destruct (utf8_text w (b :: bs)) as [text|] eqn:Htext.
    + split; [|by eapply Hclean; [|exact Hend]].
      destruct Hend as [-> _]. eexists. split; [reflexivity|]. split; [reflexivity|].
      by left.
    + split; [|by eapply Hclean; [|exact Hend]].
      destruct Hend as [-> _]. eexists. split; [reflexivity|]. split; [reflexivity|].
      right. by exists (b :: bs).
  - split; [|by eapply Hclean; [|exact Hend]].
    destruct Hend as [-> _]. eexists. split; [reflexivity|]. split; [reflexivity|]. by left.
Qed.

Lemma C9_witness :
  exists e,
    (process_captioning world_encoder_fails "https://example.com/video.mp4"
       "caption" "srt" [] "job1" []).1 = Raise e
    /\ diagnostic_of e = Some ["x"%byte].
Proof.
  destruct (C9_encoder_failure_fails_job world_encoder_fails
              "https://example.com/video.mp4" "caption" "srt" [] "job1"
              (process_captioning world_encoder_fails "https://example.com/video.mp4"
                 "caption" "srt" [] "job1" []).1
              (process_captioning world_encoder_fails "https://example.com/video.mp4"
                 "caption" "srt" [] "job1" []).2
              "/tmp/video.mp4" "/tmp/job1_captioned.mp4"
              ("subtitles=/tmp/job1.srt:force_style='"
               +:+ force_style_clause (force_style_options (VStr "Arial") ∅) +:+ "'")
              "copy" None (Some ["x"%byte]))
    as ((e & He & Hd & _) & _).
  - apply surjective_pairing.
  - apply (list_elem_of_lookup_2 _ 10%nat). vm_compute. reflexivity.
  - reflexivity.
  - exists e. split; [exact He | exact Hd].
Defined.

Module FilterFacts.





End FilterFacts.



Module SubtitleFacts.

Import PipelineFacts.

(** The subtitle step on an inline caption: the text is converted or
    taken as it is, then written; nothing is fetched. *)
Lemma write_subtitle_inline w job_id caption_srt caption_type srt_path one_word_mode
    caption_style options :
  PyStr.startswith caption_srt "https" = false ->
  write_subtitle w job_id caption_srt caption_type srt_path one_word_mode
    caption_style options []
  = match (if py_truthy one_word_mode
           then (fun body => caption_style +:+ body)
                  <$> convert_srt_to_one_word_ass caption_srt options
           else Ok (caption_style +:+ caption_srt)) with
    | Raise e => (Raise e, [])
    | Ok subtitle_content =>
        match write_text w srt_path subtitle_content with
        | Raise e => (Raise e, [EvWriteText srt_path subtitle_content])
        | Ok _ =>
            (Ok tt,
             [ EvWriteText srt_path subtitle_content;
               EvLog INFO ("Job " +:+ job_id +:+ ": Caption file created at "
                           +:+ srt_path) ])
        end
    end.
Proof.
  intros Hs. unfold write_subtitle. rewrite Hs.
  cbv [mbind io_bind mret io_ret IO.log IO.emit IO.call IO.lift].
  destruct (py_truthy one_word_mode).
  - destruct (convert_srt_to_one_word_ass caption_srt options) as [body|e];
      cbn [fmap result_fmap]; [|done].
    by destruct (write_text w srt_path (caption_style +:+ body)) as [[]|e].
  - by destruct (write_text w srt_path (caption_style +:+ caption_srt)) as [[]|e].
Qed.

(** The subtitle step on a caption that starts with [https]: the
    caption is fetched, and what is written comes from the reply. *)
Lemma write_subtitle_remote w job_id caption_srt caption_type srt_path one_word_mode
    caption_style options :
  PyStr.startswith caption_srt "https" = true ->
  let start :=
    [ EvLog INFO ("Job " +:+ job_id +:+ ": Downloading caption file from "
                  +:+ caption_srt);
      EvHttpGet caption_srt ] in
  let done :=
    [ EvLog INFO ("Job " +:+ job_id +:+ ": Caption file processed and saved to "
                  +:+ srt_path) ] in
  write_subtitle w job_id caption_srt caption_type srt_path one_word_mode
    caption_style options []
  = match requests_get w caption_srt with
    | Raise e => (Raise e, start)
    | Ok response =>
        match raise_for_status response with
        | Raise e => (Raise e, start)
        | Ok _ =>
            if py_truthy one_word_mode then
              match convert_srt_to_one_word_ass (response_text response) options with
              | Raise e => (Raise e, start)
              | Ok body =>
                  let write := EvWriteText srt_path (caption_style +:+ body) in
                  match write_text w srt_path (caption_style +:+ body) with
                  | Raise e => (Raise e, start ++ [write])
                  | Ok _ => (Ok tt, start ++ [write] ++ done)
                  end
              end
            else if String.eqb caption_type "srt" || String.eqb caption_type "vtt" then
              let write := EvWriteBytes srt_path (response_content response) in
              match write_bytes w srt_path (response_content response) with
              | Raise e => (Raise e, start ++ [write])
              | Ok _ => (Ok tt, start ++ [write] ++ done)
              end
            else
              let write :=
                EvWriteText srt_path (caption_style +:+ response_text response) in
              match write_text w srt_path (caption_style +:+ response_text response) with
              | Raise e => (Raise e, start ++ [write])
              | Ok _ => (Ok tt, start ++ [write] ++ done)
              end
        end
    end.
Proof.
  intros Hs. unfold write_subtitle. rewrite Hs.
  cbv [mbind io_bind mret io_ret IO.log IO.emit IO.call IO.lift].
  cbn [app].
  destruct (requests_get w caption_srt) as [response|e]; [|done].
  destruct (raise_for_status response) as [[]|e]; [|done].
  destruct (py_truthy one_word_mode).
  - destruct (convert_srt_to_one_word_ass (response_text response) options) as [body|e];
      [|done].
    by destruct (write_text w srt_path (caption_style +:+ body)) as [[]|e].
  - destruct (String.eqb caption_type "srt" || String.eqb caption_type "vtt").
    + by destruct (write_bytes w srt_path (response_content response)) as [[]|e].
    + by destruct (write_text w srt_path (caption_style +:+ response_text response))
        as [[]|e].
Qed.

(** Where the events of the subtitle step lie in the trace of a job:
    when the download fails the trace holds log entries and the
    download only; otherwise it is the events of the subtitle step
    between log entries and the download before them, and log entries
    and the events of the later steps after them; and when the subtitle
    step fails, so does the job, with the error entry alone after the
    step. *)
Lemma subtitle_step_in_trace w file_url caption_srt caption_type options job_id r trace :
  let opts := foldl (fun d item => <[fst item := snd item]> d) ∅ options in
  let one_word_mode := dict_get opts "one_word_mode" (VBool false) in
  let forced := py_truthy one_word_mode && negb (String.eqb caption_type "ass") in
  let caption_type' := if forced then "ass" else caption_type in
  let subtitle_extension := if forced then ".ass" else "." +:+ caption_type in
  let srt_path := os_path_join STORAGE_PATH (job_id +:+ subtitle_extension) in
  let caption_style :=
    if String.eqb caption_type' "ass" then ass_header (generate_style_line opts) else "" in
  process_captioning w file_url caption_srt caption_type options job_id [] = (r, trace) ->
  match download_file w file_url STORAGE_PATH with
  | Raise e => r = Raise e /\ kinds_within [KLog; KDownload] trace = true
  | Ok video_path =>
      exists before after,
        trace = before
                ++ (write_subtitle w job_id caption_srt caption_type' srt_path
                      one_word_mode caption_style opts []).2
                ++ after
        /\ kinds_within [KLog; KDownload] before = true
        /\ kinds_within [KLog; KEncode; KUpload; KRemove] after = true
        /\ forall e,
             (write_subtitle w job_id caption_srt caption_type' srt_path
                one_word_mode caption_style opts []).1 = Raise e ->
             r = Raise e /\ after = [error_entry w job_id e]
  end.
Proof.
  intros opts one_word_mode forced caption_type' subtitle_extension srt_path
    caption_style.
  rewrite process_captioning_run. cbv beta zeta.
  fold opts. fold one_word_mode. fold forced. fold caption_type'.
  fold subtitle_extension. fold srt_path. fold caption_style.
  destruct (download_file w file_url STORAGE_PATH) as [video_path|e].
  2:{ intros Hrun. split_run Hrun. by split. }
  set (prep := _ ++ _ ++ _ ++ _).
  assert (kinds_within [KLog; KDownload] prep = true) as Hprep.
  { subst prep. destruct forced; destruct (String.eqb _ "ass"); reflexivity. }
  clearbody prep.
  destruct (write_subtitle _ _ _ _ _ _ _ _ []) as [[[]|e] sub]; cbn [fst snd].
  2:{ intros Hrun. split_run Hrun. exists prep, [error_entry w job_id e].
      split; [by rewrite <- app_assoc|]. split; [done|]. split; [done|].
      by intros e' [= <-]. }
  pose proof (EncodeFacts.select_font_kinds w job_id
                (dict_get opts "font_name" (VStr "Arial"))) as Hfnt.
  destruct (select_font _ _ _ []) as [[found|e] fnt]; cbn [snd] in Hfnt.
  2:{ intros Hrun. split_run Hrun. eexists prep, _.
      split; [by rewrite <- !app_assoc|]. split; [done|]. split; [|done].
      rewrite !kinds_within_app.
      rewrite (kinds_within_mono [KLog] [KLog; KEncode; KUpload; KRemove] _
                 ltac:(by intros []) Hfnt). reflexivity. }
  rewrite build_subtitle_filter_run. cbv zeta.
  match goal with
  | |- context [run_encoder w job_id video_path ?o ?f []] =>
      pose proof (EncodeFacts.run_encoder_kinds w job_id video_path o f) as Henc;
      destruct (run_encoder w job_id video_path o f []) as [[[]|e] enc]
  end; cbn [snd] in Henc.
  2:{ intros Hrun. split_run Hrun. eexists prep, _.
      split; [by rewrite <- !app_assoc|]. split; [done|]. split; [|done].
      rewrite !kinds_within_app.
      rewrite (kinds_within_mono [KLog] [KLog; KEncode; KUpload; KRemove] _
                 ltac:(by intros []) Hfnt).
      rewrite (kinds_within_mono [KLog; KEncode] [KLog; KEncode; KUpload; KRemove] _
                 ltac:(by intros []) Henc). reflexivity. }
  match goal with
  | |- context [publish_and_clean_up w job_id video_path ?s ?o []] =>
      pose proof (publish_kinds w job_id video_path s o) as Hfin;
      destruct (publish_and_clean_up w job_id video_path s o []) as [[name|e] fin]
  end; cbn [snd] in Hfin.
  all: intros Hrun; split_run Hrun; eexists prep, _;
    (split; [by rewrite <- !app_assoc|]); (split; [done|]); (split; [|done]);
    rewrite !kinds_within_app;
    rewrite (kinds_within_mono [KLog] [KLog; KEncode; KUpload; KRemove] _
               ltac:(by intros []) Hfnt);
    rewrite (kinds_within_mono [KLog; KEncode] [KLog; KEncode; KUpload; KRemove] _
               ltac:(by intros []) Henc);
    rewrite (kinds_within_mono [KLog; KUpload; KRemove]
               [KLog; KEncode; KUpload; KRemove] _ ltac:(by intros []) Hfin);
    reflexivity.
Qed.

End SubtitleFacts.

(** C10.  The caption source is fetched exactly when it starts with
    [https].  Any other string, one that starts with [http://] as well,
    is inline caption text: nothing is fetched, and what the subtitle
    file receives is that text after the header, or in one-word mode its
    conversion after the header; it is written whenever the video was
    downloaded and the conversion, where there is one, succeeds.  A
    source that starts with [https] is fetched as soon as the video is
    downloaded, and is never written as it stands. *)
Theorem C10_remote_iff_https_prefix
    (w : world) (file_url caption_srt caption_type : string)
    (options : list (string * pyval)) (job_id : string)
    (r : result string) (trace : list event) :
  let opts := foldl (fun d item => <[fst item := snd item]> d) ∅ options in
  let one_word_mode := dict_get opts "one_word_mode" (VBool false) in
  let forced := py_truthy one_word_mode && negb (String.eqb caption_type "ass") in
  let caption_type' := if forced then "ass" else caption_type in
  let subtitle_extension := if forced then ".ass" else "." +:+ caption_type in
  let srt_path := os_path_join STORAGE_PATH (job_id +:+ subtitle_extension) in
  let caption_style :=
    if String.eqb caption_type' "ass" then ass_header (generate_style_line opts) else "" in
  process_captioning w file_url caption_srt caption_type options job_id [] = (r, trace) ->
  (PyStr.startswith caption_srt "https" = false ->
     (forall url, EvHttpGet url ∉ trace)
     /\ (forall path content, EvWriteBytes path content ∉ trace)
     /\ (forall path content,
           EvWriteText path content ∈ trace ->
           path = srt_path
           /\ if py_truthy one_word_mode
              then exists body,
                     convert_srt_to_one_word_ass caption_srt opts = Ok body
                     /\ content = caption_style +:+ body
              else content = caption_style +:+ caption_srt)
     /\ (is_ok (download_file w file_url STORAGE_PATH) = true ->
         (py_truthy one_word_mode = true ->
          is_ok (convert_srt_to_one_word_ass caption_srt opts) = true) ->
         exists content, EvWriteText srt_path content ∈ trace))
  /\ (PyStr.startswith caption_srt "https" = true ->
        (forall url, EvHttpGet url ∈ trace -> url = caption_srt)
        /\ (is_ok (download_file w file_url STORAGE_PATH) = true ->
            EvHttpGet caption_srt ∈ trace)
        /\ (forall path content,
              EvWriteText path content ∈ trace ->
              exists response,
                requests_get w caption_srt = Ok response
                /\ if py_truthy one_word_mode
                   then exists body,
                          convert_srt_to_one_word_ass (response_text response) opts
                          = Ok body
                          /\ content = caption_style +:+ body
                   else content = caption_style +:+ response_text response)).
Proof.
  intros opts one_word_mode forced caption_type' subtitle_extension srt_path
    caption_style Hrun.
  pose proof (SubtitleFacts.subtitle_step_in_trace _ _ _ _ _ _ _ _ Hrun) as Hshape.
  cbv zeta in Hshape.
  fold opts in Hshape. fold one_word_mode in Hshape. fold forced in Hshape.
  fold caption_type' in Hshape. fold subtitle_extension in Hshape.
  fold srt_path in Hshape. fold caption_style in Hshape.
  assert (forall ev,
            ev ∈ trace -> kind_of ev = KFetch \/ kind_of ev = KWrite ->
            ev ∈ (write_subtitle w job_id caption_srt caption_type' srt_path
                    one_word_mode caption_style opts []).2) as Hsub.
  { intros ev Hev Hkind.
    destruct (download_file w file_url STORAGE_PATH) as [video_path|e].
    - destruct Hshape as (before & after & -> & Hb & Ha & _).
      apply elem_of_app in Hev as [Hev|Hev];
        [pose proof (PipelineFacts.kinds_within_elem _ _ _ Hb Hev) as Hk;
         destruct Hkind as [Hkind|Hkind]; rewrite Hkind in Hk; done|].
      apply elem_of_app in Hev as [Hev|Hev]; [done|].
      pose proof (PipelineFacts.kinds_within_elem _ _ _ Ha Hev) as Hk.
      destruct Hkind as [Hkind|Hkind]; rewrite Hkind in Hk; done.
    - destruct Hshape as [_ Hk].
      pose proof (PipelineFacts.kinds_within_elem _ _ _ Hk Hev) as Hk'.
      destruct Hkind as [Hkind|Hkind]; rewrite Hkind in Hk'; done. }
  assert (forall ev,
            is_ok (download_file w file_url STORAGE_PATH) = true ->
            ev ∈ (write_subtitle w job_id caption_srt caption_type' srt_path
                    one_word_mode caption_style opts []).2 ->
            ev ∈ trace) as Hback.
  { intros ev Hok Hev.
    destruct (download_file w file_url STORAGE_PATH) as [video_path|e]; [|done].
    destruct Hshape as (before & after & -> & _).
    apply elem_of_app. right. apply elem_of_app. by left. }
  clear Hshape. split; intros Hs.
  - rewrite (SubtitleFacts.write_subtitle_inline _ _ _ _ _ _ _ _ Hs) in Hsub, Hback.
    split; [|split; [|split]].
    + intros url Hev. specialize (Hsub _ Hev (or_introl eq_refl)).
      destruct (py_truthy one_word_mode);
        [destruct (convert_srt_to_one_word_ass caption_srt opts) as [body|e]|];
        cbn [fmap result_fmap] in Hsub;
        try destruct (write_text w srt_path _) as [[]|e'];
        cbn [snd] in Hsub;
        repeat (apply elem_of_cons in Hsub as [Hsub|Hsub]; [done|]);
        by apply elem_of_nil in Hsub.
    + intros path content Hev. specialize (Hsub _ Hev (or_intror eq_refl)).
      destruct (py_truthy one_word_mode);
        [destruct (convert_srt_to_one_word_ass caption_srt opts) as [body|e]|];
        cbn [fmap result_fmap] in Hsub;
        try destruct (write_text w srt_path _) as [[]|e'];
        cbn [snd] in Hsub;
        repeat (apply elem_of_cons in Hsub as [Hsub|Hsub]; [done|]);
        by apply elem_of_nil in Hsub.
    + intros path content Hev. specialize (Hsub _ Hev (or_intror eq_refl)).
      destruct (py_truthy one_word_mode);
        [destruct (convert_srt_to_one_word_ass caption_srt opts) as [body|e]|];
        cbn [fmap result_fmap] in Hsub;
        try destruct (write_text w srt_path _) as [[]|e'];
        cbn [snd] in Hsub;
        repeat (apply elem_of_cons in Hsub as [Hsub|Hsub];
                [first [done | injection Hsub as -> ->; split; [done|]; by eauto]|]);
        by apply elem_of_nil in Hsub.
    + intros Hok Hconv.
      destruct (py_truthy one_word_mode);
        [specialize (Hconv eq_refl);
         destruct (convert_srt_to_one_word_ass caption_srt opts) as [body|e];
         [|done]|];
        cbn [fmap result_fmap] in Hback;
        eexists; apply (Hback _ Hok);
        destruct (write_text w srt_path _) as [[]|e']; cbn [snd];
        apply elem_of_cons; by left.
  - pose proof (SubtitleFacts.write_subtitle_remote w job_id caption_srt caption_type'
                  srt_path one_word_mode caption_style opts Hs) as Hremote.
    cbv zeta in Hremote. rewrite Hremote in Hsub, Hback. clear Hremote.
    split; [|split].
    + intros url Hev. specialize (Hsub _ Hev (or_introl eq_refl)).
      destruct (requests_get w caption_srt) as [response|e];
        [destruct (raise_for_status response) as [[]|e];
         [destruct (py_truthy one_word_mode);
          [destruct (convert_srt_to_one_word_ass _ opts) as [body|e];
           [destruct (write_text w srt_path _) as [[]|e]|]
          |destruct (String.eqb caption_type' "srt" || String.eqb caption_type' "vtt");
           [destruct (write_bytes w srt_path _) as [[]|e]
           |destruct (write_text w srt_path _) as [[]|e]]]|]|];
        cbn [snd app] in Hsub;
        repeat (apply elem_of_cons in Hsub as [Hsub|Hsub];
                [first [done | by injection Hsub as ->]|]);
        by apply elem_of_nil in Hsub.
    + intros Hok. apply (Hback _ Hok).
      destruct (requests_get w caption_srt) as [response|e];
        [destruct (raise_for_status response) as [[]|e];
         [destruct (py_truthy one_word_mode);
          [destruct (convert_srt_to_one_word_ass _ opts) as [body|e];
           [destruct (write_text w srt_path _) as [[]|e]|]
          |destruct (String.eqb caption_type' "srt" || String.eqb caption_type' "vtt");
           [destruct (write_bytes w srt_path _) as [[]|e]
           |destruct (write_text w srt_path _) as [[]|e]]]|]|];
        cbn [snd app]; apply elem_of_cons; right; apply elem_of_cons; by left.
    + intros path content Hev. specialize (Hsub _ Hev (or_intror eq_refl)).
      destruct (requests_get w caption_srt) as [response|e];
        [destruct (raise_for_status response) as [[]|e];
         [destruct (py_truthy one_word_mode);
          [destruct (convert_srt_to_one_word_ass _ opts) as [body|e] eqn:Hbody;
           [destruct (write_text w srt_path _) as [[]|e]|]
          |destruct (String.eqb caption_type' "srt" || String.eqb caption_type' "vtt");
           [destruct (write_bytes w srt_path _) as [[]|e]
           |destruct (write_text w srt_path _) as [[]|e]]]|]|];
        cbn [snd app] in Hsub;
        repeat (apply elem_of_cons in Hsub as [Hsub|Hsub];
                [first [done | injection Hsub as -> ->; eexists; split; [done|]; by eauto]|]);
        by apply elem_of_nil in Hsub.
Qed.

Lemma C10_witness :
  (EvHttpGet "http://example.com/captions.srt"
   ∉ (process_captioning world_ok "https://example.com/video.mp4"
        "http://example.com/captions.srt" "srt" [] "job1" []).2)
  /\ exists content,
       EvWriteText "/tmp/job1.srt" content
       ∈ (process_captioning world_ok "https://example.com/video.mp4"
            "http://example.com/captions.srt" "srt" [] "job1" []).2.
Proof.
  destruct (C10_remote_iff_https_prefix world_ok "https://example.com/video.mp4"
              "http://example.com/captions.srt" "srt" [] "job1"
              (process_captioning world_ok "https://example.com/video.mp4"
                 "http://example.com/captions.srt" "srt" [] "job1" []).1
              (process_captioning world_ok "https://example.com/video.mp4"
                 "http://example.com/captions.srt" "srt" [] "job1" []).2)
    as [Hinline _].
  - apply surjective_pairing.
  - destruct (Hinline eq_refl) as (Hfetch & _ & _ & Hwrite).
    split; [apply Hfetch|].
    apply Hwrite; [reflexivity | discriminate].
Defined.

Module EmptyCueFacts.

(** A caption without words: the division by the number of words is
    the first thing to fail. *)
Lemma no_words_raises caption_text start_time end_time hl rc :
  PyStr.split_ws (PyStr.strip caption_text) = [] ->
  process_single_word_caption caption_text start_time end_time hl rc
  = Raise ZeroDivisionError.
Proof.
  intros Hw. unfold process_single_word_caption. rewrite Hw. reflexivity.
Qed.

(** An error in a block is the error of the conversion when the blocks
    before it convert. *)
Lemma convert_blocks_raises hl rc pre line post c e :
  is_ok (convert_blocks hl rc pre) = true ->
  short_block line = false ->
  block_cue (PyStr.split nl line) = Ok c ->
  process_single_word_caption (cue_text c) (cue_start c) (cue_end c) hl rc = Raise e ->
  convert_blocks hl rc (pre ++ line :: post) = Raise e.
Proof.
  unfold short_block. intros Hpre Hlong%negb_false_iff Hc He.
  induction pre as [|b pre IH]; cbn [app convert_blocks].
  - rewrite Hlong, Hc. cbn [mbind result_bind]. by rewrite He.
  - cbn [convert_blocks] in Hpre.
    destruct (3 <=? length (PyStr.split nl b))%nat.
    + destruct (block_cue (PyStr.split nl b)) as [cb|]; cbn [mbind result_bind] in *;
        [|done].
      destruct (process_single_word_caption _ _ _ _ _) as [new|];
        cbn [mbind result_bind] in *; [|done].
      destruct (convert_blocks hl rc pre) as [more|]; cbn [mbind result_bind] in *;
        [|done].
      by rewrite IH.
    + by apply IH.
Qed.

End EmptyCueFacts.

(** C2, as the code has it.  In one-word mode a cue without words makes
    the expansion fail with [ZeroDivisionError]: the division by the
    number of words is not guarded, and there is no error of its own
    for an empty cue.  When the blocks before the cue convert, the
    conversion fails with that error, and so does the job, before
    anything is written, encoded or uploaded. *)
Theorem C2_empty_cue_raises_ZeroDivisionError
    (w : world) (file_url caption_srt caption_type : string)
    (options : list (string * pyval)) (job_id : string)
    (r : result string) (trace : list event)
    (text : string) (pre post : list string) (line : string) (c : cue) :
  let opts := foldl (fun d item => <[fst item := snd item]> d) ∅ options in
  let highlight_color := dict_get opts "highlight_color" (VStr "FFFFFF") in
  let regular_color := dict_get opts "regular_color" (VStr "AAAAAA") in
  process_captioning w file_url caption_srt caption_type options job_id [] = (r, trace) ->
  is_ok (download_file w file_url STORAGE_PATH) = true ->
  py_truthy (dict_get opts "one_word_mode" (VBool false)) = true ->
  (PyStr.startswith caption_srt "https" = false /\ text = caption_srt
   \/ PyStr.startswith caption_srt "https" = true
      /\ exists response,
           requests_get w caption_srt = Ok response
           /\ raise_for_status response = Ok tt
           /\ text = response_text response) ->
  PyStr.split (nl +:+ nl) (PyStr.strip text) = pre ++ line :: post ->
  is_ok (convert_blocks highlight_color regular_color pre) = true ->
  (3 <= length (PyStr.split nl line))%nat ->
  block_cue (PyStr.split nl line) = Ok c ->
  PyStr.split_ws (PyStr.strip (cue_text c)) = [] ->
  process_single_word_caption (cue_text c) (cue_start c) (cue_end c)
    highlight_color regular_color = Raise ZeroDivisionError
  /\ convert_srt_to_one_word_ass text opts = Raise ZeroDivisionError
  /\ r = Raise ZeroDivisionError
  /\ kinds_within [KLog; KDownload; KFetch] trace = true.
Proof.
  intros opts hl rc Hrun Hdl Hmode Hsrc Hblocks Hpre Hlen Hc Hwords.
  assert (process_single_word_caption (cue_text c) (cue_start c) (cue_end c) hl rc
          = Raise ZeroDivisionError) as Hexp
    by (by apply EmptyCueFacts.no_words_raises).
  assert (convert_srt_to_one_word_ass text opts = Raise ZeroDivisionError) as Hconv.
  { unfold convert_srt_to_one_word_ass. rewrite Hblocks. fold hl. fold rc.
    rewrite (EmptyCueFacts.convert_blocks_raises hl rc pre line post c ZeroDivisionError);
      try done.
    unfold short_block. apply negb_false_iff, Nat.leb_le. exact Hlen. }
  split; [exact Hexp|]. split; [exact Hconv|].
  pose proof (SubtitleFacts.subtitle_step_in_trace _ _ _ _ _ _ _ _ Hrun) as Hshape.
  cbv zeta in Hshape. fold opts in Hshape.
  destruct (download_file w file_url STORAGE_PATH) as [video_path|]; [|done].
  destruct Hshape as (before & after & -> & Hb & _ & Hfail).
  destruct Hsrc as [[Hs ->]|(Hs & response & Hget & Hstatus & ->)].
  - rewrite (SubtitleFacts.write_subtitle_inline _ _ _ _ _ _ _ _ Hs) in Hfail |- *.
    rewrite Hmode, Hconv in Hfail |- *. cbn [fmap result_fmap fst snd] in Hfail |- *.
    destruct (Hfail _ eq_refl) as [-> ->]. split; [done|].
    rewrite !PipelineFacts.kinds_within_app.
    rewrite (PipelineFacts.kinds_within_mono [KLog; KDownload] [KLog; KDownload; KFetch]
               _ ltac:(by intros []) Hb). reflexivity.
  - match type of Hfail with
    | context [write_subtitle ?a1 ?a2 ?a3 ?a4 ?a5 ?a6 ?a7 ?a8 []] =>
        pose proof (SubtitleFacts.write_subtitle_remote a1 a2 a3 a4 a5 a6 a7 a8 Hs)
          as Hremote
    end.
    cbv zeta in Hremote. rewrite Hremote in Hfail |- *. clear Hremote.
    rewrite Hget, Hstatus, Hmode, Hconv in Hfail |- *. cbn [fst snd] in Hfail |- *.
    destruct (Hfail _ eq_refl) as [-> ->]. split; [done|].
    rewrite !PipelineFacts.kinds_within_app.
    rewrite (PipelineFacts.kinds_within_mono [KLog; KDownload] [KLog; KDownload; KFetch]
               _ ltac:(by intros []) Hb). reflexivity.
Qed.

(** C2, as the specification states it, fails: the error of a cue
    without words is the [ZeroDivisionError] of the division itself,
    not an [EmptyCue] error raised by a guard. *)
Lemma C2_counterexample :
  process_single_word_caption "   " (PFin 0) (PFin 1) (VStr "FFFFFF") (VStr "AAAAAA")
  = Raise ZeroDivisionError
  /\ PyFloat.div_int (PyFloat.sub (PFin 1) (PFin 0))
       (Z.of_nat (length (PyStr.split_ws (PyStr.strip "   "))))
     = Raise ZeroDivisionError
  /\ exn_class ZeroDivisionError <> "EmptyCue".
Proof. split; [reflexivity|]. split; [reflexivity|]. discriminate. Qed.

Lemma C2_witness :
  (process_captioning world_ok "https://example.com/video.mp4" caption_with_blank_cue
     "srt" [("one_word_mode", VBool true)] "job1" []).1
  = Raise ZeroDivisionError.
Proof.
  destruct (block_cue (PyStr.split nl ("1" +:+ nl +:+ "00:00:00,000 --> 00:00:01,000"
                                       +:+ nl +:+ " "))) as [c|] eqn:Hc;
    [|discriminate Hc].
  destruct (C2_empty_cue_raises_ZeroDivisionError world_ok
              "https://example.com/video.mp4" caption_with_blank_cue "srt"
              [("one_word_mode", VBool true)] "job1"
              (process_captioning world_ok "https://example.com/video.mp4"
                 caption_with_blank_cue "srt" [("one_word_mode", VBool true)]
                 "job1" []).1
              (process_captioning world_ok "https://example.com/video.mp4"
                 caption_with_blank_cue "srt" [("one_word_mode", VBool true)]
                 "job1" []).2
              caption_with_blank_cue []
              ["2" +:+ nl +:+ "00:00:01,000 --> 00:00:02,000" +:+ nl +:+ "hello"]
              ("1" +:+ nl +:+ "00:00:00,000 --> 00:00:01,000" +:+ nl +:+ " ")
              c)
    as (_ & _ & Hr & _).
  - apply surjective_pairing.
  - reflexivity.
  - reflexivity.
  - left. split; reflexivity.
  - vm_compute. reflexivity.
  - reflexivity.
  - vm_compute. lia.
  - exact Hc.
  - vm_compute in Hc. injection Hc as <-. reflexivity.
  - exact Hr.
Defined.

Module FontFacts.

Import PipelineFacts.

(** When the encoder is reached, the font step has run without an error
    and its events are in the trace. *)
Lemma font_step_in_trace w file_url caption_srt caption_type options job_id r trace
    v o f a :
  let opts := foldl (fun d item => <[fst item := snd item]> d) ∅ options in
  let font_name := dict_get opts "font_name" (VStr "Arial") in
  process_captioning w file_url caption_srt caption_type options job_id [] = (r, trace) ->
  EvEncode v o f a ∈ trace ->
  is_ok (font_lookup w font_name) = true
  /\ forall ev, ev ∈ (select_font w job_id font_name []).2 -> ev ∈ trace.
Proof.
  intros opts font_name.
  rewrite process_captioning_run. cbv beta zeta. fold opts. fold font_name.
  destruct (download_file w file_url STORAGE_PATH) as [video_path|e].
  2:{ intros Hrun Hin. split_run Hrun. exfalso. revert Hin.
      apply EncodeFacts.not_encode_elem. reflexivity. }
  set (prep := _ ++ _ ++ _ ++ _).
  assert (kinds_within [KLog; KDownload; KFetch; KWrite] prep = true) as Hprep.
  { subst prep.
    destruct (py_truthy _ && _); destruct (String.eqb _ "ass"); reflexivity. }
  clearbody prep.
  match goal with
  | |- context [write_subtitle ?a1 ?a2 ?a3 ?a4 ?a5 ?a6 ?a7 ?a8 []] =>
      pose proof (write_subtitle_kinds a1 a2 a3 a4 a5 a6 a7 a8) as Hsub;
      destruct (write_subtitle a1 a2 a3 a4 a5 a6 a7 a8 []) as [[[]|e] sub]
  end; cbn [snd] in Hsub.
  2:{ intros Hrun Hin. split_run Hrun. exfalso. revert Hin.
      apply EncodeFacts.not_encode_elem.
      rewrite !kinds_within_app, Hprep.
      rewrite (kinds_within_mono [KLog; KFetch; KWrite]
                 [KLog; KDownload; KFetch; KWrite] _ ltac:(by intros []) Hsub).
      reflexivity. }
  pose proof (EncodeFacts.select_font_kinds w job_id font_name) as Hfnt.
  pose proof (select_font_run w job_id font_name) as Hfont.
  destruct (select_font w job_id font_name []) as [[found|e] fnt]; cbn [snd] in *.
  2:{ intros Hrun Hin. split_run Hrun. exfalso. revert Hin.
      apply EncodeFacts.not_encode_elem.
      rewrite !kinds_within_app, Hprep.
      rewrite (kinds_within_mono [KLog; KFetch; KWrite]
                 [KLog; KDownload; KFetch; KWrite] _ ltac:(by intros []) Hsub).
      rewrite (kinds_within_mono [KLog] [KLog; KDownload; KFetch; KWrite] _
                 ltac:(by intros []) Hfnt).
      reflexivity. }
  intros Hrun _. split.
  { by destruct (font_lookup w font_name) as [[p|]|e]. }
  intros ev Hev.
  rewrite build_subtitle_filter_run in Hrun. cbv zeta in Hrun.
  match type of Hrun with
  | context [run_encoder ?a1 ?a2 ?a3 ?a4 ?a5 []] =>
      destruct (run_encoder a1 a2 a3 a4 a5 []) as [[[]|e] enc]
  end.
  2:{ split_run Hrun. rewrite !elem_of_app. tauto. }
  match type of Hrun with
  | context [publish_and_clean_up ?a1 ?a2 ?a3 ?a4 ?a5 []] =>
      destruct (publish_and_clean_up a1 a2 a3 a4 a5 []) as [[name|e] fin]
  end; split_run Hrun; rewrite !elem_of_app; tauto.
Qed.

End FontFacts.

(** C7, at a failing input.  The job asks for a font that the font table
    does not hold.  The job succeeds and the warning says that the
    default font Arial is used, but the filter handed to the encoder
    names the font that was asked for: Arial is not put in its place. *)
Theorem C7_missing_font_not_substituted :
  let run :=
    process_captioning world_ok "https://example.com/video.mp4" "caption" "srt"
      [("font_name", VStr "NoSuchFont")] "job1" [] in
  FONT_PATHS world_ok !! "NoSuchFont" = None
  /\ is_ok run.1 = true
  /\ EvLog WARNING "Job job1: Font NoSuchFont not found. Using default font Arial."
     ∈ run.2
  /\ exists rest,
       EvEncode "/tmp/video.mp4" "/tmp/job1_captioned.mp4"
         ("subtitles=/tmp/job1.srt:force_style='FontName=NoSuchFont," +:+ rest) "copy"
       ∈ run.2.
Proof.
  cbv zeta. split; [reflexivity|]. split; [reflexivity|]. split.
  - apply (list_elem_of_lookup_2 _ 7%nat). vm_compute. reflexivity.
  - eexists. apply (list_elem_of_lookup_2 _ 10%nat). vm_compute. reflexivity.
Qed.

(** * Rounding to binary64 *)

Module RoundFacts.

Import QFacts.
Local Open Scope Q_scope.

Lemma pow2_pos e : 0 < Binary64.pow2 e.
Proof. apply Qpower_0_lt. reflexivity. Qed.

Lemma pow2_plus a b : Binary64.pow2 (a + b) == Binary64.pow2 a * Binary64.pow2 b.
Proof. unfold Binary64.pow2. apply Qpower_plus. discriminate. Qed.

Lemma pow2_le a b : (a <= b)%Z -> Binary64.pow2 a <= Binary64.pow2 b.
Proof. intros H. apply Qpower_le_compat_l; [exact H | discriminate]. Qed.

Lemma pow2_Z n : (0 <= n)%Z -> Binary64.pow2 n == inject_Z (2 ^ n).
Proof. intros Hn. unfold Binary64.pow2. symmetry. by apply Zpower_Qpower. Qed.

(** The binary logarithm lies between [log2_floor] and its successor. *)
Lemma log2_floor_spec q :
  0 < q ->
  Binary64.pow2 (Binary64.log2_floor q) <= q
  /\ q < Binary64.pow2 (Binary64.log2_floor q + 1).
Proof.
  intros Hq. unfold Binary64.log2_floor.
  destruct q as [n d]. cbn [Qnum Qden].
  assert (0 < n)%Z as Hn by (unfold Qlt in Hq; cbn in Hq; lia).
  pose proof (Z.log2_spec n Hn) as [Hn1 Hn2].
  pose proof (Z.log2_spec (Z.pos d) eq_refl) as [Hd1 Hd2].
  pose proof (Z.log2_nonneg n) as Ha. pose proof (Z.log2_nonneg (Z.pos d)) as Hb.
  set (a := Z.log2 n) in *. set (b := Z.log2 (Z.pos d)) in *.
  rewrite <- Z.add_1_r in Hn2, Hd2.
  rewrite Zle_Qle in Hn1, Hd1. rewrite Zlt_Qlt in Hn2, Hd2.
  rewrite <- pow2_Z in Hn1, Hd1, Hn2, Hd2 by lia.
  rewrite pow2_plus in Hn2, Hd2.
  change (Binary64.pow2 1) with 2 in Hn2, Hd2.
  assert (Binary64.pow2 a == Binary64.pow2 (a - b) * Binary64.pow2 b) as Hg.
  { rewrite <- pow2_plus. by replace (a - b + b)%Z with a by lia. }
  pose proof (pow2_pos (a - b)) as HG. pose proof (pow2_pos b) as HB.
  set (G := Binary64.pow2 (a - b)) in *. set (B := Binary64.pow2 b) in *.
  set (A := Binary64.pow2 a) in *.
  assert (n # d == inject_Z n / inject_Z (Z.pos d)) as Hdiv by apply Qmake_Qdiv.
  set (N := inject_Z n) in *. set (D := inject_Z (Z.pos d)) in *.
  assert (0 < D) as HD by lra.
  assert ((n # d) * D == N) as Hmul.
  { rewrite Hdiv. field. lra. }
  set (x := n # d) in *.
  assert (x < 2 * G) as Hup.
  { apply Qnot_le_lt. intros Hle.
    assert (0 <= (x - 2 * G) * D) as H1 by (apply Qmult_le_0_compat; lra).
    assert (0 <= G * (D - B)) as H2 by (apply Qmult_le_0_compat; lra).
    lra. }
  assert (G < 2 * x) as Hlo.
  { apply Qnot_le_lt. intros Hle.
    assert (0 <= (G - 2 * x) * D) as H1 by (apply Qmult_le_0_compat; lra).
    assert (0 < G * (2 * B - D)) as H2 by (apply Qmult_lt_0_compat; lra).
    lra. }
  destruct (Qle_bool G x) eqn:Hcmp.
  - apply Qle_bool_iff in Hcmp. split; [exact Hcmp|].
    rewrite pow2_plus. change (Binary64.pow2 1) with 2. fold G. lra.
  - assert (x < G) as Hlt.
    { apply Qnot_le_lt. intros Hle. apply Qle_bool_iff in Hle. congruence. }
    replace (a - b - 1 + 1)%Z with (a - b)%Z by lia. fold G.
    split; [|exact Hlt].
    assert (G == Binary64.pow2 (a - b - 1) * 2) as HG2.
    { unfold G. replace (a - b)%Z with (a - b - 1 + 1)%Z at 1 by lia.
      by rewrite pow2_plus. }
    lra.
Qed.

(** The last bit of [q > 0] weighs at most [q / 2 ^ 52], unless it is
    the smallest one, and [q] takes at most 53 bits. *)
Lemma ulp_exponent_spec q :
  0 < q ->
  let e := Binary64.ulp_exponent q in
  (-1074 <= e)%Z
  /\ Binary64.pow2 e <= q * Binary64.pow2 (-52) + Binary64.pow2 (-1074)
  /\ q < Binary64.pow2 53 * Binary64.pow2 e.
Proof.
  intros Hq e. destruct (log2_floor_spec q Hq) as [Hlo Hhi].
  unfold e, Binary64.ulp_exponent.
  set (l := Binary64.log2_floor q) in *.
  pose proof (pow2_pos (-1074)) as Hmin.
  pose proof (pow2_pos (-52)) as H52.
  split; [lia|]. split.
  - destruct (Z.max_spec (l - 52) (-1074)) as [[_ ->]|[_ ->]].
    + assert (0 <= q * Binary64.pow2 (-52)) by (apply Qmult_le_0_compat; lra). lra.
    + replace (l - 52)%Z with (l + -52)%Z by lia. rewrite pow2_plus.
      assert (Binary64.pow2 l * Binary64.pow2 (-52) <= q * Binary64.pow2 (-52))
        by (apply Qmult_le_compat_r; lra).
      lra.
  - eapply Qlt_le_trans; [exact Hhi|].
    rewrite <- pow2_plus. apply pow2_le. lia.
Qed.

(** The rounding of [q > 0], when it does not overflow. *)
Lemma round_pos_spec q :
  0 < q -> q < Binary64.pow2 1000 ->
  let e := Binary64.ulp_exponent q in
  let m := PyFloat.round_half_even (q / Binary64.pow2 e) in
  Binary64.round_pos q = PFin (inject_Z m * Binary64.pow2 e)
  /\ (0 <= m)%Z.
Proof.
  intros Hq Hbig e m.
  destruct (ulp_exponent_spec q Hq) as (He & Hulp & Hbits). fold e in He, Hulp, Hbits.
  pose proof (pow2_pos e) as HE.
  destruct (TimecodeFacts.round_half_even_spec (q / Binary64.pow2 e)) as (Hr1 & Hr2 & Hr3).
  fold m in Hr1, Hr2, Hr3.
  assert (0 <= q / Binary64.pow2 e) as Ht.
  { apply Qle_shift_div_l; [exact HE | lra]. }
  assert (q / Binary64.pow2 e < Binary64.pow2 53) as Ht2.
  { apply Qlt_shift_div_r; [exact HE | exact Hbits]. }
  assert (0 <= Qfloor (q / Binary64.pow2 e) < 2 ^ 53)%Z as Hfl.
  { apply Qfloor_range; [exact Ht|]. by rewrite <- pow2_Z. }
  assert (0 <= m <= 2 ^ 53)%Z as Hm by lia.
  split; [|lia].
  unfold Binary64.round_pos. fold e. fold m.
  assert (e < 960)%Z as He2.
  { unfold e, Binary64.ulp_exponent.
    destruct (log2_floor_spec q Hq) as [Hlo _].
    assert (Binary64.log2_floor q < 1000)%Z; [|lia].
    apply Z.lt_nge. intros Hge.
    pose proof (pow2_le _ _ Hge). lra. }
  assert (Z.log2 m <= 53)%Z as Hl.
  { change 53%Z with (Z.log2 (2 ^ 53)). apply Z.log2_le_mono. lia. }
  destruct (Z.ltb_spec (Z.log2 m + e) 1024) as [_|Hge]; [reflexivity | lia].
Qed.

(** Rounding moves a value by at most half of its last bit. *)
Lemma round_error q :
  0 <= q -> q < Binary64.pow2 1000 ->
  exists a,
    Binary64.round q = PFin a
    /\ 0 <= a
    /\ a <= q + (q * Binary64.pow2 (-53) + Binary64.pow2 (-1075))
    /\ q <= a + (q * Binary64.pow2 (-53) + Binary64.pow2 (-1075)).
Proof.
  intros Hq Hbig. unfold Binary64.round.
  pose proof (pow2_pos (-1075)) as Hd. pose proof (pow2_pos (-53)) as Hu.
  destruct (Qcompare_spec q 0) as [Hz|Hlt|Hgt].
  - exists 0. split; [reflexivity|]. rewrite Hz. lra.
  - lra.
  - destruct (round_pos_spec q Hgt Hbig) as [-> Hm].
    destruct (ulp_exponent_spec q Hgt) as (He & Hulp & _).
    destruct (TimecodeFacts.round_half_even_spec (q / Binary64.pow2 (Binary64.ulp_exponent q)))
      as (_ & Hr2 & Hr3).
    set (e := Binary64.ulp_exponent q) in *.
    set (m := PyFloat.round_half_even (q / Binary64.pow2 e)) in *.
    pose proof (pow2_pos e) as HE.
    assert (q / Binary64.pow2 e * Binary64.pow2 e == q) as Hback by (field; lra).
    eexists. split; [reflexivity|].
    assert (0 <= inject_Z m) as HmQ by (change 0 with (inject_Z 0); by rewrite <- Zle_Qle).
    assert (Binary64.pow2 (-52) == 2 * Binary64.pow2 (-53)) as H52.
    { change (-52)%Z with (1 + -53)%Z. by rewrite pow2_plus. }
    assert (Binary64.pow2 (-1074) == 2 * Binary64.pow2 (-1075)) as H74.
    { change (-1074)%Z with (1 + -1075)%Z. by rewrite pow2_plus. }
    assert ((inject_Z m - q / Binary64.pow2 e) * Binary64.pow2 e
            <= (1 # 2) * Binary64.pow2 e) as H1
      by (apply Qmult_le_compat_r; lra).
    assert (- (1 # 2) * Binary64.pow2 e
            <= (inject_Z m - q / Binary64.pow2 e) * Binary64.pow2 e) as H2
      by (apply Qmult_le_compat_r; lra).
    assert ((inject_Z m - q / Binary64.pow2 e) * Binary64.pow2 e
            == inject_Z m * Binary64.pow2 e - q) as H3.
    { rewrite <- Hback at 2. ring. }
    set (a := inject_Z m * Binary64.pow2 e) in *.
    assert (0 <= a) by (apply Qmult_le_0_compat; lra).
    set (qu := q * Binary64.pow2 (-53)) in *.
    assert (q * Binary64.pow2 (-52) == 2 * qu) as H4.
    { unfold qu. rewrite H52. ring. }
    lra.
Qed.

(** Rounding does not cross an integer that the value stays clear of. *)
Lemma round_floor q :
  0 <= q -> q < Binary64.pow2 52 ->
  q + (q * Binary64.pow2 (-53) + Binary64.pow2 (-1075)) < inject_Z (Qfloor q + 1) ->
  exists a, Binary64.round q = PFin a /\ 0 <= a /\ Qfloor a = Qfloor q.
Proof.
  intros Hq Hbig Hclear.
  assert (q < Binary64.pow2 1000) as Hbig'.
  { eapply Qlt_le_trans; [exact Hbig|]. by apply pow2_le. }
  destruct (round_error q Hq Hbig') as (a & Ha & Ha0 & Hup & _).
  exists a. split; [exact Ha|]. split; [exact Ha0|].
  apply Qfloor_unique; [|lra].
  revert Ha. unfold Binary64.round.
  destruct (Qcompare_spec q 0) as [Hz|Hlt|Hgt].
  - intros [= <-]. rewrite (Qfloor_comp _ _ Hz). apply Qle_refl.
  - lra.
  - destruct (round_pos_spec q Hgt Hbig') as [-> Hm]. intros [= <-].
    destruct (ulp_exponent_spec q Hgt) as (He & _ & _).
    set (e := Binary64.ulp_exponent q) in *.
    pose proof (pow2_pos e) as HE.
    assert (e <= 0)%Z as He0.
    { unfold e, Binary64.ulp_exponent.
      destruct (log2_floor_spec q Hgt) as [Hlo _].
      assert (Binary64.log2_floor q < 52)%Z; [|lia].
      apply Z.lt_nge. intros Hge. pose proof (pow2_le _ _ Hge). lra. }
    destruct (TimecodeFacts.round_half_even_spec (q / Binary64.pow2 e)) as (Hr1 & _ & _).
    set (m := PyFloat.round_half_even (q / Binary64.pow2 e)) in *.
    pose proof (Qfloor_le q) as Hk.
    set (k := Qfloor q) in *.
    assert (Binary64.pow2 (- e) * Binary64.pow2 e == 1) as Hinv.
    { rewrite <- pow2_plus. by replace (- e + e)%Z with 0%Z by lia. }
    assert (inject_Z (k * 2 ^ (- e)) <= q / Binary64.pow2 e) as Hscaled.
    { rewrite inject_Z_mult, <- pow2_Z by lia.
      apply Qle_shift_div_l; [exact HE|].
      rewrite <- Qmult_assoc, Hinv. lra. }
    assert (k * 2 ^ (- e) <= Qfloor (q / Binary64.pow2 e))%Z as Hfloor.
    { rewrite <- (Qfloor_Z (k * 2 ^ (- e))). by apply Qfloor_resp_le. }
    assert (inject_Z (k * 2 ^ (- e)) <= inject_Z m) as HmQ
      by (rewrite <- Zle_Qle; lia).
    rewrite inject_Z_mult, <- pow2_Z in HmQ by lia.
    assert (inject_Z k * Binary64.pow2 (- e) * Binary64.pow2 e
            <= inject_Z m * Binary64.pow2 e) as Hfin
      by (apply Qmult_le_compat_r; lra).
    rewrite <- Qmult_assoc, Hinv in Hfin. lra.
Qed.

(** Some values, as CPython gives them: [float("0.1")],
    [float("0.005")], [float("1e400")], [float("1e-400")], [0.1 + 0.2]
    and [7.0 / 3600]. *)
Lemma binary64_examples :
  (exists q, Binary64.of_string "0.1" = Ok (PFin q)
             /\ q == 3602879701896397 # 36028797018963968)%Q
  /\ (exists q, Binary64.of_string "0.005" = Ok (PFin q)
                /\ q == 5764607523034235 # 1152921504606846976)%Q
  /\ Binary64.of_string "1e400" = Ok (PInf false)
  /\ (exists q, Binary64.of_string "1e-400" = Ok (PFin q) /\ q == 0)%Q
  /\ (exists q, Binary64.add (Binary64.round (1 # 10)) (Binary64.round (2 # 10)) = PFin q
                /\ q == 1351079888211149 # 4503599627370496)%Q
  /\ (exists q, Binary64.div_int (PFin 7) 3600 = Ok (PFin q)
                /\ q == 4483583629026627 # 2305843009213693952)%Q.
Proof.
  split; [eexists; split; [vm_compute; reflexivity | reflexivity]|].
  split; [eexists; split; [vm_compute; reflexivity | reflexivity]|].
  split; [vm_compute; reflexivity|].
  split; [eexists; split; [vm_compute; reflexivity | reflexivity]|].
  split; eexists; (split; [vm_compute; reflexivity | reflexivity]).
Qed.

End RoundFacts.

(** * Rounding to the nearest value *)

Module NearestFacts.

Import QFacts RoundFacts.
Local Open Scope Q_scope.

Lemma round_half_even_comp q q' :
  q == q' -> PyFloat.round_half_even q = PyFloat.round_half_even q'.
Proof.
  intros H. unfold PyFloat.round_half_even.
  rewrite (Qfloor_comp _ _ H).
  assert ((q - inject_Z (Qfloor q') ?= 1 # 2) = (q' - inject_Z (Qfloor q') ?= 1 # 2)) as ->
    by (by rewrite H).
  reflexivity.
Qed.

Lemma round_half_even_Z q k : q == inject_Z k -> PyFloat.round_half_even q = k.
Proof.
  intros H. rewrite (round_half_even_comp _ _ H).
  destruct (TimecodeFacts.round_half_even_spec (inject_Z k)) as (H1 & H2 & H3).
  cbv zeta in H1, H2, H3. rewrite Qfloor_Z in H1.
  set (m := PyFloat.round_half_even (inject_Z k)) in *.
  assert (m = k \/ m = (k + 1)%Z) as [Hm | Hm] by lia; [exact Hm|].
  rewrite Hm, inject_Z_plus in H3. change (inject_Z 1) with 1 in H3. lra.
Qed.

Lemma pow2_split a b : Binary64.pow2 a == Binary64.pow2 (a - b) * Binary64.pow2 b.
Proof. rewrite <- pow2_plus. by replace (a - b + b)%Z with a by lia. Qed.

Lemma pow2_lt_inv a b : Binary64.pow2 a < Binary64.pow2 b -> (a < b)%Z.
Proof.
  intros H. apply Z.lt_nge. intros Hge. pose proof (pow2_le _ _ Hge). lra.
Qed.

Lemma inject_Z_nonneg k : (0 <= k)%Z -> 0 <= inject_Z k.
Proof. intros H. change 0 with (inject_Z 0). by rewrite <- Zle_Qle. Qed.

Lemma round_positive q : 0 < q -> Binary64.round q = Binary64.round_pos q.
Proof.
  intros Hq. unfold Binary64.round.
  destruct (Qcompare_spec q 0) as [Hz|Hlt|Hgt]; [lra | lra | reflexivity].
Qed.

(** The rounding of [q > 0] is a multiple of the last bit of [q], and
    no multiple of it is nearer to [q]. *)
Lemma round_grid_nearest q :
  0 < q -> q < Binary64.pow2 1000 ->
  let e := Binary64.ulp_exponent q in
  exists m : Z,
    Binary64.round q = PFin (inject_Z m * Binary64.pow2 e)
    /\ (0 <= m)%Z
    /\ forall j : Z,
         Qabs (inject_Z m * Binary64.pow2 e - q) <= Qabs (inject_Z j * Binary64.pow2 e - q).
Proof.
  intros Hq Hbig e. rewrite (round_positive q Hq).
  destruct (round_pos_spec q Hq Hbig) as [-> Hm]. fold e in Hm |- *.
  destruct (TimecodeFacts.round_half_even_spec (q / Binary64.pow2 e)) as (_ & Hr2 & Hr3).
  cbv zeta in Hr2, Hr3.
  set (m := PyFloat.round_half_even (q / Binary64.pow2 e)) in *.
  exists m. split; [reflexivity|]. split; [exact Hm|]. intros j.
  pose proof (pow2_pos e) as HE.
  assert (q / Binary64.pow2 e * Binary64.pow2 e == q) as Hback by (field; lra).
  set (t := q / Binary64.pow2 e) in *. set (G := Binary64.pow2 e) in *.
  assert ((inject_Z m - t) * G <= (1 # 2) * G) as H1 by (apply Qmult_le_compat_r; lra).
  assert (- (1 # 2) * G <= (inject_Z m - t) * G) as H2 by (apply Qmult_le_compat_r; lra).
  assert ((inject_Z m - t) * G == inject_Z m * G - q) as H3 by (rewrite <- Hback; ring).
  assert ((inject_Z j - t) * G == inject_Z j * G - q) as H4 by (rewrite <- Hback; ring).
  set (a := inject_Z m * G) in *. set (r := inject_Z j * G) in *.
  destruct (Z.lt_trichotomy j m) as [Hlt | [-> | Hgt]].
  - assert (inject_Z j <= inject_Z m - 1) as Hj.
    { change 1 with (inject_Z 1). rewrite <- inject_Z_minus, <- Zle_Qle. lia. }
    assert ((inject_Z j - t) * G <= (inject_Z m - 1 - t) * G) as H5
      by (apply Qmult_le_compat_r; lra).
    assert ((inject_Z m - 1 - t) * G == a - q - G) as H6 by (unfold a; rewrite <- Hback; ring).
    apply Qle_trans with (- (r - q)); [|rewrite <- Qabs_opp; apply Qle_Qabs].
    apply Qabs_Qle_condition. split; lra.
  - apply Qle_refl.
  - assert (inject_Z m + 1 <= inject_Z j) as Hj.
    { change 1 with (inject_Z 1). rewrite <- inject_Z_plus, <- Zle_Qle. lia. }
    assert ((inject_Z m + 1 - t) * G <= (inject_Z j - t) * G) as H5
      by (apply Qmult_le_compat_r; lra).
    assert ((inject_Z m + 1 - t) * G == a - q + G) as H6 by (unfold a; rewrite <- Hback; ring).
    apply Qle_trans with (r - q); [|apply Qle_Qabs].
    apply Qabs_Qle_condition. split; lra.
Qed.

(** No value of a binary64 [float] is nearer to [q] than its
    rounding. *)
Lemma round_nearest q r :
  0 < q -> q < Binary64.pow2 1000 -> Binary64.representable r ->
  exists a, Binary64.round q = PFin a /\ 0 <= a /\ Qabs (a - q) <= Qabs (r - q).
Proof.
  intros Hq Hbig (n & e0 & Hn & He0 & Hr).
  destruct (round_grid_nearest q Hq Hbig) as (m & Hround & Hm & Hnear).
  cbv zeta in Hround, Hnear.
  set (e := Binary64.ulp_exponent q) in *.
  pose proof (pow2_pos e) as HE.
  exists (inject_Z m * Binary64.pow2 e). split; [exact Hround|].
  split; [apply Qmult_le_0_compat; [by apply inject_Z_nonneg | lra]|].
  destruct (Z.le_gt_cases e e0) as [Hle | Hgt].
  - assert (r == inject_Z (n * 2 ^ (e0 - e)) * Binary64.pow2 e) as Hgrid.
    { rewrite Hr, inject_Z_mult, <- pow2_Z, <- Qmult_assoc, <- pow2_split by lia.
      reflexivity. }
    rewrite Hgrid. apply Hnear.
  - assert (e = (Binary64.log2_floor q - 52)%Z) as He by (unfold e, Binary64.ulp_exponent in *; lia).
    destruct (log2_floor_spec q Hq) as [Hlo _].
    assert (Binary64.pow2 (Binary64.log2_floor q) == inject_Z (2 ^ 52) * Binary64.pow2 e) as HB.
    { rewrite <- pow2_Z by lia. rewrite <- pow2_plus. by replace (52 + e)%Z with (Binary64.log2_floor q) by lia. }
    pose proof (Hnear (2 ^ 52)%Z) as HnB. rewrite <- HB in HnB.
    set (B := Binary64.pow2 (Binary64.log2_floor q)) in *.
    assert (r < B) as HrB.
    { pose proof (pow2_pos e0) as HE0.
      assert (inject_Z n <= inject_Z (2 ^ 53)) as HnQ by (rewrite <- Zle_Qle; lia).
      assert (inject_Z n * Binary64.pow2 e0 <= inject_Z (2 ^ 53) * Binary64.pow2 e0) as H1
        by (apply Qmult_le_compat_r; lra).
      assert (Binary64.pow2 (e0 + 1) <= Binary64.pow2 e) as H2 by (apply pow2_le; lia).
      rewrite pow2_plus in H2. change (Binary64.pow2 1) with 2 in H2.
      assert (inject_Z (2 ^ 53) == 2 * inject_Z (2 ^ 52)) as H3 by reflexivity.
      assert (inject_Z (2 ^ 52) * (Binary64.pow2 e0 * 2) <= inject_Z (2 ^ 52) * Binary64.pow2 e) as H4.
      { rewrite !(Qmult_comm (inject_Z (2 ^ 52))). apply Qmult_le_compat_r; [exact H2|]. by apply inject_Z_nonneg. }
      assert (inject_Z n < inject_Z (2 ^ 53)) as HnQ' by (rewrite <- Zlt_Qlt; lia).
      assert (inject_Z n * Binary64.pow2 e0 < inject_Z (2 ^ 53) * Binary64.pow2 e0) as H5
        by (apply Qmult_lt_compat_r; lra).
      rewrite Hr, HB. rewrite H3 in H5.
      set (P := inject_Z (2 ^ 52)) in *. set (G0 := Binary64.pow2 e0) in *.
      assert (2 * P * G0 == P * (G0 * 2)) as H6 by ring. lra. }
    eapply Qle_trans; [exact HnB|].
    rewrite (Qabs_neg (r - q)) by lra. rewrite (Qabs_neg (B - q)) by lra. lra.
Qed.

(** A value of a binary64 [float] is its own rounding. *)
Lemma round_exact q :
  Binary64.representable q -> 0 <= q -> q < Binary64.pow2 1000 ->
  exists a, Binary64.round q = PFin a /\ a == q.
Proof.
  intros Hrep Hq Hbig.
  destruct (Qlt_le_dec 0 q) as [Hpos | Hzero].
  - destruct (round_nearest q q Hpos Hbig Hrep) as (a & Ha & _ & Hnear).
    exists a. split; [exact Ha|].
    assert (q - q == 0) as H0 by ring. rewrite H0 in Hnear. change (Qabs 0) with 0 in Hnear.
    pose proof (Qabs_nonneg (a - q)) as H1.
    assert (Qabs (a - q) == 0) as H2 by lra.
    destruct (Qabs_Qle_condition (a - q) 0) as [H3 _].
    destruct H3 as [H4 H5]; [lra|]. lra.
  - exists 0. unfold Binary64.round.
    destruct (Qcompare_spec q 0) as [Hz|Hlt|Hgt]; [|lra|lra].
    split; [reflexivity | lra].
Qed.

(** The rounding of a value of at least [2 ^ (g + 52)] is a multiple
    of [2 ^ g]. *)
Lemma round_on_grid q (g : Z) :
  0 < q -> q < Binary64.pow2 1000 -> Binary64.pow2 (g + 52) <= q ->
  exists (a : Q) (k : Z),
    Binary64.round q = PFin a /\ a == inject_Z k * Binary64.pow2 g.
Proof.
  intros Hq Hbig Hg.
  destruct (round_grid_nearest q Hq Hbig) as (m & Hround & Hm & _).
  cbv zeta in Hround.
  destruct (log2_floor_spec q Hq) as [_ Hhi].
  assert (g + 52 < Binary64.log2_floor q + 1)%Z as Hl by (apply pow2_lt_inv; lra).
  assert (g <= Binary64.ulp_exponent q)%Z as He by (unfold Binary64.ulp_exponent; lia).
  set (e := Binary64.ulp_exponent q) in *.
  exists (inject_Z m * Binary64.pow2 e), (m * 2 ^ (e - g))%Z.
  split; [exact Hround|].
  rewrite inject_Z_mult, <- pow2_Z, <- Qmult_assoc, <- pow2_split by lia. reflexivity.
Qed.

(** A value of a binary64 [float] of at least [2 ^ (g + 53)] is a
    multiple of [2 ^ g]. *)
Lemma representable_on_grid x (g : Z) :
  Binary64.representable x -> Binary64.pow2 (g + 53) <= x ->
  exists k : Z, x == inject_Z k * Binary64.pow2 g.
Proof.
  intros (n & e & Hn & He & Hx) Hg.
  pose proof (pow2_pos e) as HE. pose proof (pow2_pos (g + 53)) as HG.
  assert (g < e)%Z as Hge.
  { apply pow2_lt_inv.
    assert (inject_Z n < inject_Z (2 ^ 53)) as HnQ by (rewrite <- Zlt_Qlt; lia).
    assert (inject_Z n * Binary64.pow2 e < inject_Z (2 ^ 53) * Binary64.pow2 e) as H1
      by (apply Qmult_lt_compat_r; lra).
    rewrite pow2_plus in Hg, HG. rewrite <- pow2_Z in H1 by lia.
    rewrite Hx in Hg.
    set (P := Binary64.pow2 53) in *. pose proof (pow2_pos 53) as HP. fold P in HP.
    set (A := Binary64.pow2 g) in *. set (B := Binary64.pow2 e) in *.
    apply Qnot_le_lt. intros Hle.
    assert (B * P <= A * P) as H2 by (apply Qmult_le_compat_r; lra).
    lra. }
  exists (n * 2 ^ (e - g))%Z.
  rewrite Hx, inject_Z_mult, <- pow2_Z, <- Qmult_assoc, <- pow2_split by lia. reflexivity.
Qed.

End NearestFacts.

(** * Timecodes in binary64 *)

Module Timecode64Facts.

Import QFacts RoundFacts NearestFacts.
Local Open Scope Q_scope.

Lemma pow2_m53 : Binary64.pow2 (-53) == 1 # 9007199254740992.
Proof. reflexivity. Qed.

Lemma pow2_m105 : Binary64.pow2 (-105) == 1 # 40564819207303340847894502572032.
Proof. reflexivity. Qed.

Lemma pow2_m1075 : Binary64.pow2 (-1075) <= (1 # 3600) * (1 # 81129638414606681695789005144064).
Proof.
  assert ((1 # 3600) * (1 # 81129638414606681695789005144064) == (1 # 3600) * Binary64.pow2 (-106))
    as -> by reflexivity.
  assert (Binary64.pow2 (-1075) <= Binary64.pow2 (-118)) as H1 by (by apply pow2_le).
  assert (Binary64.pow2 (-118) == (1 # 4096) * Binary64.pow2 (-106)) as H2 by reflexivity.
  pose proof (pow2_pos (-106)). lra.
Qed.

(** A value of more than one second, below [2 ^ 53], on its grid: a
    positive integer of at most 53 bits times a power of two that is at
    most one. *)
Lemma representable_grid x :
  Binary64.representable x -> 1 <= x -> x < Binary64.pow2 53 ->
  exists n e : Z,
    (0 < n < 2 ^ 53)%Z /\ (-52 <= e <= 0)%Z /\ x == inject_Z n * Binary64.pow2 e.
Proof.
  intros (n0 & e0 & Hn0 & He0 & Hx) H1 Hbig.
  assert (exists n e : Z, (0 < n < 2 ^ 53)%Z /\ (e <= 0)%Z
                          /\ x == inject_Z n * Binary64.pow2 e) as (n & e & Hn & He & Hxe).
  { pose proof (pow2_pos e0) as HE.
    assert (0 < inject_Z n0) as Hpos.
    { apply Qnot_le_lt. intros Hle.
      assert (inject_Z n0 * Binary64.pow2 e0 <= 0 * Binary64.pow2 e0)
        by (apply Qmult_le_compat_r; lra).
      lra. }
    change 0 with (inject_Z 0) in Hpos. rewrite <- Zlt_Qlt in Hpos.
    destruct (Z.le_gt_cases e0 0) as [Hle|Hgt].
    - exists n0, e0. split; [lia|]. by split.
    - exists (n0 * 2 ^ e0)%Z, 0%Z.
      assert (x == inject_Z (n0 * 2 ^ e0)) as Hint.
      { rewrite Hx, inject_Z_mult, pow2_Z by lia. reflexivity. }
      split; [|split; [lia|]].
      + split; [apply Z.mul_pos_pos; [lia | apply Z.pow_pos_nonneg; lia]|].
        rewrite Zlt_Qlt, <- Hint, <- pow2_Z by lia. exact Hbig.
      + rewrite Hint. change (Binary64.pow2 0) with 1. ring. }
  exists n, e. split; [exact Hn|]. split; [|exact Hxe]. split; [|exact He].
  apply Z.le_ngt. intros Hsmall.
  assert (Binary64.pow2 e <= Binary64.pow2 (-53)) as Hp by (apply pow2_le; lia).
  assert (inject_Z n <= inject_Z (2 ^ 53 - 1)) as HnQ by (rewrite <- Zle_Qle; lia).
  pose proof (pow2_pos e) as HE.
  assert (inject_Z n * Binary64.pow2 e <= inject_Z (2 ^ 53 - 1) * Binary64.pow2 e) as H2
    by (apply Qmult_le_compat_r; lra).
  rewrite pow2_m53 in Hp.
  change (inject_Z (2 ^ 53 - 1)) with 9007199254740991 in H2. lra.
Qed.

(** Below an integer [T], what is left of such a value after an integer
    [K] is taken from it stays clear of [T] by more than its own
    rounding error. *)
Lemma grid_gap x (K T : Z) :
  Binary64.representable x -> 1 <= x -> x < Binary64.pow2 53 ->
  (0 <= K)%Z -> 0 <= x - inject_Z K -> x - inject_Z K < inject_Z T ->
  (x - inject_Z K) + (x - inject_Z K) * Binary64.pow2 (-53) + Binary64.pow2 (-105)
  <= inject_Z T.
Proof.
  intros Hrep H1 Hbig HK Hb0 HbT.
  destruct (representable_grid x Hrep H1 Hbig) as (n & e & Hn & He & Hx).
  pose proof (pow2_pos e) as HE.
  assert (Binary64.pow2 (- e) * Binary64.pow2 e == 1) as Hinv.
  { rewrite <- pow2_plus. by replace (- e + e)%Z with 0%Z by lia. }
  assert (forall z : Z, inject_Z z == inject_Z (z * 2 ^ (- e)) * Binary64.pow2 e) as Hgrid.
  { intros z. rewrite inject_Z_mult, <- pow2_Z, <- Qmult_assoc, Hinv by lia. ring. }
  set (nb := (n - K * 2 ^ (- e))%Z).
  assert (x - inject_Z K == inject_Z nb * Binary64.pow2 e) as Hb.
  { unfold nb. rewrite inject_Z_minus, Hx, (Hgrid K) at 1. ring. }
  assert (0 <= K * 2 ^ (- e))%Z as HK' by (apply Z.mul_nonneg_nonneg; lia).
  assert (nb < T * 2 ^ (- e))%Z as Hlt.
  { rewrite Zlt_Qlt. rewrite Hb, (Hgrid T) in HbT.
    by apply Qmult_lt_r in HbT. }
  assert (inject_Z (nb + 1) <= inject_Z (T * 2 ^ (- e))) as Hstep
    by (rewrite <- Zle_Qle; lia).
  assert (inject_Z nb <= inject_Z (2 ^ 53 - 1)) as Hbits
    by (rewrite <- Zle_Qle; lia).
  rewrite inject_Z_plus in Hstep.
  assert ((inject_Z nb + inject_Z 1) * Binary64.pow2 e
          <= inject_Z (T * 2 ^ (- e)) * Binary64.pow2 e) as H2
    by (apply Qmult_le_compat_r; lra).
  rewrite <- (Hgrid T) in H2.
  assert (inject_Z nb * Binary64.pow2 e <= inject_Z (2 ^ 53 - 1) * Binary64.pow2 e) as H3
    by (apply Qmult_le_compat_r; lra).
  assert (Binary64.pow2 (-105) <= Binary64.pow2 e * Binary64.pow2 (-53)) as H4.
  { rewrite <- pow2_plus. apply pow2_le. lia. }
  rewrite Hb. set (b := inject_Z nb * Binary64.pow2 e) in *.
  rewrite pow2_m53 in *.
  change (inject_Z (2 ^ 53 - 1)) with 9007199254740991 in H3.
  change (inject_Z 1) with 1 in H2.
  assert ((inject_Z nb + 1) * Binary64.pow2 e == b + Binary64.pow2 e) as H5
    by (unfold b; ring).
  rewrite H5 in H2.
  set (G := Binary64.pow2 e) in *. set (d := Binary64.pow2 (-105)) in *.
  lra.
Qed.

(** Below [2 ^ 52] the integer part of a quotient by 60 or by 3600 is
    not changed by the rounding of the quotient. *)
Lemma div_floor_same_low x b (K c : Z) :
  Binary64.representable x -> 0 <= x -> x < Binary64.pow2 52 ->
  (0 <= K)%Z -> b == x - inject_Z K -> 0 <= b ->
  c = 60%Z \/ c = 3600%Z ->
  exists a,
    Binary64.round (b / inject_Z c) = PFin a
    /\ 0 <= a
    /\ Qfloor a = Qfloor (b / inject_Z c).
Proof.
  intros Hrep Hx Hbig HK Hbx Hb Hc.
  assert (0 <= inject_Z K) as HKQ by (change 0 with (inject_Z 0); by rewrite <- Zle_Qle).
  assert (Binary64.pow2 52 == 4503599627370496) as H52 by reflexivity.
  assert (Binary64.pow2 53 == 9007199254740992) as H53 by reflexivity.
  pose proof pow2_m1075 as Hd. pose proof (pow2_pos (-1075)) as Hd0.
  pose proof pow2_m53 as Hu. pose proof pow2_m105 as H105.
  assert (0 <= b / inject_Z c /\ b / inject_Z c <= b
          /\ b / inject_Z c * inject_Z c == b) as (Hq0 & Hqb & Hqc).
  { destruct Hc as [-> | ->].
    - pose proof (div_const_spec b 60 eq_refl) as H. change (inject_Z 60) with 60 in *.
      set (q := b / 60) in *. repeat split; lra.
    - pose proof (div_const_spec b 3600 eq_refl) as H. change (inject_Z 3600) with 3600 in *.
      set (q := b / 3600) in *. repeat split; lra. }
  apply round_floor; [exact Hq0 | lra |].
  pose proof (Qfloor_le (b / inject_Z c)) as Hf1.
  pose proof (Qlt_floor (b / inject_Z c)) as Hf2.
  set (q := b / inject_Z c) in *. set (k := Qfloor q) in *.
  destruct (Qlt_le_dec x 1) as [Hsmall|Hone].
  - assert (k = 0%Z) as ->.
    { apply Qfloor_unique; [exact Hq0|].
      change (inject_Z (0 + 1)) with 1.
      destruct Hc as [-> | ->];
        [change (inject_Z 60) with 60 in * | change (inject_Z 3600) with 3600 in *]; lra. }
    change (inject_Z (0 + 1)) with 1.
    rewrite Hu.
    destruct Hc as [-> | ->];
      [change (inject_Z 60) with 60 in * | change (inject_Z 3600) with 3600 in *]; lra.
  - assert (b < inject_Z (c * (k + 1))) as HT.
    { rewrite inject_Z_mult.
      assert (q * inject_Z c < inject_Z (k + 1) * inject_Z c) as H.
      { apply Qmult_lt_compat_r; [|exact Hf2].
        destruct Hc as [-> | ->]; reflexivity. }
      lra. }
    assert (x < Binary64.pow2 53) as Hbig' by lra.
    rewrite Hbx in Hb, HT.
    pose proof (grid_gap x K (c * (k + 1)) Hrep Hone Hbig' HK Hb HT) as Hgap.
    rewrite <- Hbx in Hgap. rewrite inject_Z_mult, Hu, H105 in Hgap. rewrite Hu.
    set (j := inject_Z (k + 1)) in *.
    destruct Hc as [-> | ->];
      [change (inject_Z 60) with 60 in * | change (inject_Z 3600) with 3600 in *]; lra.
Qed.

(** A value of at least [2 ^ 52] is an integer. *)
Lemma representable_int x :
  Binary64.representable x -> Binary64.pow2 52 <= x ->
  exists n e : Z, (0 < n < 2 ^ 53)%Z /\ (0 <= e)%Z /\ x == inject_Z (n * 2 ^ e).
Proof.
  intros (n & e & Hn & He & Hx) Hbig.
  pose proof (pow2_pos e) as HE.
  assert (Binary64.pow2 52 == 4503599627370496) as H52 by reflexivity.
  assert (0 < n)%Z as Hpos.
  { rewrite Zlt_Qlt. apply Qnot_le_lt. intros Hle. change (inject_Z 0) with 0 in Hle.
    assert (inject_Z n * Binary64.pow2 e <= 0 * Binary64.pow2 e)
      by (apply Qmult_le_compat_r; lra).
    lra. }
  assert (-1 < e)%Z as He0.
  { apply pow2_lt_inv. apply Qnot_le_lt. intros Hle.
    assert (inject_Z n < inject_Z (2 ^ 53)) as HnQ by (rewrite <- Zlt_Qlt; lia).
    assert (inject_Z n * Binary64.pow2 e < inject_Z (2 ^ 53) * Binary64.pow2 e) as H1
      by (apply Qmult_lt_compat_r; lra).
    change (inject_Z (2 ^ 53)) with 9007199254740992 in H1.
    assert (Binary64.pow2 (-1) == 1 # 2) as Hhalf by reflexivity.
    lra. }
  exists n, e. split; [lia|]. split; [lia|].
  rewrite Hx, inject_Z_mult, pow2_Z by lia. reflexivity.
Qed.

(** Below [2 ^ 57] such an integer is a multiple of a power of two, 16
    at most, that is more than its 53rd part. *)
Lemma high_grid (n e : Z) :
  (0 < n < 2 ^ 53)%Z -> (0 <= e)%Z -> (n * 2 ^ e < 2 ^ 57)%Z ->
  exists E : Z,
    (0 <= E <= 4)%Z /\ (2 ^ E | n * 2 ^ e)%Z /\ (n * 2 ^ e < 2 ^ 53 * 2 ^ E)%Z.
Proof.
  intros Hn He Hbig.
  destruct (Z.le_gt_cases 4 e) as [H4|H4].
  - exists 4%Z. split; [lia|]. split; [|exact Hbig].
    exists (n * 2 ^ (e - 4))%Z. rewrite <- Z.mul_assoc, <- Z.pow_add_r by lia.
    by replace (e - 4 + 4)%Z with e by lia.
  - exists e. split; [lia|]. split; [by exists n|].
    apply Z.mul_lt_mono_pos_r; [apply Z.pow_pos_nonneg; lia | lia].
Qed.

(** From [2 ^ 52] to [2 ^ 57] the integer part of the hours and of the
    minutes is not changed by the rounding of the quotient. *)
Lemma div_floor_same_high x b (K c : Z) :
  Binary64.representable x -> Binary64.pow2 52 <= x -> x < Binary64.pow2 57 ->
  (0 <= K)%Z -> b == x - inject_Z K -> 0 <= b ->
  (c = 3600%Z /\ K = 0%Z) \/ (c = 60%Z /\ b < 3600) ->
  exists a,
    Binary64.round (b / inject_Z c) = PFin a
    /\ 0 <= a
    /\ Qfloor a = Qfloor (b / inject_Z c).
Proof.
  intros Hrep Hlow Hbig HK Hbx Hb Hc.
  destruct (representable_int x Hrep Hlow) as (n & e & Hn & He & Hx).
  assert (0 <= inject_Z K) as HKQ by (by apply inject_Z_nonneg).
  assert (Binary64.pow2 52 == 4503599627370496) as H52 by reflexivity.
  assert (Binary64.pow2 57 == 144115188075855872) as H57 by reflexivity.
  pose proof pow2_m1075 as Hd. pose proof (pow2_pos (-1075)) as Hd0.
  pose proof pow2_m53 as Hu.
  assert (n * 2 ^ e < 2 ^ 57)%Z as HbigZ.
  { rewrite Zlt_Qlt, <- Hx. change (inject_Z (2 ^ 57)) with 144115188075855872. lra. }
  assert (b == inject_Z (n * 2 ^ e - K)) as HbZ by (rewrite inject_Z_minus, <- Hx; exact Hbx).
  pose proof (Qfloor_le (b / inject_Z c)) as Hf1.
  pose proof (Qlt_floor (b / inject_Z c)) as Hf2.
  destruct Hc as [[-> ->] | [-> Hsmall]].
  - pose proof (div_const_spec b 3600 eq_refl) as Hqc.
    change (inject_Z 3600) with 3600 in *. change (inject_Z 0) with 0 in *.
    set (q := b / 3600) in *. set (k := Qfloor q) in *.
    apply round_floor; [lra | lra |]. fold k.
    destruct (high_grid n e Hn He HbigZ) as (E & HE & Hdiv & Hbits).
    set (N := (n * 2 ^ e)%Z) in *.
    assert (N < 3600 * (k + 1))%Z as HT.
    { rewrite Zlt_Qlt, inject_Z_mult, <- Hx. change (inject_Z 3600) with 3600. lra. }
    assert (0 < 2 ^ E)%Z as HP by (apply Z.pow_pos_nonneg; lia).
    assert (2 ^ E | 3600 * (k + 1) - N)%Z as Hdiv2.
    { apply Z.divide_sub_r; [|exact Hdiv]. apply Z.divide_mul_l.
      apply Z.divide_trans with (2 ^ 4)%Z; [|by exists 225%Z].
      exists (2 ^ (4 - E))%Z. rewrite <- Z.pow_add_r by lia.
      by replace (4 - E + E)%Z with 4%Z by lia. }
    apply Z.divide_pos_le in Hdiv2; [|lia].
    assert (N + 2 ^ E <= 3600 * (k + 1))%Z as Hstep by lia.
    assert (N + 1 <= 2 ^ 53 * 2 ^ E)%Z as Hbits' by lia.
    rewrite Zle_Qle, inject_Z_plus, inject_Z_mult in Hstep.
    rewrite Zle_Qle, inject_Z_plus, inject_Z_mult in Hbits'.
    rewrite Zlt_Qlt in HP.
    change (inject_Z 3600) with 3600 in Hstep. change (inject_Z 1) with 1 in Hbits'.
    change (inject_Z (2 ^ 53)) with 9007199254740992 in Hbits'.
    change (inject_Z 0) with 0 in HP.
    rewrite Hu.
    set (j := inject_Z (k + 1)) in *. set (P := inject_Z (2 ^ E)) in *.
    set (NQ := inject_Z N) in *. lra.
  - pose proof (div_const_spec b 60 eq_refl) as Hqc.
    change (inject_Z 60) with 60 in *.
    set (q := b / 60) in *. set (k := Qfloor q) in *.
    apply round_floor; [lra | lra |]. fold k.
    assert (n * 2 ^ e - K < 60 * (k + 1))%Z as HT.
    { rewrite Zlt_Qlt, inject_Z_mult, <- HbZ. change (inject_Z 60) with 60. lra. }
    assert (n * 2 ^ e - K + 1 <= 60 * (k + 1))%Z as Hstep by lia.
    rewrite Zle_Qle, inject_Z_plus, inject_Z_mult, <- HbZ in Hstep.
    change (inject_Z 60) with 60 in Hstep. change (inject_Z 1) with 1 in Hstep.
    rewrite Hu. set (j := inject_Z (k + 1)) in *. lra.
Qed.

(** The integer part of the hours and of the minutes is not changed by
    the rounding of the quotient. *)
Lemma div_floor_same x b (K c : Z) :
  Binary64.representable x -> 0 <= x -> x < Binary64.pow2 57 ->
  (0 <= K)%Z -> b == x - inject_Z K -> 0 <= b ->
  (c = 3600%Z /\ K = 0%Z) \/ (c = 60%Z /\ b < 3600) ->
  exists a,
    Binary64.round (b / inject_Z c) = PFin a
    /\ 0 <= a
    /\ Qfloor a = Qfloor (b / inject_Z c).
Proof.
  intros Hrep Hx Hbig HK Hbx Hb Hc.
  destruct (Qlt_le_dec x (Binary64.pow2 52)) as [Hlow | Hhigh].
  - apply (div_floor_same_low x b K c); try assumption.
    destruct Hc as [[-> _] | [-> _]]; [by right | by left].
  - by apply (div_floor_same_high x b K c).
Qed.

(** Below [2 ^ 57] seconds the text of a time is the one exact
    arithmetic gives. *)
Lemma format_timecode_same x :
  Binary64.representable x -> 0 <= x -> x < Binary64.pow2 57 ->
  Binary64.format_timecode (PFin x) = format_timecode (PFin x).
Proof.
  intros Hrep Hx Hbig.
  destruct (timecode_fields x Hx) as (Hh & Hm & Hy0 & _ & _ & Ha & Hc).
  cbv zeta in Hh, Hm, Hy0, Ha, Hc.
  assert (0 <= x / inject_Z 60) as Hb.
  { apply Qle_shift_div_l; [reflexivity | lra]. }
  unfold Binary64.format_timecode, format_timecode.
  unfold Binary64.div_int, Binary64.mod_int, PyFloat.div_int, PyFloat.mod_int.
  cbn [Z.eqb Z.ltb Z.compare Pos.eqb mbind result_bind].
  rewrite (Qtrunc_nonneg (x / inject_Z 3600)) by exact Ha.
  rewrite (Qtrunc_nonneg (x / inject_Z 60)) by exact Hb.
  set (h := Qfloor (x / inject_Z 3600)) in *.
  set (b := x - inject_Z 3600 * inject_Z h) in *.
  set (y := x - inject_Z 60 * inject_Z (Qfloor (x / inject_Z 60))) in *.
  assert (0 <= b /\ b < 3600) as [Hb0 Hb1].
  { assert (b / inject_Z 60 * inject_Z 60 == b) as H by (field; discriminate).
    pose proof (Qlt_floor (b / inject_Z 60)) as Hfl.
    assert (inject_Z (Qfloor (b / inject_Z 60) + 1) <= inject_Z 60) as Hle
      by (rewrite <- Zle_Qle; lia).
    change (inject_Z 60) with 60 in *. set (q := b / 60) in *. split; lra. }
  destruct (div_floor_same x x 0 3600 Hrep Hx Hbig (Z.le_refl 0)) as (a & -> & Ha0 & Hfa);
    [change (inject_Z 0) with 0; ring | exact Hx | by left |].
  cbn [PyFloat.to_int mbind result_bind].
  rewrite !Qtrunc_nonneg by assumption. rewrite Hfa. fold h.
  assert (match b ?= 0 with
          | Eq => Ok (PFin b)
          | Lt => Ok (Binary64.round (b + inject_Z 3600))
          | Gt => Ok (PFin b)
          end = Ok (PFin b)) as ->.
  { destruct (Qcompare_spec b 0); [reflexivity | lra | reflexivity]. }
  assert (match y ?= 0 with
          | Eq => Ok (PFin y)
          | Lt => Ok (Binary64.round (y + inject_Z 60))
          | Gt => Ok (PFin y)
          end = Ok (PFin y)) as ->.
  { destruct (Qcompare_spec y 0); [reflexivity | lra | reflexivity]. }
  cbn [mbind result_bind].
  destruct (div_floor_same x b (3600 * h) 60 Hrep Hx Hbig) as (c & -> & Hc0 & Hfc);
    [lia | unfold b; by rewrite inject_Z_mult | exact Hb0 | by right |].
  cbn [PyFloat.to_int mbind result_bind].
  rewrite !Qtrunc_nonneg by assumption. by rewrite Hfc.
Qed.

(** Rounding, with its error bounded by numerals. *)
Lemma round_error_small q :
  0 <= q -> q <= 1152921504606846976 ->
  exists a,
    Binary64.round q = PFin a
    /\ 0 <= a
    /\ a <= q + (q * (1 # 9007199254740992) + (1 # 81129638414606681695789005144064))
    /\ q <= a + (q * (1 # 9007199254740992) + (1 # 81129638414606681695789005144064)).
Proof.
  intros Hq Hbig.
  assert (q < Binary64.pow2 1000) as Hbig'.
  { assert (Binary64.pow2 61 <= Binary64.pow2 1000) as H by (by apply pow2_le).
    assert (Binary64.pow2 61 == 2305843009213693952) as H2 by reflexivity. lra. }
  destruct (round_error q Hq Hbig') as (a & Ha & Ha0 & Hup & Hlo).
  exists a. split; [exact Ha|]. split; [exact Ha0|].
  assert (Binary64.pow2 (-1075) <= 1 # 81129638414606681695789005144064) as Hd.
  { assert (Binary64.pow2 (-1075) <= Binary64.pow2 (-106)) as H by (by apply pow2_le).
    assert (Binary64.pow2 (-106) == 1 # 81129638414606681695789005144064) as H2
      by reflexivity.
    lra. }
  rewrite pow2_m53 in Hup, Hlo. lra.
Qed.

(** Reading a text made of three fields: each field is rounded as it
    is read, and so is every product and every sum. *)
Lemma parse_three_fields64 sh sm ss qh qm qs :
  all_chars (not_char ":") sh = true -> all_chars (not_char ",") sh = true ->
  all_chars (not_char ":") sm = true -> all_chars (not_char ",") sm = true ->
  all_chars (not_char ":") ss = true -> all_chars (not_char ",") ss = true ->
  PyFloat.of_string sh = Ok (PFin qh) ->
  PyFloat.of_string sm = Ok (PFin qm) ->
  PyFloat.of_string ss = Ok (PFin qs) ->
  Binary64.parse_timecode (sh +:+ ":" +:+ sm +:+ ":" +:+ ss)
  = Ok (Binary64.add
          (Binary64.add
             (Binary64.add (PFin 0) (Binary64.mul_int (Binary64.round qs) 1))
             (Binary64.mul_int (Binary64.round qm) 60))
          (Binary64.mul_int (Binary64.round qh) 3600)).
Proof.
  intros Hh1 Hh2 Hm1 Hm2 Hs1 Hs2 Hh Hm Hs. unfold Binary64.parse_timecode.
  rewrite TimecodeFacts.replace1_id.
  2:{ rewrite !StrFacts.all_chars_app, Hh2, Hm2, Hs2. done. }
  change (sh +:+ ":" +:+ sm +:+ ":" +:+ ss)
    with (sh +:+ String ":" (sm +:+ String ":" ss)).
  rewrite (StrFacts.split_1_app ":" sh) by done.
  rewrite (StrFacts.split_1_app ":" sm) by done.
  rewrite StrFacts.split_1_last by done.
  cbn [rev app zip zip_with Binary64.sum_weighted].
  unfold Binary64.of_string. rewrite Hs, Hm, Hh. reflexivity.
Qed.

(** The round trip through the text, in binary64. *)
Lemma timecode_roundtrip64_low x :
  Binary64.representable x -> 0 <= x -> x <= 10000000000000 ->
  exists s y,
    Binary64.format_timecode (PFin x) = Ok s
    /\ Binary64.parse_timecode s = Ok (PFin y)
    /\ Qabs (y - x) <= 1 # 100.
Proof.
  intros Hrep Hx Hbound.
  assert (x < Binary64.pow2 57) as Hbig57.
  { assert (Binary64.pow2 57 == 144115188075855872) as H by reflexivity. lra. }
  destruct (timecode_fields x Hx) as (Hh & Hm & Hy0 & Hy1 & Hsum & _ & _).
  cbv zeta in Hh, Hm, Hy0, Hy1, Hsum.
  rewrite (format_timecode_same x Hrep Hx Hbig57).
  rewrite (TimecodeFacts.format_timecode_nonneg x Hx).
  set (h := Qfloor (x / inject_Z 3600)) in *.
  set (m := Qfloor ((x - inject_Z 3600 * inject_Z h) / inject_Z 60)) in *.
  set (y := x - inject_Z 60 * inject_Z (Qfloor (x / inject_Z 60))) in *.
  destruct (TimecodeFacts.round_half_even_spec (y * inject_Z 100)) as (Hr1 & Hr2 & Hr3).
  set (cs := PyFloat.round_half_even (y * inject_Z 100)) in *.
  assert (0 <= cs < 6001)%Z as Hcs.
  { assert (0 <= Qfloor (y * inject_Z 100) < 6000)%Z; [|lia].
    apply Qfloor_range; change (inject_Z 100) with 100.
    - change (inject_Z 0) with 0. lra.
    - change (inject_Z 6000) with 6000. lra. }
  destruct (TimecodeFacts.hours_ok h Hh) as (Hh1 & Hh2 & qh & Hqh & Hvh).
  destruct (TimecodeFacts.field_ok_spec _ _ (TimecodeFacts.minutes_ok_all m Hm))
    as (Hm1 & Hm2 & qm & Hqm & Hvm).
  destruct (TimecodeFacts.field_ok_spec _ _ (TimecodeFacts.seconds_ok_all cs Hcs))
    as (Hs1 & Hs2 & qs & Hqs & Hvs).
  pose proof (parse_three_fields64 _ _ _ qh qm qs Hh1 Hh2 Hm1 Hm2 Hs1 Hs2 Hqh Hqm Hqs)
    as Hparse.
  assert (cs # 100 == inject_Z cs / 100) as Hcsq by (by rewrite Qmake_Qdiv).
  assert (inject_Z cs / 100 * 100 == inject_Z cs) as Hd by (field; lra).
  rewrite Hcsq in Hvs.
  assert (0 <= inject_Z h) as Hh0 by (change 0 with (inject_Z 0); by rewrite <- Zle_Qle).
  assert (0 <= inject_Z m) as Hm0 by (change 0 with (inject_Z 0); rewrite <- Zle_Qle; lia).
  assert (inject_Z m <= 59) as Hm59 by (change 59 with (inject_Z 59); rewrite <- Zle_Qle; lia).
  assert (0 <= inject_Z cs) as Hcs0 by (change 0 with (inject_Z 0); rewrite <- Zle_Qle; lia).
  change (inject_Z 100) with 100 in *. change (inject_Z 1) with 1 in *.
  change (inject_Z 60) with 60 in *. change (inject_Z 3600) with 3600 in *.
  set (t := inject_Z cs / 100) in *.
  destruct (round_error_small qs) as (s1 & Hs & Hs10 & Hs1u & Hs1l); [lra | lra |].
  rewrite Hs in Hparse. cbn [Binary64.mul_int] in Hparse.
  change (inject_Z 1) with 1 in Hparse.
  destruct (round_error_small (s1 * 1)) as (p1 & Hp1 & Hp10 & Hp1u & Hp1l); [lra | lra |].
  rewrite Hp1 in Hparse. cbn [Binary64.add] in Hparse.
  destruct (round_error_small (0 + p1)) as (a0 & Ha0 & Ha00 & Ha0u & Ha0l); [lra | lra |].
  rewrite Ha0 in Hparse.
  destruct (round_error_small qm) as (m1 & Hm1r & Hm10 & Hm1u & Hm1l); [lra | lra |].
  rewrite Hm1r in Hparse. cbn [Binary64.mul_int] in Hparse.
  change (inject_Z 60) with 60 in Hparse.
  destruct (round_error_small (m1 * 60)) as (p2 & Hp2 & Hp20 & Hp2u & Hp2l); [lra | lra |].
  rewrite Hp2 in Hparse. cbn [Binary64.add] in Hparse.
  destruct (round_error_small (a0 + p2)) as (a1 & Ha1 & Ha10 & Ha1u & Ha1l); [lra | lra |].
  rewrite Ha1 in Hparse.
  destruct (round_error_small qh) as (h1 & Hh1r & Hh10 & Hh1u & Hh1l); [lra | lra |].
  rewrite Hh1r in Hparse. cbn [Binary64.mul_int] in Hparse.
  change (inject_Z 3600) with 3600 in Hparse.
  destruct (round_error_small (h1 * 3600)) as (p3 & Hp3 & Hp30 & Hp3u & Hp3l); [lra | lra |].
  rewrite Hp3 in Hparse. cbn [Binary64.add] in Hparse.
  destruct (round_error_small (a1 + p3)) as (a2 & Ha2 & Ha20 & Ha2u & Ha2l); [lra | lra |].
  rewrite Ha2 in Hparse.
  eexists _, a2. split; [reflexivity|]. split; [exact Hparse|].
  apply Qabs_Qle_condition. split; lra.
Qed.

(** The round trip through the text, from [2 ^ 43] to [2 ^ 57]
    seconds: the hours and their product by 3600 are exact, the last
    sum is rounded to a nearest value, which the time itself is a
    candidate for, and the two are multiples of [2 ^ -10]. *)
Lemma timecode_roundtrip64_high x :
  Binary64.representable x -> Binary64.pow2 43 <= x -> x < Binary64.pow2 57 ->
  exists s y,
    Binary64.format_timecode (PFin x) = Ok s
    /\ Binary64.parse_timecode s = Ok (PFin y)
    /\ Qabs (y - x) <= 1 # 100.
Proof.
  intros Hrep Hlow Hbig.
  assert (Binary64.pow2 43 == 8796093022208) as H43 by reflexivity.
  assert (Binary64.pow2 42 == 4398046511104) as H42 by reflexivity.
  assert (Binary64.pow2 57 == 144115188075855872) as H57 by reflexivity.
  assert (Binary64.pow2 4 == 16) as H4 by reflexivity.
  assert (Binary64.pow2 0 == 1) as H0 by reflexivity.
  assert (Binary64.pow2 (-10) == 1 # 1024) as H10 by reflexivity.
  assert (Binary64.pow2 61 <= Binary64.pow2 1000) as H1000 by (by apply pow2_le).
  assert (Binary64.pow2 61 == 2305843009213693952) as H61 by reflexivity.
  assert (0 <= x) as Hx by lra.
  destruct (timecode_fields x Hx) as (Hh & Hm & Hy0 & Hy1 & Hsum & _ & _).
  cbv zeta in Hh, Hm, Hy0, Hy1, Hsum.
  rewrite (format_timecode_same x Hrep Hx Hbig).
  rewrite (TimecodeFacts.format_timecode_nonneg x Hx).
  set (h := Qfloor (x / inject_Z 3600)) in *.
  set (m := Qfloor ((x - inject_Z 3600 * inject_Z h) / inject_Z 60)) in *.
  set (y := x - inject_Z 60 * inject_Z (Qfloor (x / inject_Z 60))) in *.
  destruct (TimecodeFacts.round_half_even_spec (y * inject_Z 100)) as (Hr1 & Hr2 & Hr3).
  set (cs := PyFloat.round_half_even (y * inject_Z 100)) in *.
  assert (0 <= cs < 6001)%Z as Hcs.
  { assert (0 <= Qfloor (y * inject_Z 100) < 6000)%Z; [|lia].
    apply Qfloor_range; change (inject_Z 100) with 100.
    - change (inject_Z 0) with 0. lra.
    - change (inject_Z 6000) with 6000. lra. }
  destruct (TimecodeFacts.hours_ok h Hh) as (Hh1 & Hh2 & qh & Hqh & Hvh).
  destruct (TimecodeFacts.field_ok_spec _ _ (TimecodeFacts.minutes_ok_all m Hm))
    as (Hm1 & Hm2 & qm & Hqm & Hvm).
  destruct (TimecodeFacts.field_ok_spec _ _ (TimecodeFacts.seconds_ok_all cs Hcs))
    as (Hs1 & Hs2 & qs & Hqs & Hvs).
  pose proof (parse_three_fields64 _ _ _ qh qm qs Hh1 Hh2 Hm1 Hm2 Hs1 Hs2 Hqh Hqm Hqs)
    as Hparse.
  assert (cs # 100 == inject_Z cs / 100) as Hcsq by (by rewrite Qmake_Qdiv).
  assert (inject_Z cs / 100 * 100 == inject_Z cs) as Hd by (field; lra).
  rewrite Hcsq in Hvs.
  assert (0 <= inject_Z h) as Hh0 by (by apply inject_Z_nonneg).
  assert (0 <= inject_Z m) as Hm0 by (apply inject_Z_nonneg; lia).
  assert (inject_Z m <= 59) as Hm59 by (change 59 with (inject_Z 59); rewrite <- Zle_Qle; lia).
  assert (0 <= inject_Z cs) as Hcs0 by (apply inject_Z_nonneg; lia).
  change (inject_Z 100) with 100 in *. change (inject_Z 1) with 1 in *.
  change (inject_Z 60) with 60 in *. change (inject_Z 3600) with 3600 in *.
  assert (225 * h < 2 ^ 53)%Z as Hhbits.
  { rewrite Zlt_Qlt, inject_Z_mult.
    change (inject_Z 225) with 225. change (inject_Z (2 ^ 53)) with 9007199254740992.
    lra. }
  set (t := inject_Z cs / 100) in *.
  destruct (round_error_small qs) as (s1 & Hs & Hs10 & Hs1u & Hs1l); [lra | lra |].
  rewrite Hs in Hparse. cbn [Binary64.mul_int] in Hparse.
  change (inject_Z 1) with 1 in Hparse.
  destruct (round_error_small (s1 * 1)) as (p1 & Hp1 & Hp10 & Hp1u & Hp1l); [lra | lra |].
  rewrite Hp1 in Hparse. cbn [Binary64.add] in Hparse.
  destruct (round_error_small (0 + p1)) as (a0 & Ha0 & Ha00 & Ha0u & Ha0l); [lra | lra |].
  rewrite Ha0 in Hparse.
  destruct (round_error_small qm) as (m1 & Hm1r & Hm10 & Hm1u & Hm1l); [lra | lra |].
  rewrite Hm1r in Hparse. cbn [Binary64.mul_int] in Hparse.
  change (inject_Z 60) with 60 in Hparse.
  destruct (round_error_small (m1 * 60)) as (p2 & Hp2 & Hp20 & Hp2u & Hp2l); [lra | lra |].
  rewrite Hp2 in Hparse. cbn [Binary64.add] in Hparse.
  destruct (round_error_small (a0 + p2)) as (a1 & Ha1 & Ha10 & Ha1u & Ha1l); [lra | lra |].
  rewrite Ha1 in Hparse.
  destruct (round_exact qh) as (h1 & Hh1r & Hh1e); [| lra | lra |].
  { exists h, 0%Z. split; [lia|]. split; [lia|]. rewrite Hvh, H0. ring. }
  rewrite Hh1r in Hparse. cbn [Binary64.mul_int] in Hparse.
  change (inject_Z 3600) with 3600 in Hparse.
  destruct (round_exact (h1 * 3600)) as (p3 & Hp3 & Hp3e); [| lra | lra |].
  { exists (225 * h)%Z, 4%Z. split; [lia|]. split; [lia|].
    rewrite inject_Z_mult, H4, Hh1e, Hvh. change (inject_Z 225) with 225. ring. }
  rewrite Hp3 in Hparse. cbn [Binary64.add] in Hparse.
  set (q := a1 + p3) in *.
  assert (x - q <= 5001 # 1000000 /\ q - x <= 5001 # 1000000) as [Hq1 Hq2].
  { unfold q. split; lra. }
  destruct (round_nearest q x) as (a2 & Ha2 & Ha20 & Hnear); [lra | lra | exact Hrep |].
  destruct (round_on_grid q (-10)) as (a2' & k & Ha2' & Hk);
    [lra | lra | change (-10 + 52)%Z with 42%Z; lra |].
  rewrite Ha2 in Ha2'. injection Ha2' as <-.
  destruct (representable_on_grid x (-10) Hrep) as (k' & Hk');
    [change (-10 + 53)%Z with 43%Z; lra|].
  rewrite Ha2 in Hparse.
  eexists _, a2. split; [reflexivity|]. split; [exact Hparse|].
  assert (Qabs (x - q) <= 5001 # 1000000) as Hxq
    by (apply Qabs_Qle_condition; split; lra).
  assert (Qabs (a2 - q) <= 5001 # 1000000) as Haq by lra.
  apply Qabs_Qle_condition in Haq as [Haq1 Haq2].
  rewrite H10 in Hk, Hk'.
  assert (inject_Z (k - k') < inject_Z 11) as Hup.
  { rewrite inject_Z_minus. change (inject_Z 11) with 11. lra. }
  assert (inject_Z (-11) < inject_Z (k - k')) as Hdown.
  { rewrite inject_Z_minus. change (inject_Z (-11)) with (-11). lra. }
  rewrite <- Zlt_Qlt in Hup, Hdown.
  assert (inject_Z (k - k') <= inject_Z 10) as Hup' by (rewrite <- Zle_Qle; lia).
  assert (inject_Z (-10) <= inject_Z (k - k')) as Hdown' by (rewrite <- Zle_Qle; lia).
  rewrite inject_Z_minus in Hup', Hdown'.
  change (inject_Z 10) with 10 in Hup'. change (inject_Z (-10)) with (-10) in Hdown'.
  apply Qabs_Qle_condition. split; lra.
Qed.

(** The round trip through the text, in binary64, below [2 ^ 57]
    seconds. *)
Lemma timecode_roundtrip64 x :
  Binary64.representable x -> 0 <= x -> x < 144115188075855872 ->
  exists s y,
    Binary64.format_timecode (PFin x) = Ok s
    /\ Binary64.parse_timecode s = Ok (PFin y)
    /\ Qabs (y - x) <= 1 # 100.
Proof.
  intros Hrep Hx Hbig.
  destruct (Qlt_le_dec 10000000000000 x) as [Hhigh | Hlow].
  - apply timecode_roundtrip64_high; [exact Hrep | |].
    + assert (Binary64.pow2 43 == 8796093022208) as H by reflexivity. lra.
    + assert (Binary64.pow2 57 == 144115188075855872) as H by reflexivity. lra.
  - by apply timecode_roundtrip64_low.
Qed.

End Timecode64Facts.

(** C3, as the code has it.  For every float [x] with
    [0 <= x < 2 ^ 57 = 144115188075855872] seconds, the timecode of
    lines 95 and 96 read back by the expression of lines 120 and 121 is
    within one centisecond of [x], every operation rounded as binary64
    rounds it. *)
Theorem C3_timecode_roundtrip (x : Q) :
  Binary64.representable x ->
  (0 <= x)%Q ->
  (x < 144115188075855872)%Q ->
  exists s y,
    Binary64.format_timecode (PFin x) = Ok s
    /\ Binary64.parse_timecode s = Ok (PFin y)
    /\ (Qabs (y - x) <= 1 # 100)%Q.
Proof. apply Timecode64Facts.timecode_roundtrip64. Qed.

Lemma C3_witness :
  exists s y,
    Binary64.format_timecode (PFin (7447 # 2)) = Ok s
    /\ Binary64.parse_timecode s = Ok (PFin y)
    /\ (Qabs (y - (7447 # 2)) <= 1 # 100)%Q.
Proof.
  apply (C3_timecode_roundtrip (7447 # 2)).
  - exists 7447%Z, (-1)%Z. split; [reflexivity|]. split; [lia|]. reflexivity.
  - vm_compute. discriminate.
  - vm_compute. reflexivity.
Defined.

(** C3, as the specification states it, fails.  The float
    144115188075860448.0, which is [2 ^ 57 + 4576], is printed as
    [40031996687739:00:48.00] and read back as a float 32 seconds
    larger: the product of the hours by 3600 and the sum of line 121
    are rounded.  So is the float 304108237721255104.0, printed as
    [84474510478126:25:04.00] and read back 64 seconds larger. *)
Lemma C3_counterexample :
  let x := 144115188075860448%Q in
  let x' := 304108237721255104%Q in
  (Binary64.representable x
   /\ (0 <= x)%Q
   /\ Binary64.format_timecode (PFin x) = Ok "40031996687739:00:48.00"
   /\ exists y,
        Binary64.parse_timecode "40031996687739:00:48.00" = Ok (PFin y)
        /\ (y - x == 32)%Q
        /\ ~ (Qabs (y - x) <= 1 # 100)%Q)
  /\ (Binary64.representable x'
      /\ (0 <= x')%Q
      /\ Binary64.format_timecode (PFin x') = Ok "84474510478126:25:04.00"
      /\ exists y,
           Binary64.parse_timecode "84474510478126:25:04.00" = Ok (PFin y)
           /\ (y - x' == 64)%Q
           /\ ~ (Qabs (y - x') <= 1 # 100)%Q).
Proof.
  intros x x'. split.
  - split.
    { exists 4503599627370639%Z, 5%Z. split; [reflexivity|]. split; [lia|]. reflexivity. }
    split; [vm_compute; discriminate|].
    split; [vm_compute; reflexivity|].
    eexists. split; [vm_compute; reflexivity|].
    split; [reflexivity|].
    vm_compute. intros H. by apply H.
  - split.
    { exists 4751691214394611%Z, 6%Z. split; [reflexivity|]. split; [lia|]. reflexivity. }
    split; [vm_compute; discriminate|].
    split; [vm_compute; reflexivity|].
    eexists. split; [vm_compute; reflexivity|].
    split; [reflexivity|].
    vm_compute. intros H. by apply H.
Qed.

(** * Further properties of the option dictionary and of the style line *)

Module OptionFacts.

Lemma foldl_insert_lookup (items : list (string * pyval)) (d : gmap string pyval) key :
  foldl (fun d item => <[fst item := snd item]> d) d items !! key
  = match last_value key items with
    | Some v => Some v
    | None => d !! key
    end.
Proof.
  revert d. induction items as [|[k v] items IH]; intros d; [done|].
  cbn [foldl last_value fst snd]. rewrite IH.
  destruct (last_value key items) as [v'|]; [done|].
  destruct (String.eqb_spec k key) as [->|Hne].
  - by rewrite lookup_insert_eq.
  - by rewrite lookup_insert_ne.
Qed.

End OptionFacts.

(** X1.  The dictionary built from the option array answers a lookup with
    the value of the last item of that name, and with the default when
    no item has that name. *)
Theorem X1_option_lookup_last_wins
    (w : world) (options : list (string * pyval)) (key : string) (default : pyval)
    (t : list event) :
  exists d,
    (convert_array_to_collection w options t).1 = Ok d
    /\ dict_get d key default
       = match last_value key options with
         | Some v => v
         | None => default
         end.
Proof.
  eexists. split; [reflexivity|].
  unfold dict_get. rewrite OptionFacts.foldl_insert_lookup.
  destruct (last_value key options); [done|]. by rewrite lookup_empty.
Qed.

(** X2.  An option that the style line does not read does not change it:
    unknown option names are ignored. *)
Theorem X2_style_line_ignores_other_options
    (options : gmap string pyval) (key : string) (value : pyval) :
  key ∉ style_option_names ->
  generate_style_line (<[key := value]> options) = generate_style_line options.
Proof.
  intros Hkey. unfold generate_style_line, style_options, dict_get.
  assert (forall name, name ∈ style_option_names ->
                       <[key := value]> options !! name = options !! name) as Hsame.
  { intros name Hname. apply lookup_insert_ne. by intros ->. }
  rewrite !Hsame; [done|..];
    unfold style_option_names; rewrite !elem_of_cons; tauto.
Qed.

Lemma X2_witness :
  generate_style_line (<["one_word_mode" := VBool true]> ∅) = generate_style_line ∅.
Proof.
  apply X2_style_line_ignores_other_options.
  unfold style_option_names. rewrite !elem_of_cons, elem_of_nil.
  intros H. repeat destruct H as [H|H]; discriminate H || exact H.
Defined.

(** * Further properties of the conversion *)

Module ConvertFacts.

Lemma word_lines_length words s d hl rc rest :
  forall i lines,
    word_lines words s d hl rc i rest = Ok lines -> length lines = length rest.
Proof.
  induction rest as [|word rest IH]; intros i lines.
  - cbn. by intros [= <-].
  - cbn [word_lines].
    destruct (word_line words s d hl rc i word) as [l|]; cbn [mbind result_bind]; [|done].
    destruct (word_lines words s d hl rc (S i) rest) as [ls|] eqn:Hls;
      cbn [mbind result_bind mret result_ret]; [|done].
    intros [= <-]. cbn [length]. by rewrite (IH _ _ Hls).
Qed.

Lemma caption_lines_length caption_text s e hl rc lines :
  process_single_word_caption caption_text s e hl rc = Ok lines ->
  length lines = length (PyStr.split_ws (PyStr.strip caption_text)).
Proof.
  unfold process_single_word_caption.
  destruct (PyFloat.div_int _ _) as [d|]; cbn [mbind result_bind]; [|done].
  apply word_lines_length.
Qed.

Lemma expand_cues_length hl rc cues :
  forall lines,
    expand_cues hl rc cues = Ok lines ->
    length lines = sum_list (map cue_word_count cues).
Proof.
  induction cues as [|c cues IH]; intros lines.
  - cbn. by intros [= <-].
  - cbn [expand_cues].
    destruct (process_single_word_caption _ _ _ _ _) as [new|] eqn:Hnew;
      cbn [mbind result_bind]; [|done].
    destruct (expand_cues hl rc cues) as [more|]; cbn [mbind result_bind mret result_ret];
      [|done].
    intros [= <-]. rewrite length_app, (IH more eq_refl).
    by rewrite (caption_lines_length _ _ _ _ _ _ Hnew).
Qed.

End ConvertFacts.

(** X3.  When the conversion succeeds it yields one dialogue line per word:
    the number of lines is the total number of words of the cues read
    from the blocks. *)
Theorem X3_one_line_per_word
    (srt_content : string) (highlight_color regular_color : pyval)
    (lines : list string) :
  convert_blocks highlight_color regular_color
    (PyStr.split (nl +:+ nl) (PyStr.strip srt_content)) = Ok lines ->
  exists cues,
    parse_blocks (PyStr.split (nl +:+ nl) (PyStr.strip srt_content)) = Ok cues
    /\ expand_cues highlight_color regular_color cues = Ok lines
    /\ length lines = sum_list (map cue_word_count cues).
Proof.
  intros Hconv.
  destruct (BlockFacts.convert_blocks_parse _ _ _ _ Hconv) as (cues & Hcues & Hexp).
  exists cues. split; [done|]. split; [done|].
  by apply (ConvertFacts.expand_cues_length highlight_color regular_color).
Qed.

Lemma X3_witness :
  exists cues,
    parse_blocks
      (PyStr.split (nl +:+ nl)
         (PyStr.strip ("1" +:+ nl +:+ "00:00:00,000 --> 00:00:02,000" +:+ nl
                       +:+ "hello world" +:+ nl +:+ nl
                       +:+ "2" +:+ nl +:+ "00:00:02,000 --> 00:00:03,000" +:+ nl
                       +:+ "bye"))) = Ok cues
    /\ sum_list (map cue_word_count cues) = 3%nat.
Proof.
  destruct (convert_blocks (VStr "FFFFFF") (VStr "AAAAAA")
              (PyStr.split (nl +:+ nl)
                 (PyStr.strip ("1" +:+ nl +:+ "00:00:00,000 --> 00:00:02,000" +:+ nl
                               +:+ "hello world" +:+ nl +:+ nl
                               +:+ "2" +:+ nl +:+ "00:00:02,000 --> 00:00:03,000" +:+ nl
                               +:+ "bye")))) as [lines|] eqn:Hlines;
    [|discriminate Hlines].
  destruct (X3_one_line_per_word _ _ _ _ Hlines) as (cues & Hcues & _ & Hlen).
  exists cues. split; [exact Hcues|].
  rewrite <- Hlen. vm_compute in Hlines. injection Hlines as <-. reflexivity.
Defined.

Module WordFacts.

Import PyStr.

Lemma split_ws_cons c s :
  split_ws (String c s)
  = if is_space c then split_ws s
    else match s with
         | EmptyString => [String c EmptyString]
         | String c' _ =>
             if is_space c' then String c EmptyString :: split_ws s
             else match split_ws s with
                  | w :: ws => String c w :: ws
                  | [] => [String c EmptyString]
                  end
         end.
Proof. reflexivity. Qed.

Lemma split_ws_head c s :
  is_space c = false -> exists word words, split_ws (String c s) = word :: words.
Proof.
  revert c. induction s as [|c' s IH]; intros c Hc; rewrite split_ws_cons, Hc.
  - by eexists _, _.
  - destruct (is_space c') eqn:Hc'; [by eexists _, _|].
    destruct (IH c' Hc') as (word & words & ->). by eexists _, _.
Qed.

Lemma split_ws_app_space a b :
  split_ws (a +:+ String " " b) = split_ws a ++ split_ws b.
Proof.
  induction a as [|c a IH].
  - reflexivity.
  - change (String c a +:+ String " " b) with (String c (a +:+ String " " b)).
    rewrite (split_ws_cons c (a +:+ String " " b)), (split_ws_cons c a).
    destruct (is_space c) eqn:Hc; [exact IH|].
    destruct a as [|c' a].
    + reflexivity.
    + change (String c' a +:+ String " " b) with (String c' (a +:+ String " " b)) in *.
      destruct (is_space c') eqn:Hc'.
      * cbv beta iota. rewrite ?Hc', IH. reflexivity.
      * cbv beta iota. rewrite ?Hc', IH.
        destruct (split_ws_head c' a Hc') as (word & words & ->).
        reflexivity.
Qed.

Lemma split_ws_join l :
  split_ws (join " " l) = concat (map split_ws l).
Proof.
  induction l as [|x [|y l] IH].
  - reflexivity.
  - cbn [join map concat]. by rewrite app_nil_r.
  - change (join " " (x :: y :: l)) with (x +:+ String " " (join " " (y :: l))).
    rewrite split_ws_app_space, IH. reflexivity.
Qed.

Lemma split_ws_lstrip s : split_ws (lstrip_by is_space s) = split_ws s.
Proof.
  induction s as [|c s IH]; [done|]. cbn [lstrip_by].
  destruct (is_space c) eqn:Hc; [|done].
  by rewrite (split_ws_cons c s), Hc.
Qed.

Lemma rstrip_head c s :
  match rstrip_by is_space (String c s) with
  | EmptyString => True
  | String c' _ => c' = c
  end.
Proof. cbn [rstrip_by]. destruct (rstrip_by is_space s); [by destruct (is_space c)|done]. Qed.

Lemma split_ws_rstrip s : split_ws (rstrip_by is_space s) = split_ws s.
Proof.
  induction s as [|c s IH]; [done|]. cbn [rstrip_by].
  destruct (rstrip_by is_space s) as [|r0 r] eqn:Hr.
  - rewrite (split_ws_cons c s). destruct (is_space c) eqn:Hc; [exact IH|].
    rewrite split_ws_cons, Hc.
    destruct s as [|c' s']; [done|].
    destruct (is_space c') eqn:Hc'; [by rewrite <- IH|].
    destruct (split_ws_head c' s' Hc') as (word & words & Hw).
    rewrite Hw in IH. done.
  - rewrite (split_ws_cons c (String r0 r)), (split_ws_cons c s).
    destruct (is_space c); [exact IH|].
    destruct s as [|c' s']; [done|].
    pose proof (rstrip_head c' s') as Hh. rewrite Hr in Hh. subst r0.
    by rewrite IH.
Qed.

Lemma split_ws_strip s : split_ws (strip s) = split_ws s.
Proof. unfold strip, strip_by. by rewrite split_ws_rstrip, split_ws_lstrip. Qed.

End WordFacts.

(** X4.  The words of a cue are the words of its text lines, line after
    line: the line breaks inside a cue are lost, and nothing else is. *)
Theorem X4_cue_words_of_all_lines (parts : list string) (c : cue) :
  block_cue parts = Ok c ->
  cue_text c = PyStr.join " " (drop 2 parts)
  /\ PyStr.split_ws (PyStr.strip (cue_text c))
     = concat (map PyStr.split_ws (drop 2 parts)).
Proof.
  unfold block_cue. intros Hc.
  assert (cue_text c = PyStr.join " " (drop 2 parts)) as Htext.
  { destruct (py_index parts 1) as [line1|]; cbn [mbind result_bind] in Hc; [|done].
    destruct (py_index (PyStr.split " --> " line1) 0) as [t0|];
      cbn [mbind result_bind] in Hc; [|done].
    destruct (parse_timecode t0) as [s|]; cbn [mbind result_bind] in Hc; [|done].
    destruct (py_index (PyStr.split " --> " line1) 1) as [t1|];
      cbn [mbind result_bind] in Hc; [|done].
    destruct (parse_timecode t1) as [e|]; cbn [mbind result_bind] in Hc; [|done].
    by injection Hc as <-. }
  split; [exact Htext|].
  by rewrite Htext, WordFacts.split_ws_strip, WordFacts.split_ws_join.
Qed.

Lemma X4_witness :
  exists c,
    block_cue ["1"; "00:00:00,000 --> 00:00:02,000"; "hello there"; "world"] = Ok c
    /\ PyStr.split_ws (PyStr.strip (cue_text c)) = ["hello"; "there"; "world"].
Proof.
  destruct (block_cue ["1"; "00:00:00,000 --> 00:00:02,000"; "hello there"; "world"])
    as [c|] eqn:Hc; [|discriminate Hc].
  exists c. split; [reflexivity|].
  destruct (X4_cue_words_of_all_lines _ _ Hc) as [_ ->]. reflexivity.
Defined.

(** * Further properties of the pipeline *)

Module TailFacts.

Import PipelineFacts.

(** The last step, by what the upload and the removals answer. *)
Lemma publish_run w job_id video_path srt_path output_path :
  let bucket := GCP_BUCKET_NAME w in
  publish_and_clean_up w job_id video_path srt_path output_path []
  = match upload_to_gcs w output_path bucket with
    | Raise e => (Raise e, [EvUpload output_path bucket])
    | Ok name =>
        let up :=
          [ EvUpload output_path bucket;
            EvLog INFO ("Job " +:+ job_id +:+ ": File uploaded to GCS at " +:+ name) ] in
        match os_remove w video_path with
        | Raise e => (Raise e, up ++ [EvRemove video_path])
        | Ok _ =>
            match os_remove w srt_path with
            | Raise e => (Raise e, up ++ [EvRemove video_path; EvRemove srt_path])
            | Ok _ =>
                match os_remove w output_path with
                | Raise e =>
                    (Raise e,
                     up ++ [EvRemove video_path; EvRemove srt_path; EvRemove output_path])
                | Ok _ =>
                    (Ok name,
                     up ++ [ EvRemove video_path; EvRemove srt_path; EvRemove output_path;
                             EvLog INFO ("Job " +:+ job_id +:+ ": Local files cleaned up") ])
                end
            end
        end
    end.
Proof.
  unfold publish_and_clean_up.
  cbv [mbind io_bind mret io_ret IO.log IO.emit IO.call IO.lift].
  cbn [app].
  destruct (upload_to_gcs w output_path (GCP_BUCKET_NAME w)) as [name|e]; [|done].
  destruct (os_remove w video_path) as [[]|e]; [|done].
  destruct (os_remove w srt_path) as [[]|e]; [|done].
  by destruct (os_remove w output_path) as [[]|e].
Qed.

(** How a job ends: either it fails before the last step, and then its
    trace holds no upload and no removal, or the last step runs after
    the encoder has succeeded and ends the job. *)
Lemma run_tail w file_url caption_srt caption_type options job_id r trace :
  let opts := foldl (fun d item => <[fst item := snd item]> d) ∅ options in
  let forced := py_truthy (dict_get opts "one_word_mode" (VBool false))
                && negb (String.eqb caption_type "ass") in
  let subtitle_extension := if forced then ".ass" else "." +:+ caption_type in
  let srt_path := os_path_join STORAGE_PATH (job_id +:+ subtitle_extension) in
  let output_path := os_path_join STORAGE_PATH (job_id +:+ "_captioned.mp4") in
  process_captioning w file_url caption_srt caption_type options job_id [] = (r, trace) ->
  (exists e before,
     r = Raise e /\ trace = before ++ [error_entry w job_id e]
     /\ kinds_within [KLog; KDownload; KFetch; KWrite; KEncode] before = true)
  \/ (exists video_path before,
        download_file w file_url STORAGE_PATH = Ok video_path
        /\ kinds_within [KLog; KDownload; KFetch; KWrite; KEncode] before = true
        /\ match publish_and_clean_up w job_id video_path srt_path output_path [] with
           | (Raise e, fin) =>
               r = Raise e /\ trace = before ++ fin ++ [error_entry w job_id e]
           | (Ok output_filename, fin) =>
               r = Ok output_filename /\ trace = before ++ fin
           end).
Proof.
  intros opts forced subtitle_extension srt_path output_path.
  rewrite process_captioning_run. cbv beta zeta.
  fold opts. fold forced. fold subtitle_extension. fold srt_path. fold output_path.
  destruct (download_file w file_url STORAGE_PATH) as [video_path|e].
  2:{ intros Hrun. split_run Hrun. left. by eexists _, _. }
  set (prep := _ ++ _ ++ _ ++ _).
  assert (kinds_within [KLog; KDownload; KFetch; KWrite; KEncode] prep = true) as Hprep.
  { subst prep. destruct forced; destruct (String.eqb _ "ass"); reflexivity. }
  clearbody prep.
  match goal with
  | |- context [write_subtitle ?a1 ?a2 ?a3 ?a4 ?a5 ?a6 ?a7 ?a8 []] =>
      pose proof (kinds_within_mono [KLog; KFetch; KWrite]
                    [KLog; KDownload; KFetch; KWrite; KEncode] _
                    ltac:(by intros [])
                    (write_subtitle_kinds a1 a2 a3 a4 a5 a6 a7 a8)) as Hsub;
      destruct (write_subtitle a1 a2 a3 a4 a5 a6 a7 a8 []) as [[[]|e] sub]
  end; cbn [snd] in Hsub.
  2:{ intros Hrun. split_run Hrun. left. eexists _, _.
      split; [done|]. split; [done|]. by rewrite !kinds_within_app, Hprep, Hsub. }
  match goal with
  | |- context [select_font ?a1 ?a2 ?a3 []] =>
      pose proof (kinds_within_mono [KLog]
                    [KLog; KDownload; KFetch; KWrite; KEncode] _
                    ltac:(by intros [])
                    (EncodeFacts.select_font_kinds a1 a2 a3)) as Hfnt;
      destruct (select_font a1 a2 a3 []) as [[found|e] fnt]
  end; cbn [snd] in Hfnt.
  2:{ intros Hrun. split_run Hrun. left. eexists _, _.
      split; [done|]. split; [done|].
      by rewrite !kinds_within_app, Hprep, Hsub, Hfnt. }
  rewrite build_subtitle_filter_run. cbv zeta.
  match goal with
  | |- context [prep ++ ?s ++ fnt ++ ?fl ++ _] => set (flt := fl)
  end.
  assert (kinds_within [KLog; KDownload; KFetch; KWrite; KEncode] flt = true) as Hflt
      by reflexivity.
  clearbody flt.
  match goal with
  | |- context [run_encoder ?a1 ?a2 ?a3 ?a4 ?a5 []] =>
      pose proof (kinds_within_mono [KLog; KEncode]
                    [KLog; KDownload; KFetch; KWrite; KEncode] _
                    ltac:(by intros [])
                    (EncodeFacts.run_encoder_kinds a1 a2 a3 a4 a5)) as Henc;
      destruct (run_encoder a1 a2 a3 a4 a5 []) as [[[]|e] enc]
  end; cbn [snd] in Henc.
  2:{ intros Hrun. split_run Hrun. left. eexists _, _.
      split; [done|]. split; [done|].
      by rewrite !kinds_within_app, Hprep, Hsub, Hfnt, Hflt, Henc. }
  intros Hrun. right.
  exists video_path, (prep ++ (sub ++ [EvLog INFO ("Job " +:+ job_id
                                  +:+ ": Output path set to " +:+ output_path)])
                       ++ fnt ++ flt ++ enc).
  split; [done|]. split.
  { by rewrite !kinds_within_app, Hprep, Hsub, Hfnt, Hflt, Henc. }
  destruct (publish_and_clean_up w job_id video_path srt_path output_path [])
    as [[name|e] fin]; split_run Hrun; (split; [done|]); by rewrite <- ?app_assoc.
Qed.

End TailFacts.

(** X5.  A job that fails has logged the error as its last act, and the
    exception it raises is the one it logged: the handler of lines 270
    to 272 neither swallows nor replaces it. *)
Theorem X5_failure_logged_and_raised_again
    (w : world) (file_url caption_srt caption_type : string)
    (options : list (string * pyval)) (job_id : string)
    (e : exn) (trace : list event) :
  process_captioning w file_url caption_srt caption_type options job_id []
  = (Raise e, trace) ->
  exists before, trace = before ++ [error_entry w job_id e].
Proof.
  intros Hrun.
  destruct (TailFacts.run_tail _ _ _ _ _ _ _ _ Hrun)
    as [(e' & before & [= <-] & -> & _)|(video_path & before & _ & _ & Hfin)].
  - by exists before.
  - destruct (publish_and_clean_up _ _ _ _ _ []) as [[name|e'] fin].
    + by destruct Hfin.
    + destruct Hfin as [[= <-] ->]. exists (before ++ fin). by rewrite <- app_assoc.
Qed.

Lemma X5_witness :
  exists before,
    (process_captioning world_encoder_fails "https://example.com/video.mp4" "caption"
       "srt" [] "job1" []).2
    = before ++ [error_entry world_encoder_fails "job1"
                   (FfmpegError None (Some ["x"%byte]))].
Proof.
  apply (X5_failure_logged_and_raised_again world_encoder_fails
           "https://example.com/video.mp4" "caption" "srt" [] "job1").
  reflexivity.
Defined.

(** X6.  A job that succeeds returns what the upload returned, and its
    trace ends with the upload of the output file followed by the
    removal of the downloaded video, of the subtitle file and of the
    output file, in that order; nothing is uploaded or removed before. *)
Theorem X6_success_uploads_then_removes
    (w : world) (file_url caption_srt caption_type : string)
    (options : list (string * pyval)) (job_id : string)
    (output_filename : string) (trace : list event) :
  let opts := foldl (fun d item => <[fst item := snd item]> d) ∅ options in
  let forced := py_truthy (dict_get opts "one_word_mode" (VBool false))
                && negb (String.eqb caption_type "ass") in
  let subtitle_extension := if forced then ".ass" else "." +:+ caption_type in
  let srt_path := os_path_join STORAGE_PATH (job_id +:+ subtitle_extension) in
  let output_path := os_path_join STORAGE_PATH (job_id +:+ "_captioned.mp4") in
  process_captioning w file_url caption_srt caption_type options job_id []
  = (Ok output_filename, trace) ->
  exists video_path before,
    download_file w file_url STORAGE_PATH = Ok video_path
    /\ upload_to_gcs w output_path (GCP_BUCKET_NAME w) = Ok output_filename
    /\ kinds_within [KLog; KDownload; KFetch; KWrite; KEncode] before = true
    /\ trace
       = before
         ++ [ EvUpload output_path (GCP_BUCKET_NAME w);
              EvLog INFO ("Job " +:+ job_id +:+ ": File uploaded to GCS at "
                          +:+ output_filename);
              EvRemove video_path; EvRemove srt_path; EvRemove output_path;
              EvLog INFO ("Job " +:+ job_id +:+ ": Local files cleaned up") ].
Proof.
  intros opts forced subtitle_extension srt_path output_path Hrun.
  destruct (TailFacts.run_tail _ _ _ _ _ _ _ _ Hrun)
    as [(e' & before & [=] & _)|(video_path & before & Hdl & Hk & Hfin)].
  fold opts in Hfin. fold forced in Hfin. fold subtitle_extension in Hfin.
  fold srt_path in Hfin. fold output_path in Hfin.
  rewrite TailFacts.publish_run in Hfin. cbv zeta in Hfin.
  exists video_path, before. split; [exact Hdl|].
  destruct (upload_to_gcs w output_path (GCP_BUCKET_NAME w)) as [name|e];
    [|by destruct Hfin].
  destruct (os_remove w video_path) as [[]|e]; [|by destruct Hfin].
  destruct (os_remove w srt_path) as [[]|e]; [|by destruct Hfin].
  destruct (os_remove w output_path) as [[]|e]; [|by destruct Hfin].
  destruct Hfin as [[= <-] ->]. by repeat split.
Qed.

Lemma X6_witness :
  exists before,
    (process_captioning world_ok "https://example.com/video.mp4" "caption" "srt" []
       "job1" []).2
    = before
      ++ [ EvUpload "/tmp/job1_captioned.mp4" "bucket";
           EvLog INFO "Job job1: File uploaded to GCS at gs://bucket/tmp/job1_captioned.mp4";
           EvRemove "/tmp/video.mp4"; EvRemove "/tmp/job1.srt";
           EvRemove "/tmp/job1_captioned.mp4";
           EvLog INFO "Job job1: Local files cleaned up" ].
Proof.
  destruct (X6_success_uploads_then_removes world_ok "https://example.com/video.mp4"
              "caption" "srt" [] "job1" "gs://bucket/tmp/job1_captioned.mp4"
              (process_captioning world_ok "https://example.com/video.mp4" "caption"
                 "srt" [] "job1" []).2)
    as (video_path & before & Hdl & _ & _ & Htrace).
  - reflexivity.
  - injection Hdl as <-. exists before. exact Htrace.
Defined.

(** X7.  No file is removed unless the output was uploaded: a removal in
    the trace of a job comes with a successful upload of the output
    file, and the file removed is the downloaded video, the subtitle
    file or the output file. *)
Theorem X7_removal_only_after_upload
    (w : world) (file_url caption_srt caption_type : string)
    (options : list (string * pyval)) (job_id : string)
    (r : result string) (trace : list event) (path : string) :
  let opts := foldl (fun d item => <[fst item := snd item]> d) ∅ options in
  let forced := py_truthy (dict_get opts "one_word_mode" (VBool false))
                && negb (String.eqb caption_type "ass") in
  let subtitle_extension := if forced then ".ass" else "." +:+ caption_type in
  let srt_path := os_path_join STORAGE_PATH (job_id +:+ subtitle_extension) in
  let output_path := os_path_join STORAGE_PATH (job_id +:+ "_captioned.mp4") in
  process_captioning w file_url caption_srt caption_type options job_id [] = (r, trace) ->
  EvRemove path ∈ trace ->
  exists video_path output_filename,
    download_file w file_url STORAGE_PATH = Ok video_path
    /\ upload_to_gcs w output_path (GCP_BUCKET_NAME w) = Ok output_filename
    /\ EvUpload output_path (GCP_BUCKET_NAME w) ∈ trace
    /\ path ∈ [video_path; srt_path; output_path].
Proof.
  intros opts forced subtitle_extension srt_path output_path Hrun Hin.
  destruct (TailFacts.run_tail _ _ _ _ _ _ _ _ Hrun)
    as [(e' & before & _ & -> & Hk)|(video_path & before & Hdl & Hk & Hfin)].
  { apply elem_of_app in Hin as [Hin|Hin].
    - by pose proof (PipelineFacts.kinds_within_elem _ _ _ Hk Hin).
    - by apply list_elem_of_singleton in Hin. }
  fold opts in Hfin. fold forced in Hfin. fold subtitle_extension in Hfin.
  fold srt_path in Hfin. fold output_path in Hfin.
  rewrite TailFacts.publish_run in Hfin. cbv zeta in Hfin.
  exists video_path.
  destruct (upload_to_gcs w output_path (GCP_BUCKET_NAME w)) as [name|e].
  2:{ destruct Hfin as [_ ->]. exfalso.
      repeat (apply elem_of_app in Hin as [Hin|Hin]).
      - by pose proof (PipelineFacts.kinds_within_elem _ _ _ Hk Hin).
      - by apply list_elem_of_singleton in Hin.
      - by apply list_elem_of_singleton in Hin. }
  exists name. split; [exact Hdl|]. split; [reflexivity|].
  destruct (os_remove w video_path) as [[]|e];
    [destruct (os_remove w srt_path) as [[]|e];
     [destruct (os_remove w output_path) as [[]|e]|]|];
    destruct Hfin as [_ ->].
  all: split; [rewrite !elem_of_app, !elem_of_cons; tauto|].
  all: unfold error_entry in Hin.
  all: rewrite !elem_of_app, !elem_of_cons, !elem_of_nil in Hin.
  all: rewrite !elem_of_cons.
  all: destruct_or!; try done.
  all: first [ by pose proof (PipelineFacts.kinds_within_elem _ _ _ Hk Hin)
             | injection Hin as ->; tauto ].
Qed.

Lemma X7_witness :
  exists output_filename,
    upload_to_gcs world_ok "/tmp/job1_captioned.mp4" "bucket" = Ok output_filename
    /\ EvUpload "/tmp/job1_captioned.mp4" "bucket"
       ∈ (process_captioning world_ok "https://example.com/video.mp4" "caption" "srt" []
            "job1" []).2.
Proof.
  destruct (X7_removal_only_after_upload world_ok "https://example.com/video.mp4"
              "caption" "srt" [] "job1"
              (process_captioning world_ok "https://example.com/video.mp4" "caption"
                 "srt" [] "job1" []).1
              (process_captioning world_ok "https://example.com/video.mp4" "caption"
                 "srt" [] "job1" []).2
              "/tmp/job1.srt")
    as (video_path & name & _ & Hup & Hin & _).
  - apply surjective_pairing.
  - apply (list_elem_of_lookup_2 _ 15%nat). reflexivity.
  - exists name. by split.
Defined.

(** X8.  A removal that fails ends the job: the exception of the removal
    is the one the job raises, although the output was uploaded, and
    the files that come after it in the order of removal stay. *)
Theorem X8_failed_removal_fails_job
    (w : world) (file_url caption_srt caption_type : string)
    (options : list (string * pyval)) (job_id : string)
    (r : result string) (trace : list event) (path : string) (e : exn) :
  process_captioning w file_url caption_srt caption_type options job_id [] = (r, trace) ->
  EvRemove path ∈ trace ->
  os_remove w path = Raise e ->
  r = Raise e
  /\ exists before, trace = before ++ [EvRemove path; error_entry w job_id e].
Proof.
  intros Hrun Hin Hfail.
  destruct (TailFacts.run_tail _ _ _ _ _ _ _ _ Hrun)
    as [(e' & before & _ & -> & Hk)|(video_path & before & Hdl & Hk & Hfin)].
  { apply elem_of_app in Hin as [Hin|Hin].
    - by pose proof (PipelineFacts.kinds_within_elem _ _ _ Hk Hin).
    - by apply list_elem_of_singleton in Hin. }
  rewrite TailFacts.publish_run in Hfin. cbv zeta in Hfin. clear Hrun.
  match type of Hfin with
  | context [os_remove w (os_path_join ?a ?b)] =>
      generalize dependent (os_path_join a b); intros srt_path Hfin
  end.
  match type of Hfin with
  | context [os_remove w (os_path_join ?a ?b)] =>
      generalize dependent (os_path_join a b); intros output_path Hfin
  end.
  match type of Hfin with
  | context [upload_to_gcs w ?o ?b] =>
      destruct (upload_to_gcs w o b) as [name|e1]
  end.
  2:{ destruct Hfin as [_ ->]. exfalso.
      repeat (apply elem_of_app in Hin as [Hin|Hin]).
      - by pose proof (PipelineFacts.kinds_within_elem _ _ _ Hk Hin).
      - by apply list_elem_of_singleton in Hin.
      - by apply list_elem_of_singleton in Hin. }
  match type of Hfin with
  | context [os_remove w ?p1] =>
      destruct (os_remove w p1) as [[]|e1] eqn:H1;
      [match type of Hfin with
       | context [os_remove w ?p2] =>
           destruct (os_remove w p2) as [[]|e2] eqn:H2;
           [match type of Hfin with
            | context [os_remove w ?p3] =>
                destruct (os_remove w p3) as [[]|e3] eqn:H3
            end|]
       end|]
  end; destruct Hfin as [-> ->].
  all: unfold error_entry in Hin.
  all: rewrite !elem_of_app, !elem_of_cons, !elem_of_nil in Hin.
  all: destruct_or!; try done.
  all: try (by pose proof (PipelineFacts.kinds_within_elem _ _ _ Hk Hin)).
  all: injection Hin as ->; try congruence.
  all: first [ rewrite Hfail in H1; injection H1 as <-
             | rewrite Hfail in H2; injection H2 as <-
             | rewrite Hfail in H3; injection H3 as <- ].
  all: split; [reflexivity|].
  all: cbn [app]; fold (error_entry w job_id e).
  - eexists (before ++ [_; _; _; _]). by rewrite <- app_assoc.
  - eexists (before ++ [_; _; _]). by rewrite <- app_assoc.
  - eexists (before ++ [_; _]). by rewrite <- app_assoc.
Qed.

Lemma X8_witness :
  let remove path :=
    if String.eqb path "/tmp/job1.srt" then Raise (ExternalError "PermissionError")
    else Ok tt in
  let w := world_with (Ok "/tmp/video.mp4") (Ok (Response (Ok tt) "" [])) remove in
  (process_captioning w "https://example.com/video.mp4" "caption" "srt" [] "job1" []).1
  = Raise (ExternalError "PermissionError")
  /\ EvRemove "/tmp/job1_captioned.mp4"
     ∉ (process_captioning w "https://example.com/video.mp4" "caption" "srt" [] "job1"
          []).2.
Proof.
  intros remove w.
  destruct (X8_failed_removal_fails_job w "https://example.com/video.mp4" "caption"
              "srt" [] "job1"
              (process_captioning w "https://example.com/video.mp4" "caption" "srt" []
                 "job1" []).1
              (process_captioning w "https://example.com/video.mp4" "caption" "srt" []
                 "job1" []).2
              "/tmp/job1.srt" (ExternalError "PermissionError"))
    as [Hr _].
  - apply surjective_pairing.
  - apply (list_elem_of_lookup_2 _ 15%nat). reflexivity.
  - reflexivity.
  - split; [exact Hr|].
    intros Hin. apply list_elem_of_lookup_1 in Hin as [i Hi].
    do 18 (destruct i as [|i]; [discriminate Hi|]). discriminate Hi.
Defined.

Module WriteFacts.

Import PipelineFacts.

(** The fetches and the writes of a job are those of its subtitle
    step. *)
Lemma subtitle_events w file_url caption_srt caption_type options job_id r trace ev :
  let opts := foldl (fun d item => <[fst item := snd item]> d) ∅ options in
  let one_word_mode := dict_get opts "one_word_mode" (VBool false) in
  let forced := py_truthy one_word_mode && negb (String.eqb caption_type "ass") in
  let caption_type' := if forced then "ass" else caption_type in
  let subtitle_extension := if forced then ".ass" else "." +:+ caption_type in
  let srt_path := os_path_join STORAGE_PATH (job_id +:+ subtitle_extension) in
  let caption_style :=
    if String.eqb caption_type' "ass" then ass_header (generate_style_line opts) else "" in
  process_captioning w file_url caption_srt caption_type options job_id [] = (r, trace) ->
  ev ∈ trace ->
  kind_of ev = KFetch \/ kind_of ev = KWrite ->
  ev ∈ (write_subtitle w job_id caption_srt caption_type' srt_path one_word_mode
          caption_style opts []).2.
Proof.
  intros opts one_word_mode forced caption_type' subtitle_extension srt_path
    caption_style Hrun Hev Hkind.
  pose proof (SubtitleFacts.subtitle_step_in_trace _ _ _ _ _ _ _ _ Hrun) as Hshape.
  cbv zeta in Hshape.
  fold opts in Hshape. fold one_word_mode in Hshape. fold forced in Hshape.
  fold caption_type' in Hshape. fold subtitle_extension in Hshape.
  fold srt_path in Hshape. fold caption_style in Hshape.
  destruct (download_file w file_url STORAGE_PATH) as [video_path|e].
  - destruct Hshape as (before & after & -> & Hb & Ha & _).
    apply elem_of_app in Hev as [Hev|Hev];
      [pose proof (kinds_within_elem _ _ _ Hb Hev) as Hk;
       destruct Hkind as [Hkind|Hkind]; rewrite Hkind in Hk; done|].
    apply elem_of_app in Hev as [Hev|Hev]; [done|].
    pose proof (kinds_within_elem _ _ _ Ha Hev) as Hk.
    destruct Hkind as [Hkind|Hkind]; rewrite Hkind in Hk; done.
  - destruct Hshape as [_ Hk].
    pose proof (kinds_within_elem _ _ _ Hk Hev) as Hk'.
    destruct Hkind as [Hkind|Hkind]; rewrite Hkind in Hk'; done.
Qed.

(** In one-word mode the subtitle file is an [.ass] file, whatever the
    caption type of the request. *)
Lemma one_word_ass caption_type (one_word : bool) :
  one_word = true ->
  let forced := one_word && negb (String.eqb caption_type "ass") in
  (if forced then "ass" else caption_type) = "ass"
  /\ (if forced then ".ass" else "." +:+ caption_type) = ".ass".
Proof.
  intros ->. cbn [andb]. destruct (String.eqb_spec caption_type "ass") as [->|_]; by cbn.
Qed.

End WriteFacts.

(** X9.  When the download of the video fails the job fails with the
    exception of the download, after three events only: the entry that
    announces the download, the download, and the error entry.  No
    caption is fetched and nothing is written. *)
Theorem X9_download_failure_stops_job
    (w : world) (file_url caption_srt caption_type : string)
    (options : list (string * pyval)) (job_id : string) (e : exn) :
  download_file w file_url STORAGE_PATH = Raise e ->
  process_captioning w file_url caption_srt caption_type options job_id []
  = (Raise e,
     [ EvLog INFO ("Job " +:+ job_id +:+ ": Starting download of file from " +:+ file_url);
       EvDownload file_url STORAGE_PATH;
       error_entry w job_id e ]).
Proof.
  intros Hdl. rewrite PipelineFacts.process_captioning_run. cbv zeta.
  by rewrite Hdl.
Qed.

Lemma X9_witness :
  (process_captioning
     (world_with (Raise (ExternalError "HTTPError")) (Ok (Response (Ok tt) "" []))
        (fun _ => Ok tt))
     "https://example.com/video.mp4" "caption" "srt" [] "job1" []).1
  = Raise (ExternalError "HTTPError").
Proof.
  rewrite (X9_download_failure_stops_job _ _ _ _ _ _ (ExternalError "HTTPError"));
    reflexivity.
Defined.

(** X10.  In one-word mode the subtitle file is always the [.ass] file
    of the job, whatever caption type was asked for: it is written as
    text and begins with the header, no bytes are written as they came,
    and the filter handed to the encoder is the plain
    [subtitles='<path>'], without a [force_style] clause. *)
Theorem X10_one_word_mode_forces_ass
    (w : world) (file_url caption_srt caption_type : string)
    (options : list (string * pyval)) (job_id : string)
    (r : result string) (trace : list event) :
  let opts := foldl (fun d item => <[fst item := snd item]> d) ∅ options in
  let ass_path := os_path_join STORAGE_PATH (job_id +:+ ".ass") in
  process_captioning w file_url caption_srt caption_type options job_id [] = (r, trace) ->
  py_truthy (dict_get opts "one_word_mode" (VBool false)) = true ->
  (forall v o f a, EvEncode v o f a ∈ trace -> f = "subtitles='" +:+ ass_path +:+ "'")
  /\ (forall path content, EvWriteBytes path content ∉ trace)
  /\ (forall path content,
        EvWriteText path content ∈ trace ->
        path = ass_path
        /\ exists body, content = ass_header (generate_style_line opts) +:+ body).
Proof.
  intros opts ass_path Hrun Hone.
  destruct (WriteFacts.one_word_ass caption_type _ Hone) as [Htype Hext].
  cbv zeta in Htype, Hext. fold opts in Htype, Hext.
  split; [|cut (forall ev, ev ∈ trace -> kind_of ev = KWrite ->
                 exists body,
                   ev = EvWriteText ass_path
                          (ass_header (generate_style_line opts) +:+ body))].
  - intros v o f a Hin.
    destruct (EncodeFacts.encode_reached _ _ _ _ _ _ _ _ _ _ _ _ Hrun Hin)
      as (vp & before & _ & _ & _ & -> & _).
    fold opts. rewrite Hext. reflexivity.
  - intros Hw. split.
    + intros path content Hin. by destruct (Hw _ Hin eq_refl) as [body Hbody].
    + intros path content Hin. destruct (Hw _ Hin eq_refl) as [body [= -> ->]].
      split; [done|]. by exists body.
  - intros ev Hin Hkind.
    pose proof (WriteFacts.subtitle_events _ _ _ _ _ _ _ _ _ Hrun Hin (or_intror Hkind))
      as Hsub.
    cbv zeta in Hsub. fold opts in Hsub. rewrite Htype, Hext in Hsub.
    fold ass_path in Hsub. cbn [String.eqb Ascii.eqb Bool.eqb] in Hsub.
    destruct (PyStr.startswith caption_srt "https") eqn:Hs.
    + pose proof (SubtitleFacts.write_subtitle_remote w job_id caption_srt "ass"
                    ass_path (dict_get opts "one_word_mode" (VBool false))
                    (ass_header (generate_style_line opts)) opts Hs) as Hremote.
      cbv zeta in Hremote. rewrite Hremote, Hone in Hsub. clear Hremote.
      destruct (requests_get w caption_srt) as [response|e];
        [destruct (raise_for_status response) as [[]|e];
         [destruct (convert_srt_to_one_word_ass _ opts) as [body|e];
          [destruct (write_text w ass_path _) as [[]|e]|]|]|];
        cbn [snd app] in Hsub;
        repeat (apply elem_of_cons in Hsub as [Hsub|Hsub];
                [first [by subst ev | by eexists]|]);
        by apply elem_of_nil in Hsub.
    + rewrite (SubtitleFacts.write_subtitle_inline _ _ _ _ _ _ _ _ Hs), Hone in Hsub.
      destruct (convert_srt_to_one_word_ass caption_srt opts) as [body|e];
        cbn [fmap result_fmap] in Hsub;
        try destruct (write_text w ass_path _) as [[]|e'];
        cbn [snd] in Hsub;
        repeat (apply elem_of_cons in Hsub as [Hsub|Hsub];
                [first [by subst ev | by eexists]|]);
        by apply elem_of_nil in Hsub.
Qed.

Lemma X10_witness :
  EvEncode "/tmp/video.mp4" "/tmp/job1_captioned.mp4" "subtitles='/tmp/job1.ass'" "copy"
  ∈ (process_captioning world_ok "https://example.com/video.mp4"
       ("1" +:+ nl +:+ "00:00:00,000 --> 00:00:02,000" +:+ nl +:+ "hello world")
       "srt" [("one_word_mode", VBool true)] "job1" []).2
  /\ "subtitles='/tmp/job1.ass'"
     = "subtitles='" +:+ os_path_join STORAGE_PATH ("job1" +:+ ".ass") +:+ "'".
Proof.
  assert (EvEncode "/tmp/video.mp4" "/tmp/job1_captioned.mp4" "subtitles='/tmp/job1.ass'"
            "copy"
          ∈ (process_captioning world_ok "https://example.com/video.mp4"
               ("1" +:+ nl +:+ "00:00:00,000 --> 00:00:02,000" +:+ nl +:+ "hello world")
               "srt" [("one_word_mode", VBool true)] "job1" []).2) as Hin.
  { apply (list_elem_of_lookup_2 _ 12%nat). reflexivity. }
  split; [exact Hin|].
  destruct (X10_one_word_mode_forces_ass world_ok "https://example.com/video.mp4"
              ("1" +:+ nl +:+ "00:00:00,000 --> 00:00:02,000" +:+ nl +:+ "hello world")
              "srt" [("one_word_mode", VBool true)] "job1"
              (process_captioning world_ok "https://example.com/video.mp4"
                 ("1" +:+ nl +:+ "00:00:00,000 --> 00:00:02,000" +:+ nl +:+ "hello world")
                 "srt" [("one_word_mode", VBool true)] "job1" []).1
              (process_captioning world_ok "https://example.com/video.mp4"
                 ("1" +:+ nl +:+ "00:00:00,000 --> 00:00:02,000" +:+ nl +:+ "hello world")
                 "srt" [("one_word_mode", VBool true)] "job1" []).2)
    as [Hf _].
  - apply surjective_pairing.
  - reflexivity.
  - exact (Hf _ _ _ _ Hin).
Defined.

(** X11.  Bytes are written as they came only for a caption that was
    fetched, outside one-word mode, for the caption types [srt] and
    [vtt]: then the subtitle file receives the body of the reply,
    unchanged and without a header. *)
Theorem X11_fetched_bytes_written_unchanged
    (w : world) (file_url caption_srt caption_type : string)
    (options : list (string * pyval)) (job_id : string)
    (r : result string) (trace : list event) (path : string) (content : list byte) :
  let opts := foldl (fun d item => <[fst item := snd item]> d) ∅ options in
  process_captioning w file_url caption_srt caption_type options job_id [] = (r, trace) ->
  EvWriteBytes path content ∈ trace ->
  PyStr.startswith caption_srt "https" = true
  /\ py_truthy (dict_get opts "one_word_mode" (VBool false)) = false
  /\ (caption_type = "srt" \/ caption_type = "vtt")
  /\ path = os_path_join STORAGE_PATH (job_id +:+ "." +:+ caption_type)
  /\ exists response,
       requests_get w caption_srt = Ok response
       /\ raise_for_status response = Ok tt
       /\ content = response_content response.
Proof.
  intros opts Hrun Hin.
  pose proof (WriteFacts.subtitle_events _ _ _ _ _ _ _ _ _ Hrun Hin
                (or_intror eq_refl)) as Hsub.
  cbv zeta in Hsub. fold opts in Hsub.
  destruct (PyStr.startswith caption_srt "https") eqn:Hs.
  2:{ rewrite (SubtitleFacts.write_subtitle_inline _ _ _ _ _ _ _ _ Hs) in Hsub.
      exfalso.
      destruct (py_truthy _);
        [destruct (convert_srt_to_one_word_ass caption_srt opts) as [body|e]|];
        cbn [fmap result_fmap] in Hsub;
        try destruct (write_text w _ _) as [[]|e'];
        cbn [snd] in Hsub;
        repeat (apply elem_of_cons in Hsub as [Hsub|Hsub]; [done|]);
        by apply elem_of_nil in Hsub. }
  split; [reflexivity|].
  match type of Hsub with
  | context [write_subtitle w job_id caption_srt ?ty ?p ?o ?st opts []] =>
      pose proof (SubtitleFacts.write_subtitle_remote w job_id caption_srt ty p o st
                    opts Hs) as Hremote
  end.
  cbv zeta in Hremote. rewrite Hremote in Hsub. clear Hremote.
  destruct (py_truthy (dict_get opts "one_word_mode" (VBool false))) eqn:Hone.
  { exfalso.
    destruct (requests_get w caption_srt) as [response|e];
      [destruct (raise_for_status response) as [[]|e];
       [destruct (convert_srt_to_one_word_ass _ opts) as [body|e];
        [destruct (write_text w _ _) as [[]|e]|]|]|];
      cbn [snd app] in Hsub;
      repeat (apply elem_of_cons in Hsub as [Hsub|Hsub]; [done|]);
      by apply elem_of_nil in Hsub. }
  split; [reflexivity|]. cbn [andb] in Hsub.
  destruct (requests_get w caption_srt) as [response|e];
    [destruct (raise_for_status response) as [[]|e] eqn:Hstatus|].
  2,3: exfalso; cbn [snd] in Hsub;
    repeat (apply elem_of_cons in Hsub as [Hsub|Hsub]; [done|]);
    by apply elem_of_nil in Hsub.
  destruct (String.eqb caption_type "srt" || String.eqb caption_type "vtt") eqn:Hty.
  2:{ exfalso. destruct (write_text w _ _) as [[]|e]; cbn [snd app] in Hsub;
      repeat (apply elem_of_cons in Hsub as [Hsub|Hsub]; [done|]);
      by apply elem_of_nil in Hsub. }
  split.
  { apply orb_true_iff in Hty as [Hty|Hty]; apply String.eqb_eq in Hty; tauto. }
  assert (EvWriteBytes path content
          = EvWriteBytes (os_path_join STORAGE_PATH (job_id +:+ "." +:+ caption_type))
              (response_content response)) as [= -> ->].
  { destruct (write_bytes w _ _) as [[]|e]; cbn [snd app] in Hsub;
      repeat (apply elem_of_cons in Hsub as [Hsub|Hsub]; [done|]);
      by apply elem_of_nil in Hsub. }
  split; [reflexivity|]. exists response. by repeat split.
Qed.

Lemma X11_witness :
  exists response,
    requests_get world_ok "https://example.com/captions.srt" = Ok response
    /\ EvWriteBytes "/tmp/job1.srt" (response_content response)
       ∈ (process_captioning world_ok "https://example.com/video.mp4"
            "https://example.com/captions.srt" "srt" [] "job1" []).2.
Proof.
  pose proof (X11_fetched_bytes_written_unchanged world_ok
                "https://example.com/video.mp4" "https://example.com/captions.srt"
                "srt" [] "job1"
                (process_captioning world_ok "https://example.com/video.mp4"
                   "https://example.com/captions.srt" "srt" [] "job1" []).1
                (process_captioning world_ok "https://example.com/video.mp4"
                   "https://example.com/captions.srt" "srt" [] "job1" []).2
                "/tmp/job1.srt" []) as Hx.
  cbv zeta in Hx.
  assert (EvWriteBytes "/tmp/job1.srt" []
          ∈ (process_captioning world_ok "https://example.com/video.mp4"
               "https://example.com/captions.srt" "srt" [] "job1" []).2) as Hin.
  { apply (list_elem_of_lookup_2 _ 6%nat). reflexivity. }
  destruct (Hx (surjective_pairing _) Hin) as (_ & _ & _ & _ & response & Hget & _ & Hc).
  exists response. split; [exact Hget|]. by rewrite <- Hc.
Defined.

(** X12.  When the caption cannot be fetched, because the request fails
    or because the reply has an error status, the job fails with that
    exception right after the fetch: nothing is written, and the encoder
    is not run. *)
Theorem X12_failed_fetch_fails_job
    (w : world) (file_url caption_srt caption_type : string)
    (options : list (string * pyval)) (job_id : string)
    (r : result string) (trace : list event) (video_path : string) (e : exn) :
  process_captioning w file_url caption_srt caption_type options job_id [] = (r, trace) ->
  PyStr.startswith caption_srt "https" = true ->
  download_file w file_url STORAGE_PATH = Ok video_path ->
  requests_get w caption_srt ≫= raise_for_status = Raise e ->
  r = Raise e
  /\ kinds_within [KLog; KDownload; KFetch] trace = true
  /\ exists before,
       trace = before ++ [EvHttpGet caption_srt; error_entry w job_id e].
Proof.
  intros Hrun Hs Hdl Hfetch.
  pose proof (SubtitleFacts.subtitle_step_in_trace _ _ _ _ _ _ _ _ Hrun) as Hshape.
  cbv zeta in Hshape. rewrite Hdl in Hshape.
  destruct Hshape as (before & after & -> & Hb & _ & Hfail).
  match type of Hfail with
  | context [write_subtitle w job_id caption_srt ?ty ?p ?o ?st ?op []] =>
      pose proof (SubtitleFacts.write_subtitle_remote w job_id caption_srt ty p o st
                    op Hs) as Hremote
  end.
  cbv zeta in Hremote. rewrite Hremote in Hfail |- *. clear Hremote.
  destruct (requests_get w caption_srt) as [response|e'];
    cbn [mbind result_bind] in Hfetch.
  - rewrite Hfetch in Hfail |- *. cbn [fst snd] in Hfail |- *.
    destruct (Hfail e eq_refl) as [-> ->]. split; [reflexivity|]. split.
    + rewrite !PipelineFacts.kinds_within_app.
      rewrite (PipelineFacts.kinds_within_mono [KLog; KDownload]
                 [KLog; KDownload; KFetch] _ ltac:(by intros []) Hb).
      reflexivity.
    + eexists (before ++ [_]). by rewrite <- app_assoc.
  - injection Hfetch as ->. cbn [fst snd] in Hfail |- *.
    destruct (Hfail e eq_refl) as [-> ->]. split; [reflexivity|]. split.
    + rewrite !PipelineFacts.kinds_within_app.
      rewrite (PipelineFacts.kinds_within_mono [KLog; KDownload]
                 [KLog; KDownload; KFetch] _ ltac:(by intros []) Hb).
      reflexivity.
    + eexists (before ++ [_]). by rewrite <- app_assoc.
Qed.

Lemma X12_witness :
  let w :=
    world_with (Ok "/tmp/video.mp4")
      (Ok (Response (Raise (ExternalError "HTTPError")) "Not Found" []))
      (fun _ => Ok tt) in
  (process_captioning w "https://example.com/video.mp4"
     "https://example.com/captions.srt" "srt" [] "job1" []).1
  = Raise (ExternalError "HTTPError").
Proof.
  intros w.
  destruct (X12_failed_fetch_fails_job w "https://example.com/video.mp4"
              "https://example.com/captions.srt" "srt" [] "job1"
              (process_captioning w "https://example.com/video.mp4"
                 "https://example.com/captions.srt" "srt" [] "job1" []).1
              (process_captioning w "https://example.com/video.mp4"
                 "https://example.com/captions.srt" "srt" [] "job1" []).2
              "/tmp/video.mp4" (ExternalError "HTTPError"))
    as [Hr _].
  - apply surjective_pairing.
  - reflexivity.
  - reflexivity.
  - reflexivity.
  - exact Hr.
Defined.

Module ClauseFacts.

Lemma join_head sep x l : exists rest, PyStr.join sep (x :: l) = x +:+ rest.
Proof.
  destruct l as [|y l].
  - exists "". cbn [PyStr.join]. by rewrite StrFacts.app_empty_r.
  - by eexists.
Qed.

(** The clause begins with the font name item when the font name is
    not [None]. *)
Lemma clause_head font_name options :
  is_not_none font_name = true ->
  exists rest,
    force_style_clause (force_style_options font_name options)
    = "FontName=" +:+ py_str font_name +:+ rest.
Proof.
  intros Hsome. unfold force_style_clause.
  unfold force_style_options at 1.
  rewrite filter_cons_True by done. cbn [map fst snd].
  match goal with
  | |- context [PyStr.join "," (?x :: ?l)] =>
      destruct (join_head "," x l) as [rest ->]
  end.
  exists rest. by rewrite !StrFacts.app_assoc'.
Qed.

End ClauseFacts.

(** X13.  When the font of a job is not in the font table and the
    encoder is reached, the warning that the default font Arial is used
    has been logged, and yet a filter with a [force_style] clause still
    names the font that was asked for: the path chosen by the font step
    does not reach the encoder. *)
Theorem X13_missing_font_named_in_filter
    (w : world) (file_url caption_srt caption_type : string)
    (options : list (string * pyval)) (job_id : string)
    (r : result string) (trace : list event) (v o f a : string) :
  let opts := foldl (fun d item => <[fst item := snd item]> d) ∅ options in
  let forced := py_truthy (dict_get opts "one_word_mode" (VBool false))
                && negb (String.eqb caption_type "ass") in
  let subtitle_extension := if forced then ".ass" else "." +:+ caption_type in
  let srt_path := os_path_join STORAGE_PATH (job_id +:+ subtitle_extension) in
  let font_name := dict_get opts "font_name" (VStr "Arial") in
  process_captioning w file_url caption_srt caption_type options job_id [] = (r, trace) ->
  EvEncode v o f a ∈ trace ->
  font_lookup w font_name = Ok None ->
  EvLog WARNING ("Job " +:+ job_id +:+ ": Font " +:+ py_str font_name
                 +:+ " not found. Using default font Arial.") ∈ trace
  /\ (subtitle_extension <> ".ass" ->
      is_not_none font_name = true ->
      exists rest,
        f = "subtitles=" +:+ srt_path +:+ ":force_style='FontName="
            +:+ py_str font_name +:+ rest).
Proof.
  intros opts forced subtitle_extension srt_path font_name Hrun Hin Hmiss.
  split.
  - destruct (FontFacts.font_step_in_trace _ _ _ _ _ _ _ _ _ _ _ _ Hrun Hin)
      as [_ Hfont].
    apply Hfont. fold opts. fold font_name.
    rewrite PipelineFacts.select_font_run, Hmiss. cbn [snd].
    apply elem_of_cons. by left.
  - intros Hext Hsome.
    destruct (EncodeFacts.encode_reached _ _ _ _ _ _ _ _ _ _ _ _ Hrun Hin)
      as (vp & before & _ & _ & _ & -> & _).
    fold opts. fold forced. fold subtitle_extension. fold srt_path. fold font_name.
    apply String.eqb_neq in Hext. rewrite Hext.
    destruct (ClauseFacts.clause_head font_name opts Hsome) as [rest ->].
    exists (rest +:+ "'").
    by rewrite !StrFacts.app_assoc'.
Qed.

Lemma X13_witness :
  exists rest,
    EvEncode "/tmp/video.mp4" "/tmp/job1_captioned.mp4"
      ("subtitles=/tmp/job1.srt:force_style='FontName=Comic Sans" +:+ rest) "copy"
    ∈ (process_captioning world_ok "https://example.com/video.mp4" "caption" "srt"
         [("font_name", VStr "Comic Sans")] "job1" []).2.
Proof.
  pose proof (X13_missing_font_named_in_filter world_ok "https://example.com/video.mp4"
                "caption" "srt" [("font_name", VStr "Comic Sans")] "job1"
                (process_captioning world_ok "https://example.com/video.mp4" "caption"
                   "srt" [("font_name", VStr "Comic Sans")] "job1" []).1
                (process_captioning world_ok "https://example.com/video.mp4" "caption"
                   "srt" [("font_name", VStr "Comic Sans")] "job1" []).2
                "/tmp/video.mp4" "/tmp/job1_captioned.mp4"
                ("subtitles=/tmp/job1.srt:force_style='"
                 +:+ force_style_clause
                       (force_style_options (VStr "Comic Sans")
                          {[ "font_name" := VStr "Comic Sans" ]})
                 +:+ "'")
                "copy") as Hx.
  cbv zeta in Hx.
  assert (EvEncode "/tmp/video.mp4" "/tmp/job1_captioned.mp4"
            ("subtitles=/tmp/job1.srt:force_style='"
             +:+ force_style_clause
                   (force_style_options (VStr "Comic Sans")
                      {[ "font_name" := VStr "Comic Sans" ]})
             +:+ "'")
            "copy"
          ∈ (process_captioning world_ok "https://example.com/video.mp4" "caption"
               "srt" [("font_name", VStr "Comic Sans")] "job1" []).2) as Hin.
  { apply (list_elem_of_lookup_2 _ 10%nat). vm_compute. reflexivity. }
  destruct (Hx (surjective_pairing _) Hin eq_refl) as [_ Hf].
  destruct Hf as [rest Hrest]; [discriminate | reflexivity |].
  exists rest.
  exact (eq_rect _ (fun vf =>
                      EvEncode "/tmp/video.mp4" "/tmp/job1_captioned.mp4" vf "copy"
                      ∈ (process_captioning world_ok "https://example.com/video.mp4"
                           "caption" "srt" [("font_name", VStr "Comic Sans")] "job1"
                           []).2)
               Hin _ Hrest).
Defined.

(** * Further properties of the conversion of blocks *)

Module ArrowFacts.

Import StrFacts.

(** A text that does not hold the separator is not split. *)
Lemma split_go_without sep s :
  contains sep s = false ->
  forall cur, PyStr.split_go sep 0 cur s = [String.rev cur +:+ s].
Proof.
  induction s as [|c s IH]; intros Hs cur.
  - cbn [PyStr.split_go]. by rewrite app_empty_r.
  - cbn [contains] in Hs. apply orb_false_iff in Hs as [Hp Hs].
    cbn [PyStr.split_go]. rewrite Hp, (IH Hs).
    unfold String.rev. cbn [String.rev_app].
    by rewrite rev_app_app, app_assoc'.
Qed.

Lemma split_without sep s : contains sep s = false -> PyStr.split sep s = [s].
Proof. intros Hs. unfold PyStr.split. by rewrite (split_go_without sep s Hs). Qed.

Lemma parse_timecode_error text e : parse_timecode text = Raise e -> e = ValueError.
Proof. apply ParseFacts.sum_weighted_error. Qed.

End ArrowFacts.

(** X14.  A block of three lines or more whose second line does not
    hold the separator [ --> ] is not skipped: it makes the conversion
    fail, with [IndexError] when the whole line reads as a timecode (the
    end time is missing), with [ValueError] when it does not. *)
Theorem X14_timing_line_without_arrow
    (highlight_color regular_color : pyval) (line : string) (rest : list string)
    (timing : string) :
  (3 <= length (PyStr.split nl line))%nat ->
  PyStr.split nl line !! 1%nat = Some timing ->
  contains " --> " timing = false ->
  convert_blocks highlight_color regular_color (line :: rest)
  = Raise (if is_ok (parse_timecode timing) then IndexError else ValueError).
Proof.
  intros Hlen Htiming Harrow. cbn [convert_blocks].
  apply Nat.leb_le in Hlen. rewrite Hlen.
  unfold block_cue, py_index. rewrite Htiming. cbn [mbind result_bind].
  rewrite (ArrowFacts.split_without _ _ Harrow). cbn [lookup list_lookup mbind result_bind].
  destruct (parse_timecode timing) as [start_time|e] eqn:Hparse; cbn [mbind result_bind is_ok].
  - reflexivity.
  - by rewrite (ArrowFacts.parse_timecode_error _ _ Hparse).
Qed.

Lemma X14_witness :
  convert_blocks (VStr "FFFFFF") (VStr "AAAAAA")
    ["1" +:+ nl +:+ "00:00:01,000" +:+ nl +:+ "hello"; "2"]
  = Raise IndexError.
Proof.
  apply (X14_timing_line_without_arrow (VStr "FFFFFF") (VStr "AAAAAA")
           ("1" +:+ nl +:+ "00:00:01,000" +:+ nl +:+ "hello") ["2"] "00:00:01,000").
  - vm_compute. lia.
  - reflexivity.
  - reflexivity.
Defined.

(** X15.  A start or an end time that is not finite ([inf], [nan]) makes
    the expansion of a cue with at least one word fail with
    [ValueError]: the start of the first word is then not a number, and
    its hour field cannot be made an integer. *)
Theorem X15_non_finite_time_raises_ValueError
    (caption_text : string) (start_time end_time : pyfloat)
    (highlight_color regular_color : pyval) :
  PyStr.split_ws (PyStr.strip caption_text) <> [] ->
  PyFloat.is_finite start_time && PyFloat.is_finite end_time = false ->
  process_single_word_caption caption_text start_time end_time
    highlight_color regular_color
  = Raise ValueError.
Proof.
  intros Hwords Hinf. unfold process_single_word_caption.
  destruct (PyStr.split_ws (PyStr.strip caption_text)) as [|word words]; [done|].
  unfold PyFloat.div_int.
  assert ((Z.of_nat (length (word :: words)) =? 0)%Z = false) as ->
    by (apply Z.eqb_neq; cbn [length]; lia).
  cbn [mbind result_bind word_lines].
  assert (forall d, word_line (word :: words) start_time d highlight_color
                      regular_color 0 word = Raise ValueError
                    -> (l ← word_line (word :: words) start_time d highlight_color
                              regular_color 0 word;
                        ls ← word_lines (word :: words) start_time d highlight_color
                               regular_color 1 words;
                        mret (l :: ls)) = Raise ValueError) as Hstep.
  { intros d ->. reflexivity. }
  apply Hstep. unfold word_line, word_window.
  destruct start_time as [a|s|], end_time as [b|t|]; try done;
    cbn [PyFloat.sub PyFloat.neg PyFloat.add PyFloat.mul_int Z.of_nat Z.eqb];
    try (destruct s); try (destruct t); reflexivity.
Qed.

Lemma X15_witness :
  process_single_word_caption "hello world" (PInf false) (PFin 2)
    (VStr "FFFFFF") (VStr "AAAAAA")
  = Raise ValueError.
Proof.
  apply X15_non_finite_time_raises_ValueError; [discriminate | reflexivity].
Defined.

(** X16.  The seconds field is not carried into the minutes: a time
    whose seconds within the minute exceed 59.995 is written with the
    seconds field [60.00], after the hour and the minute the time lies
    in. *)
Theorem X16_seconds_rounded_up_not_carried (x y : Q) :
  (0 <= x)%Q ->
  PyFloat.mod_int (PFin x) 60 = Ok (PFin y) ->
  (59995 # 1000 < y)%Q ->
  exists h m : Z,
    format_timecode (PFin x)
    = Ok (PyStr.of_int h +:+ ":" +:+ PyStr.fmt_02d m +:+ ":60.00")
    /\ (0 <= h)%Z /\ (0 <= m < 60)%Z
    /\ (inject_Z h * 3600 + inject_Z m * 60 <= x)%Q
    /\ (x < inject_Z h * 3600 + inject_Z m * 60 + 60)%Q.
Proof.
  intros Hx Hy Hlate.
  destruct (QFacts.timecode_fields x Hx) as (Hh & Hm & Hy0 & Hy1 & Hsum & _ & _).
  cbv zeta in Hh, Hm, Hy0, Hy1, Hsum.
  rewrite (TimecodeFacts.format_timecode_nonneg x Hx).
  set (h := Qfloor (x / inject_Z 3600)) in *.
  set (m := Qfloor ((x - inject_Z 3600 * inject_Z h) / inject_Z 60)) in *.
  set (y0 := (x - inject_Z 60 * inject_Z (Qfloor (x / inject_Z 60)))%Q) in *.
  change (Ok (PFin y0) = Ok (PFin y)) in Hy.
  assert (y0 = y) as Heq by congruence.
  clearbody y0. subst y0. clear Hy.
  destruct (TimecodeFacts.round_half_even_spec (y * inject_Z 100)) as (Hr1 & Hr2 & Hr3).
  set (cs := PyFloat.round_half_even (y * inject_Z 100)) in *.
  assert (Qfloor (y * inject_Z 100) = 5999%Z) as Hfloor.
  { apply QFacts.Qfloor_unique; change (inject_Z 100) with 100%Q.
    - change (inject_Z 5999) with 5999%Q. lra.
    - change (inject_Z (5999 + 1)) with 6000%Q. lra. }
  assert (cs = 6000%Z) as ->.
  { rewrite Hfloor in Hr1. change (inject_Z 100) with 100%Q in Hr2.
    assert (inject_Z 5999 < inject_Z cs)%Q as Hlt
      by (change (inject_Z 5999) with 5999%Q; lra).
    rewrite <- Zlt_Qlt in Hlt. lia. }
  exists h, m. split; [reflexivity|]. split; [done|]. split; [done|]. split; lra.
Qed.

Lemma X16_witness :
  exists h m : Z,
    format_timecode (PFin (59999 # 1000))
    = Ok (PyStr.of_int h +:+ ":" +:+ PyStr.fmt_02d m +:+ ":60.00").
Proof.
  destruct (X16_seconds_rounded_up_not_carried (59999 # 1000) (59999 # 1000))
    as (h & m & Htext & _).
  - by vm_compute.
  - vm_compute. reflexivity.
  - by vm_compute.
  - exists h, m. exact Htext.
Defined.

(** X17.  Content none of whose blocks has three lines converts to the
    empty text: no block is an error, and no line is produced. *)
Theorem X17_no_block_gives_empty_text
    (srt_content : string) (options : gmap string pyval) :
  forallb short_block (PyStr.split (nl +:+ nl) (PyStr.strip srt_content)) = true ->
  convert_srt_to_one_word_ass srt_content options = Ok "".
Proof.
  intros Hshort. unfold convert_srt_to_one_word_ass.
  assert (forall hl rc lines,
            forallb short_block lines = true -> convert_blocks hl rc lines = Ok [])
    as Hnone.
  { intros hl rc lines. induction lines as [|line lines IH]; [done|].
    cbn [forallb convert_blocks]. intros [Hline Hrest]%andb_true_iff.
    unfold short_block in Hline. apply negb_true_iff in Hline.
    rewrite Hline. by apply IH. }
  by rewrite Hnone.
Qed.

Lemma X17_witness :
  convert_srt_to_one_word_ass ("1" +:+ nl +:+ "00:00:00,000 --> 00:00:01,000") ∅ = Ok "".
Proof. apply X17_no_block_gives_empty_text. reflexivity. Defined.

(** * The font table *)

Module FontTableFacts.

Import StrFacts.

Lemma endswith_app a p : PyStr.endswith (a +:+ p) p = true.
Proof.
  induction a as [|c a IH].
  - destruct p; cbn [append PyStr.endswith]; by rewrite String.eqb_refl.
  - cbn [append PyStr.endswith]. rewrite IH. apply orb_true_r.
Qed.

Lemma rfind_app_some c a b i :
  PyStr.rfind c b = Some i -> PyStr.rfind c (a +:+ b) = Some (String.length a + i)%nat.
Proof.
  intros Hb. induction a as [|x a IH]; [done|].
  cbn [append PyStr.rfind String.length]. by rewrite IH.
Qed.

Lemma rfind_app_none c a b :
  PyStr.rfind c b = None -> PyStr.rfind c (a +:+ b) = PyStr.rfind c a.
Proof.
  intros Hb. induction a as [|x a IH]; [done|].
  cbn [append PyStr.rfind]. by rewrite IH.
Qed.

Lemma rfind_none c s : all_chars (not_char c) s = true -> PyStr.rfind c s = None.
Proof.
  induction s as [|x s IH]; [done|]. cbn [all_chars PyStr.rfind].
  intros [Hx Hs]%andb_true_iff. rewrite (IH Hs).
  unfold not_char in Hx. apply negb_true_iff in Hx. by rewrite Hx.
Qed.

Lemma substring_app_l a b : String.substring 0 (String.length a) (a +:+ b) = a.
Proof.
  induction a as [|x a IH]; cbn [append String.length String.substring].
  - by destruct b.
  - by rewrite IH.
Qed.

(** The name and the extension of a font file. *)
Lemma splitext_font stem ext :
  ext = ".ttf" \/ ext = ".TTF" ->
  all_chars (not_char "/") stem = true ->
  only_dots stem = false ->
  (os_path_splitext (stem +:+ ext)).1 = stem.
Proof.
  intros Hext Hslash Hdots. unfold os_path_splitext.
  assert (PyStr.rfind "/" ext = None /\ PyStr.rfind "." ext = Some 0%nat) as [Hs Hd]
    by (by destruct Hext as [-> | ->]).
  rewrite (rfind_app_none _ _ _ Hs), (rfind_none _ _ Hslash).
  rewrite (rfind_app_some _ _ _ _ Hd), Nat.add_0_r, Nat.sub_0_r.
  rewrite substring_app_l, Hdots. reflexivity.
Qed.

Lemma join_fonts_dir stem ext :
  all_chars (not_char "/") stem = true ->
  only_dots stem = false ->
  os_path_join FONTS_DIR (stem +:+ ext) = "/usr/share/fonts/custom/" +:+ stem +:+ ext.
Proof.
  intros Hslash Hdots. destruct stem as [|c stem]; [done|].
  cbn [all_chars] in Hslash. apply andb_true_iff in Hslash as [Hc _].
  unfold not_char in Hc. apply negb_true_iff in Hc.
  unfold os_path_join.
  change (String c stem +:+ ext) with (String c (stem +:+ ext)).
  rewrite (prefix_1 "/" c), Hc. reflexivity.
Qed.

(** One step of the loop of lines 21 to 24. *)
Lemma font_paths_snoc listing font_file :
  FONT_PATHS_from (listing ++ [font_file])
  = if PyStr.endswith font_file ".ttf" || PyStr.endswith font_file ".TTF"
    then <[(os_path_splitext font_file).1 := os_path_join FONTS_DIR font_file]>
           (FONT_PATHS_from listing)
    else FONT_PATHS_from listing.
Proof. unfold FONT_PATHS_from. by rewrite foldl_app. Qed.

End FontTableFacts.

(** X18.  A font file is registered under its name without the
    extension [.ttf] or [.TTF], with its path in the fonts directory;
    of two files of the same name, the one listed last is kept. *)
Theorem X18_font_registered_under_stem (listing : list string) (stem ext : string) :
  ext = ".ttf" \/ ext = ".TTF" ->
  all_chars (not_char "/") stem = true ->
  only_dots stem = false ->
  FONT_PATHS_from (listing ++ [stem +:+ ext]) !! stem
  = Some ("/usr/share/fonts/custom/" +:+ stem +:+ ext).
Proof.
  intros Hext Hslash Hdots.
  rewrite FontTableFacts.font_paths_snoc.
  assert (PyStr.endswith (stem +:+ ext) ".ttf" || PyStr.endswith (stem +:+ ext) ".TTF" = true) as ->.
  { destruct Hext as [-> | ->]; rewrite FontTableFacts.endswith_app;
      [done | apply orb_true_r]. }
  rewrite (FontTableFacts.splitext_font _ _ Hext Hslash Hdots).
  rewrite (FontTableFacts.join_fonts_dir _ _ Hslash Hdots).
  apply lookup_insert_eq.
Qed.

Lemma X18_witness :
  FONT_PATHS_from (["Arial.ttf"; "notes.txt"] ++ ["Arial" +:+ ".TTF"]) !! "Arial"
  = Some "/usr/share/fonts/custom/Arial.TTF".
Proof.
  apply (X18_font_registered_under_stem ["Arial.ttf"; "notes.txt"] "Arial" ".TTF").
  - by right.
  - reflexivity.
  - reflexivity.
Defined.

(** X19.  Every entry of the font table comes from a listed file whose
    name ends with [.ttf] or [.TTF]: the font name is the root of that
    file name and the path is the file in the fonts directory.  Files
    with any other ending, [.otf] or [.Ttf] say, leave no entry. *)
Theorem X19_font_table_entries (listing : list string) (font_name path : string) :
  FONT_PATHS_from listing !! font_name = Some path ->
  exists font_file,
    font_file ∈ listing
    /\ (PyStr.endswith font_file ".ttf" = true \/ PyStr.endswith font_file ".TTF" = true)
    /\ font_name = (os_path_splitext font_file).1
    /\ path = os_path_join FONTS_DIR font_file.
Proof.
  induction listing as [|font_file listing IH] using rev_ind.
  - unfold FONT_PATHS_from. cbn [foldl]. intros Hin. by rewrite lookup_empty in Hin.
  - rewrite FontTableFacts.font_paths_snoc.
    destruct (PyStr.endswith font_file ".ttf" || PyStr.endswith font_file ".TTF") eqn:Hext.
    + destruct (decide ((os_path_splitext font_file).1 = font_name)) as [Heq|Hne].
      * rewrite Heq, lookup_insert_eq. intros [= <-].
        exists font_file. split; [apply elem_of_app; right; by apply list_elem_of_singleton|].
        split; [by apply orb_true_iff|]. done.
      * rewrite lookup_insert_ne by done. intros Hin.
        destruct (IH Hin) as (f & Hf & Hrest). exists f.
        split; [apply elem_of_app; by left | done].
    + intros Hin. destruct (IH Hin) as (f & Hf & Hrest). exists f.
      split; [apply elem_of_app; by left | done].
Qed.

Lemma X19_witness :
  exists font_file,
    font_file ∈ ["Arial.ttf"; "Mono.otf"]
    /\ "Arial" = (os_path_splitext font_file).1
    /\ "/usr/share/fonts/custom/Arial.ttf" = os_path_join FONTS_DIR font_file.
Proof.
  destruct (X19_font_table_entries ["Arial.ttf"; "Mono.otf"] "Arial"
              "/usr/share/fonts/custom/Arial.ttf")
    as (font_file & Hin & _ & Hname & Hpath).
  - reflexivity.
  - by exists font_file.
Defined.

(** X20.  The output file of a job is [<job_id>_captioned.mp4] in the
    scratch directory, unless the job id starts with a slash: then the
    scratch directory is dropped and the output path is the job id
    itself with that suffix. *)
Theorem X20_output_path_of_job
    (w : world) (file_url caption_srt caption_type : string)
    (options : list (string * pyval)) (job_id : string)
    (r : result string) (trace : list event) (v o f a : string) :
  process_captioning w file_url caption_srt caption_type options job_id [] = (r, trace) ->
  EvEncode v o f a ∈ trace ->
  o = (if PyStr.startswith job_id "/" then "" else "/tmp/")
      +:+ job_id +:+ "_captioned.mp4".
Proof.
  intros Hrun Hin.
  destruct (EncodeFacts.encode_reached _ _ _ _ _ _ _ _ _ _ _ _ Hrun Hin)
    as (vp & before & _ & _ & -> & _).
  unfold os_path_join, PyStr.startswith.
  destruct job_id as [|c job_id]; [reflexivity|].
  change (String c job_id +:+ "_captioned.mp4")
    with (String c (job_id +:+ "_captioned.mp4")).
  rewrite !(StrFacts.prefix_1 "/" c).
  by destruct (Ascii.eqb c "/").
Qed.

Lemma X20_witness :
  EvEncode "/tmp/video.mp4" "/srv/job1_captioned.mp4"
    ("subtitles=/srv/job1.srt:force_style='"
     +:+ force_style_clause (force_style_options (VStr "Arial") ∅) +:+ "'")
    "copy"
  ∈ (process_captioning world_ok "https://example.com/video.mp4" "caption" "srt" []
       "/srv/job1" []).2
  /\ "/srv/job1_captioned.mp4"
     = (if PyStr.startswith "/srv/job1" "/" then "" else "/tmp/")
       +:+ "/srv/job1" +:+ "_captioned.mp4".
Proof.
  assert (EvEncode "/tmp/video.mp4" "/srv/job1_captioned.mp4"
            ("subtitles=/srv/job1.srt:force_style='"
             +:+ force_style_clause (force_style_options (VStr "Arial") ∅) +:+ "'")
            "copy"
          ∈ (process_captioning world_ok "https://example.com/video.mp4" "caption" "srt"
               [] "/srv/job1" []).2) as Hin.
  { apply (list_elem_of_lookup_2 _ 10%nat). vm_compute. reflexivity. }
  split; [exact Hin|].
  apply (X20_output_path_of_job world_ok "https://example.com/video.mp4" "caption" "srt"
           [] "/srv/job1"
           (process_captioning world_ok "https://example.com/video.mp4" "caption" "srt" []
              "/srv/job1" []).1
           (process_captioning world_ok "https://example.com/video.mp4" "caption" "srt" []
              "/srv/job1" []).2 _ _ _ _ (surjective_pairing _) Hin).
Defined.

(** * Reading SRT timecodes *)

Module SrtFacts.

Import StrFacts TimecodeFacts.






End SrtFacts.


